(** * Order payment reconciliation of the yadujewels storefront

    A shallow embedding of the payment core of the repository:

    - [StockManagement]: [decrementStock], [restoreStock]   (lib/stockManagement.ts)
    - [VerifyPayment]:   the verify-payment route            (api/razorpay/verify-payment)
    - [Webhook]:         the webhook route                   (api/razorpay/webhook)
    - [CreateOrder]:     the create-order route              (api/razorpay/create-order)
    - [Cod]:             the cash-on-delivery route          (api/orders/cod)
    - [OrderStatus]:     the order status route              (api/orders/status)
    - [Pincode]:         the pincode lookup route            (api/pincode)
    - [Validations]:     [sanitizeHtml]                      (lib/validations.ts)
    - [Cart]:            the cart's state updates            (contexts/CartContext.tsx)

    The database is an explicit state ([Schema.DB]) threaded through the
    handlers.  Every Supabase call returns [{data, error}] in the source and
    the handlers branch on [error]; which calls fail during one request is an
    input of the model ([Faults], [ItemFault], [CreateEnv]).  Node's
    HMAC-SHA256 and [JSON.parse] are members of classes ([Crypto],
    [Webhook.Json]), so every statement holds for any implementation of
    them.  Request bodies are cast to their interfaces unchecked in the
    source: where a handler reads through a value a body need not have
    (the webhook's [payload], an element of [items]), the read throws and
    the route's [catch] answers; such values are [option]s here and the
    throw is the [None] branch.  Amounts are JavaScript numbers in the
    source; they are exact rationals here, which agree with finite doubles
    on every comparison the handlers make. *)

From Stdlib Require Import QArith Qcanon Ascii.
From stdpp Require Import gmap strings list fin_maps numbers.

Open Scope Z_scope.
Open Scope string_scope.

(** ** The tables (lib/supabase/types.ts) *)

Module Schema.

(** Row of [products]; the columns the payment core reads or writes.
    [stock_quantity] and [in_stock] are nullable. *)
Record Product := mkProduct {
  name : string;
  stock_quantity : option Z;
  in_stock : option bool;
  updated_at : string;
}.

Record ShippingAddress := mkAddress {
  fullName : string;
  phone : string;
  address : string;
  city : string;
  state : string;
  pincode : string;
}.

(** The shapes the handlers store in the JSON column [payment_metadata]. *)
Inductive PaymentMetadata :=
  | VerificationFailed (razorpay_payment_id error timestamp : string)
  | Verified (verified_at verification_method : string)
  | CapturedViaWebhook (captured_at : string) (amount : Z) (currency method : string)
      (bank wallet vpa : option string) (contact email : string)
  | FailedViaWebhook (failed_at : string)
      (error_code error_description error_reason : option string).

(** Row of [orders], keyed by its [id] in [DB]: the columns the routes
    read or write.  [order_updated_at] is the column [updated_at] (the name
    is taken by [Product]). *)
Record Order := mkOrder {
  user_id : option string;
  total_amount : Qc;
  shipping_address : ShippingAddress;
  notes : option string;
  status : option string;
  payment_status : option string;
  payment_method : option string;
  razorpay_order_id : option string;
  razorpay_payment_id : option string;
  razorpay_signature : option string;
  payment_metadata : option PaymentMetadata;
  order_updated_at : string;
}.

(** Row of [order_items]; [product_id] is nullable. *)
Record OrderItemRow := mkOrderItemRow {
  order_id : string;
  product_id : option string;
  product_name : string;
  product_image : option string;
  quantity : Z;
  price : Qc;
}.

Record DB := mkDB {
  orders : gmap string Order;
  order_items : list OrderItemRow;
  products : gmap string Product;
}.

Definition with_orders (os : gmap string Order) (db : DB) : DB :=
  {| orders := os; order_items := order_items db; products := products db |}.

Definition with_products (ps : gmap string Product) (db : DB) : DB :=
  {| orders := orders db; order_items := order_items db; products := ps |}.

Definition with_order_items (rows : list OrderItemRow) (db : DB) : DB :=
  {| orders := orders db; order_items := rows; products := products db |}.

End Schema.

(** ** lib/stockManagement.ts *)

Module StockManagement.

(** The [OrderItem] interface.  The callers cast rows of [order_items] to
    it, whose [product_id] is nullable, so the identifier is optional here
    ([None] is JavaScript's [null]). *)
Record OrderItem := mkOrderItem {
  product_id : option string;
  quantity : Z;
}.

(** What the loops push on [errors]. *)
Inductive StockError :=
  | ProductNotFound (pid : option string)
  | UpdateFailed (product_name : string)
  | ProcessingError (pid : option string).

(** [StockUpdateResult], together with the [products] table the calls
    have acted on. *)
Record StockUpdateResult := mkStockResult {
  stock_products : gmap string Schema.Product;
  errors : list StockError;
  updatedProducts : list (option string);
}.

(** [success: errors.length === 0] *)
Definition success (r : StockUpdateResult) : bool :=
  bool_decide (length (errors r) = 0%nat).

(** How the two database calls of one loop iteration behave: the
    [select ... single()] may return an error, the [update] may return an
    error, and either may throw (the iteration's [catch]). *)
Inductive ItemFault :=
  | NoFault
  | FetchError
  | UpdateError
  | Throws.

(** [select(...).eq("id", item.product_id).single()] on [products]. *)
Definition fetch_product (products : gmap string Schema.Product) (pid : option string)
  : option Schema.Product :=
  pid ≫= (products !!.).

(** [update({stock_quantity, in_stock, updated_at}).eq("id", pid)] on
    [products]: the three columns of the row with that id, if any. *)
Definition update_product (pid : option string) (newStock : Z) (isInStock : bool)
    (now : string) (products : gmap string Schema.Product)
  : gmap string Schema.Product :=
  match pid with
  | None => products
  | Some p =>
      alter (fun row => {| Schema.name := Schema.name row;
                           Schema.stock_quantity := Some newStock;
                           Schema.in_stock := Some isInStock;
                           Schema.updated_at := now |}) p products
  end.

Definition push_error (e : StockError) (r : StockUpdateResult) : StockUpdateResult :=
  {| stock_products := stock_products r;
     errors := errors r ++ [e];
     updatedProducts := updatedProducts r |}.

Definition push_updated (pid : option string) (ps : gmap string Schema.Product)
    (r : StockUpdateResult) : StockUpdateResult :=
  {| stock_products := ps;
     errors := errors r;
     updatedProducts := updatedProducts r ++ [pid] |}.

(** One iteration of the loop of [decrementStock]. *)
Definition decrement_item (now : string) (ft : ItemFault) (item : OrderItem)
    (r : StockUpdateResult) : StockUpdateResult :=
  match ft with
  | Throws => push_error (ProcessingError (product_id item)) r
  | FetchError => push_error (ProductNotFound (product_id item)) r
  | _ =>
    match fetch_product (stock_products r) (product_id item) with
    | None => push_error (ProductNotFound (product_id item)) r
    | Some product =>
        let currentStock := default 0 (Schema.stock_quantity product) in
        let newStock := Z.max 0 (currentStock - quantity item) in
        let isInStock := newStock >? 0 in
        match ft with
        | UpdateError => push_error (UpdateFailed (Schema.name product)) r
        | _ =>
            push_updated (product_id item)
              (update_product (product_id item) newStock isInStock now (stock_products r)) r
        end
    end
  end.

(** One iteration of the loop of [restoreStock]. *)
Definition restore_item (now : string) (ft : ItemFault) (item : OrderItem)
    (r : StockUpdateResult) : StockUpdateResult :=
  match ft with
  | Throws => push_error (ProcessingError (product_id item)) r
  | FetchError => push_error (ProductNotFound (product_id item)) r
  | _ =>
    match fetch_product (stock_products r) (product_id item) with
    | None => push_error (ProductNotFound (product_id item)) r
    | Some product =>
        let currentStock := default 0 (Schema.stock_quantity product) in
        let newStock := currentStock + quantity item in
        match ft with
        | UpdateError => push_error (UpdateFailed (Schema.name product)) r
        | _ =>
            push_updated (product_id item)
              (update_product (product_id item) newStock true now (stock_products r)) r
        end
    end
  end.

(** The [for (const item of items)] loop; [fts n] is the behaviour of the
    database during iteration [n]. *)
Fixpoint stock_loop (step : ItemFault -> OrderItem -> StockUpdateResult -> StockUpdateResult)
    (fts : nat -> ItemFault) (items : list OrderItem) (r : StockUpdateResult)
  : StockUpdateResult :=
  match items with
  | [] => r
  | item :: rest => stock_loop step (fun n => fts (S n)) rest (step (fts 0%nat) item r)
  end.

Definition start (products : gmap string Schema.Product) : StockUpdateResult :=
  {| stock_products := products; errors := []; updatedProducts := [] |}.

Definition decrementStock (fts : nat -> ItemFault) (now : string)
    (products : gmap string Schema.Product) (items : list OrderItem)
  : StockUpdateResult :=
  stock_loop (decrement_item now) fts items (start products).

Definition restoreStock (fts : nat -> ItemFault) (now : string)
    (products : gmap string Schema.Product) (items : list OrderItem)
  : StockUpdateResult :=
  stock_loop (restore_item now) fts items (start products).

Definition no_item_faults : nat -> ItemFault := fun _ => NoFault.

(** A row written by the loops is consistent when its stock is a
    non-negative number and [in_stock] says whether it is positive. *)
Definition stock_consistent (row : Schema.Product) : Prop :=
  exists n, Schema.stock_quantity row = Some n /\ 0 <= n /\
            Schema.in_stock row = Some (n >? 0).

End StockManagement.

(** ** What the routes share *)

(** [NextResponse.json(body, { status })]. *)
Inductive Body :=
  | ErrorBody (error : string)
  | VerifySuccess (message order_id : string)
  | WebhookReceived
  | WebhookProcessingError
  | CreateSuccess (order_id razorpay_order_id : string)
  | CodSuccess (order_id payment_method message : string).

Record Response := mkResponse {
  status_code : nat;
  body : Body;
}.

(** What a handler leaves behind: its response, the database, and the
    item lists it handed to [decrementStock], in call order. *)
Record Outcome := mkOutcome {
  response : Response;
  db_after : Schema.DB;
  adjuster_calls : list (list StockManagement.OrderItem);
}.

(** The user [supabase.auth.getUser()] returns. *)
Record User := mkUser {
  id : string;
  email : option string;
}.

(** Which database calls of one verify or webhook request return an error. *)
Record Faults := mkFaults {
  order_fetch_fails : bool;
  order_update_fails : bool;
  items_fetch_fails : bool;
  item_faults : nat -> StockManagement.ItemFault;
}.

Definition no_faults : Faults :=
  {| order_fetch_fails := false; order_update_fails := false;
     items_fetch_fails := false; item_faults := StockManagement.no_item_faults |}.

(** [crypto.createHmac("sha256", key).update(data).digest("hex")]. *)
Class Crypto := {
  hmac_sha256_hex : string -> string -> string;
}.

(** JavaScript's [!s] on a string that may be absent. *)
Definition falsy (s : option string) : bool :=
  match s with
  | None => true
  | Some v => bool_decide (v = "")
  end.

(** The Supabase calls the verify and webhook routes make. *)
Module Supabase.

(** [from("orders").select("*").eq("id", id).single()] *)
Definition select_order (fails : bool) (db : Schema.DB) (order_id : string)
  : option Schema.Order :=
  if fails then None else Schema.orders db !! order_id.

(** [from("orders").select("id, payment_status").eq("razorpay_order_id", roid).single()]:
    an error unless exactly one row matches. *)
Definition select_order_by_razorpay_id (fails : bool) (db : Schema.DB) (roid : string)
  : option (string * Schema.Order) :=
  if fails then None else
  match map_to_list (filter (fun kv => Schema.razorpay_order_id kv.2 = Some roid)
                        (Schema.orders db)) with
  | [row] => Some row
  | _ => None
  end.

(** [from("orders").update(patch).eq("id", id)]: [Some] of the new
    database, or [None] when the call returns an error. *)
Definition update_order (fails : bool) (patch : Schema.Order -> Schema.Order)
    (order_id : string) (db : Schema.DB) : option Schema.DB :=
  if fails then None
  else Some (Schema.with_orders (alter patch order_id (Schema.orders db)) db).

(** [from("order_items").select("product_id, quantity").eq("order_id", id)],
    already mapped to the [OrderItem]s the callers build from the rows. *)
Definition select_order_items (fails : bool) (db : Schema.DB) (order_id : string)
  : option (list StockManagement.OrderItem) :=
  if fails then None
  else Some (map (fun row => {| StockManagement.product_id := Schema.product_id row;
                                StockManagement.quantity := Schema.quantity row |})
               (filter (fun row => Schema.order_id row = order_id) (Schema.order_items db))).

End Supabase.

(** The tail both payment paths share once the order is marked paid: fetch
    the order's items and, when there are any, hand them to
    [decrementStock].  A failed fetch is only logged. *)
Definition adjust_inventory (f : Faults) (now : string) (order_id : string)
    (db : Schema.DB) : Schema.DB * list (list StockManagement.OrderItem) :=
  match Supabase.select_order_items (items_fetch_fails f) db order_id with
  | None => (db, [])
  | Some [] => (db, [])
  | Some orderItems =>
      let stockResult :=
        StockManagement.decrementStock (item_faults f) now (Schema.products db) orderItems in
      (Schema.with_products (StockManagement.stock_products stockResult) db, [orderItems])
  end.

(** ** api/razorpay/verify-payment/route.ts *)

Module VerifyPayment.

Record VerifyPaymentRequest := mkRequest {
  razorpay_order_id : string;
  razorpay_payment_id : string;
  razorpay_signature : string;
  order_id : string;
}.

(** The patch written on a signature mismatch. *)
Definition mark_failed (razorpay_payment_id now : string) (o : Schema.Order) : Schema.Order :=
  {| Schema.user_id := Schema.user_id o;
     Schema.total_amount := Schema.total_amount o;
     Schema.shipping_address := Schema.shipping_address o;
     Schema.notes := Schema.notes o;
     Schema.status := Schema.status o;
     Schema.payment_status := Some "failed";
     Schema.payment_method := Schema.payment_method o;
     Schema.razorpay_order_id := Schema.razorpay_order_id o;
     Schema.razorpay_payment_id := Schema.razorpay_payment_id o;
     Schema.razorpay_signature := Schema.razorpay_signature o;
     Schema.payment_metadata :=
       Some (Schema.VerificationFailed razorpay_payment_id
               "Signature verification failed" now);
     Schema.order_updated_at := Schema.order_updated_at o |}.

(** The patch written on a signature match. *)
Definition mark_paid (razorpay_payment_id razorpay_signature now : string)
    (o : Schema.Order) : Schema.Order :=
  {| Schema.user_id := Schema.user_id o;
     Schema.total_amount := Schema.total_amount o;
     Schema.shipping_address := Schema.shipping_address o;
     Schema.notes := Schema.notes o;
     Schema.status := Some "processing";
     Schema.payment_status := Some "paid";
     Schema.payment_method := Schema.payment_method o;
     Schema.razorpay_order_id := Schema.razorpay_order_id o;
     Schema.razorpay_payment_id := Some razorpay_payment_id;
     Schema.razorpay_signature := Some razorpay_signature;
     Schema.payment_metadata := Some (Schema.Verified now "signature");
     Schema.order_updated_at := Schema.order_updated_at o |}.

Definition reject (code : nat) (msg : string) (db : Schema.DB) : Outcome :=
  {| response := {| status_code := code; body := ErrorBody msg |};
     db_after := db; adjuster_calls := [] |}.

(** [POST].  [auth] is what [supabase.auth.getUser()] returned, [key_secret]
    is [process.env.RAZORPAY_KEY_SECRET] ([createHmac] throws without a key,
    which the outer [catch] turns into a 500). *)
Definition POST `{Crypto} (key_secret : option string) (f : Faults) (now : string)
    (auth : option User) (req : VerifyPaymentRequest) (db : Schema.DB) : Outcome :=
  match auth with
  | None => reject 401 "Unauthorized" db
  | Some user =>
    if bool_decide (razorpay_order_id req = "") || bool_decide (razorpay_payment_id req = "")
       || bool_decide (razorpay_signature req = "") || bool_decide (order_id req = "")
    then reject 400 "Missing required payment details" db
    else
    match Supabase.select_order (order_fetch_fails f) db (order_id req) with
    | None => reject 404 "Order not found" db
    | Some order =>
      if negb (bool_decide (Schema.user_id order = Some (id user)))
      then reject 403 "Unauthorized access to order" db
      else if negb (bool_decide (Schema.razorpay_order_id order = Some (razorpay_order_id req)))
      then reject 400 "Order ID mismatch" db
      else if bool_decide (Schema.payment_status order = Some "paid")
      then {| response := {| status_code := 200;
                             body := VerifySuccess "Payment already verified" (order_id req) |};
              db_after := db; adjuster_calls := [] |}
      else
      match key_secret with
      | None => reject 500 "Internal server error" db
      | Some secret =>
        let expectedSignature :=
          hmac_sha256_hex secret (razorpay_order_id req ++ "|" ++ razorpay_payment_id req) in
        let isValidSignature := bool_decide (expectedSignature = razorpay_signature req) in
        if negb isValidSignature then
          let db' :=
            default db
              (Supabase.update_order (order_update_fails f)
                 (mark_failed (razorpay_payment_id req) now) (order_id req) db) in
          reject 400 "Payment verification failed" db'
        else
          match Supabase.update_order (order_update_fails f)
                  (mark_paid (razorpay_payment_id req) (razorpay_signature req) now)
                  (order_id req) db with
          | None => reject 500 "Failed to update order status" db
          | Some db' =>
              let '(db'', calls) := adjust_inventory f now (order_id req) db' in
              {| response := {| status_code := 200;
                                body := VerifySuccess "Payment verified successfully"
                                          (order_id req) |};
                 db_after := db''; adjuster_calls := calls |}
          end
      end
    end
  end.

End VerifyPayment.

(** ** api/razorpay/webhook/route.ts *)

Module Webhook.

(** [payload.payment.entity] *)
Record PaymentEntity := mkEntity {
  id : string;
  amount : Z;
  currency : string;
  status : string;
  order_id : string;
  method : string;
  bank : option string;
  wallet : option string;
  vpa : option string;
  card_id : option string;
  error_code : option string;
  error_description : option string;
  error_reason : option string;
  captured : bool;
  contact : string;
  email : string;
}.

(** The object under the key [payload]; of it the handlers read
    [payment?.entity] only. *)
Record PayloadObject := mkObject {
  payment : option PaymentEntity;
}.

(** What [JSON.parse] returns, cast unchecked to [RazorpayWebhookPayload]:
    the event name and the object under [payload], which a body need not
    have.  The route reads nothing else. *)
Record RazorpayWebhookPayload := mkPayload {
  event : string;
  payload : option PayloadObject;
}.

(** [JSON.parse(rawBody)]; [None] when it throws, or returns [null], on
    which reading [.event] throws. *)
Class Json := {
  JSON_parse : string -> option RazorpayWebhookPayload;
}.

(** [crypto.timingSafeEqual] throws when the buffers differ in length,
    which the [catch] turns into [false]. *)
Definition verifyWebhookSignature `{Crypto} (payload signature secret : string) : bool :=
  let expectedSignature := hmac_sha256_hex secret payload in
  if bool_decide (String.length expectedSignature = String.length signature)
  then bool_decide (expectedSignature = signature)
  else false.

(** [payment.method || "razorpay"] *)
Definition method_or_default (m : string) : string :=
  if bool_decide (m = "") then "razorpay" else m.

(** The patch [handlePaymentCaptured] writes. *)
Definition mark_paid (p : PaymentEntity) (now : string) (o : Schema.Order) : Schema.Order :=
  {| Schema.user_id := Schema.user_id o;
     Schema.total_amount := Schema.total_amount o;
     Schema.shipping_address := Schema.shipping_address o;
     Schema.notes := Schema.notes o;
     Schema.status := Some "processing";
     Schema.payment_status := Some "paid";
     Schema.payment_method := Some (method_or_default (method p));
     Schema.razorpay_order_id := Schema.razorpay_order_id o;
     Schema.razorpay_payment_id := Some (id p);
     Schema.razorpay_signature := Schema.razorpay_signature o;
     Schema.payment_metadata :=
       Some (Schema.CapturedViaWebhook now (amount p) (currency p) (method p)
               (bank p) (wallet p) (vpa p) (contact p) (email p));
     Schema.order_updated_at := Schema.order_updated_at o |}.

(** The patch [handlePaymentFailed] writes. *)
Definition mark_failed (p : PaymentEntity) (now : string) (o : Schema.Order) : Schema.Order :=
  {| Schema.user_id := Schema.user_id o;
     Schema.total_amount := Schema.total_amount o;
     Schema.shipping_address := Schema.shipping_address o;
     Schema.notes := Schema.notes o;
     Schema.status := Schema.status o;
     Schema.payment_status := Some "failed";
     Schema.payment_method := Schema.payment_method o;
     Schema.razorpay_order_id := Schema.razorpay_order_id o;
     Schema.razorpay_payment_id := Schema.razorpay_payment_id o;
     Schema.razorpay_signature := Schema.razorpay_signature o;
     Schema.payment_metadata :=
       Some (Schema.FailedViaWebhook now (error_code p) (error_description p)
               (error_reason p));
     Schema.order_updated_at := Schema.order_updated_at o |}.

(** [handlePaymentCaptured]: the database it leaves and the calls it made
    to [decrementStock]; [None] when it throws, which its first line
    ([payload.payload.payment?.entity]) does on a body without [payload],
    before anything is read or written. *)
Definition handlePaymentCaptured (f : Faults) (now : string)
    (payload : RazorpayWebhookPayload) (db : Schema.DB)
  : option (Schema.DB * list (list StockManagement.OrderItem)) :=
  match Webhook.payload payload with
  | None => None
  | Some object =>
    match payment object with
    | None => Some (db, [])
    | Some payment =>
      match Supabase.select_order_by_razorpay_id (order_fetch_fails f) db (order_id payment)
      with
      | None => Some (db, [])
      | Some (oid, order) =>
        if bool_decide (Schema.payment_status order = Some "paid") then Some (db, [])
        else
          match Supabase.update_order (order_update_fails f) (mark_paid payment now) oid db
          with
          | None => Some (db, [])
          | Some db' => Some (adjust_inventory f now oid db')
          end
      end
    end
  end.

(** [handlePaymentFailed]; [None] when it throws, as above. *)
Definition handlePaymentFailed (f : Faults) (now : string)
    (payload : RazorpayWebhookPayload) (db : Schema.DB) : option Schema.DB :=
  match Webhook.payload payload with
  | None => None
  | Some object =>
    match payment object with
    | None => Some db
    | Some payment =>
      match Supabase.select_order_by_razorpay_id (order_fetch_fails f) db (order_id payment)
      with
      | None => Some db
      | Some (oid, order) =>
        if bool_decide (Schema.payment_status order = Some "paid") then Some db
        else
          Some (default db
                  (Supabase.update_order (order_update_fails f) (mark_failed payment now)
                     oid db))
      end
    end
  end.

(** The delivery as the route has read it: [request.text()] has returned
    [rawBody]. *)
Record WebhookRequest := mkRequest {
  rawBody : string;
  signature : option string;   (* the x-razorpay-signature header *)
}.

Definition answer (code : nat) (b : Body) (db : Schema.DB)
    (calls : list (list StockManagement.OrderItem)) : Outcome :=
  {| response := {| status_code := code; body := b |};
     db_after := db; adjuster_calls := calls |}.

(** [POST]; [webhook_secret] is [process.env.RAZORPAY_WEBHOOK_SECRET].
    Whatever is thrown after the signature check ends in the [catch], which
    answers 200 with the processing-error body. *)
Definition POST `{Crypto} `{Json} (webhook_secret : option string) (f : Faults)
    (now : string) (req : WebhookRequest) (db : Schema.DB) : Outcome :=
  match signature req with
  | None => answer 400 (ErrorBody "Missing signature") db []
  | Some sig =>
    if bool_decide (sig = "") then answer 400 (ErrorBody "Missing signature") db []
    else if falsy webhook_secret then answer 500 (ErrorBody "Webhook not configured") db []
    else
    if negb (verifyWebhookSignature (rawBody req) sig (default "" webhook_secret))
    then answer 400 (ErrorBody "Invalid signature") db []
    else
      match JSON_parse (rawBody req) with
      | None => answer 200 WebhookProcessingError db []
      | Some payload =>
          if bool_decide (event payload = "payment.captured")
             || bool_decide (event payload = "order.paid")
          then
            match handlePaymentCaptured f now payload db with
            | None => answer 200 WebhookProcessingError db []
            | Some (db', calls) => answer 200 WebhookReceived db' calls
            end
          else if bool_decide (event payload = "payment.failed")
          then
            match handlePaymentFailed f now payload db with
            | None => answer 200 WebhookProcessingError db []
            | Some db' => answer 200 WebhookReceived db' []
            end
          else answer 200 WebhookReceived db []
      end
  end.

End Webhook.

(** ** Order creation: what the two routes share *)

(** The cart line both creation routes accept ([CartItem]). *)
Record CartItem := mkCartItem {
  product_id : string;
  product_name : string;
  product_image : string;
  quantity : Z;
  price : Qc;
}.

(** [CreateOrderRequest] / [CreateCODOrderRequest].  The body is cast to
    the interface unchecked: an element of [items] is [None] when it is
    [null] or [undefined].  A value of [items] that is not an array and
    passes the checks behaves as an array holding [null]: [items.map]
    throws. *)
Record CreateRequest := mkCreateRequest {
  items : list (option CartItem);
  total_amount : Qc;
  shipping_address : Schema.ShippingAddress;
  notes : option string;
}.

(** What the outside world does during one creation request: the gateway's
    answer to [razorpay.orders.create] ([None] when it throws), the id and
    the [updated_at] the database gives the inserted order, which inserts
    return an error, the message of the order insert's error if it has
    one, and the behaviour of the stock updates (cash on delivery only). *)
Record CreateEnv := mkCreateEnv {
  gateway_order : option string;
  new_order_id : string;
  inserted_at : string;
  order_insert_fails : bool;
  order_insert_message : option string;
  items_insert_fails : bool;
  stock_faults : nat -> StockManagement.ItemFault;
}.

(** [from("orders").insert(row).select().single()]: the primary key
    rejects an id that is taken. *)
Definition insert_order (fails : bool) (new_id : string) (row : Schema.Order)
    (db : Schema.DB) : option Schema.DB :=
  if fails then None
  else match Schema.orders db !! new_id with
       | Some _ => None
       | None => Some (Schema.with_orders (<[new_id := row]> (Schema.orders db)) db)
       end.

(** [order_items_product_id_fkey]: a row names no product or one that exists. *)
Definition product_fkey_ok (db : Schema.DB) (row : Schema.OrderItemRow) : bool :=
  match Schema.product_id row with
  | None => true
  | Some p => bool_decide (is_Some (Schema.products db !! p))
  end.

(** [from("order_items").insert(rows)]: one statement, all rows or none. *)
Definition insert_order_items (fails : bool) (rows : list Schema.OrderItemRow)
    (db : Schema.DB) : option Schema.DB :=
  if fails || negb (forallb (product_fkey_ok db) rows) then None
  else Some (Schema.with_order_items (Schema.order_items db ++ rows) db).

(** The elements [items.map(callback)] maps over.  The callbacks of the
    two routes read properties of the element and do nothing else, so the
    map throws, [None], exactly when an element is [null] or [undefined]. *)
Fixpoint elements (items : list (option CartItem)) : option (list CartItem) :=
  match items with
  | [] => Some []
  | item :: rest =>
      match item, elements rest with
      | Some item, Some rest => Some (item :: rest)
      | _, _ => None
      end
  end.

(** [items.map((item) => ({ order_id, product_id, ... }))] *)
Definition order_item_rows (order_id : string) (items : list CartItem)
  : list Schema.OrderItemRow :=
  map (fun item => {| Schema.order_id := order_id;
                      Schema.product_id := Some (product_id item);
                      Schema.product_name := product_name item;
                      Schema.product_image := Some (product_image item);
                      Schema.quantity := quantity item;
                      Schema.price := price item |}) items.

(** The row both routes insert, up to the payment method and gateway id;
    the insert leaves [updated_at] to the table's default. *)
Definition new_order (user : User) (req : CreateRequest) (payment_method : string)
    (razorpay_order_id : option string) (updated_at : string) : Schema.Order :=
  {| Schema.user_id := Some (id user);
     Schema.total_amount := total_amount req;
     Schema.shipping_address := shipping_address req;
     Schema.notes := if falsy (notes req) then None else notes req;
     Schema.status := Some "pending";
     Schema.payment_status := Some "pending";
     Schema.payment_method := Some payment_method;
     Schema.razorpay_order_id := razorpay_order_id;
     Schema.razorpay_payment_id := None;
     Schema.razorpay_signature := None;
     Schema.payment_metadata := None;
     Schema.order_updated_at := updated_at |}.

(** The three request checks both routes start with; [None] when they pass. *)
Definition validate (req : CreateRequest) : option string :=
  if bool_decide (items req = []) then Some "Cart is empty"
  else if bool_decide (total_amount req ≤ 0)%Qc then Some "Invalid total amount"
  else if bool_decide (Schema.fullName (shipping_address req) = "")
          || bool_decide (Schema.phone (shipping_address req) = "")
  then Some "Shipping address is required"
  else None.

Definition fail (code : nat) (msg : string) (db : Schema.DB) : Outcome :=
  {| response := {| status_code := code; body := ErrorBody msg |};
     db_after := db; adjuster_calls := [] |}.

(** ** api/razorpay/create-order/route.ts *)

Module CreateOrder.

(** [POST].  The amount in paise, the currency and the prefill block of the
    success body are not part of [CreateSuccess].  Whatever is thrown ends
    in the [catch], which answers 500 and undoes nothing. *)
Definition POST (env : CreateEnv) (auth : option User) (req : CreateRequest)
    (db : Schema.DB) : Outcome :=
  match auth with
  | None => fail 401 "Unauthorized. Please sign in to continue." db
  | Some user =>
    match validate req with
    | Some msg => fail 400 msg db
    | None =>
      match gateway_order env with
      | None => fail 500 "Internal server error" db
      | Some razorpayOrderId =>
        match insert_order (order_insert_fails env) (new_order_id env)
                (new_order user req "razorpay" (Some razorpayOrderId) (inserted_at env)) db
        with
        | None => fail 500 "Failed to create order" db
        | Some db' =>
          match elements (items req) with
          | None => fail 500 "Internal server error" db'
          | Some cart =>
            let orderItems := order_item_rows (new_order_id env) cart in
            let db'' := default db' (insert_order_items (items_insert_fails env) orderItems db') in
            {| response := {| status_code := 200;
                              body := CreateSuccess (new_order_id env) razorpayOrderId |};
               db_after := db''; adjuster_calls := [] |}
          end
        end
      end
    end
  end.

End CreateOrder.

(** ** api/orders/cod/route.ts *)

Module Cod.

Definition COD_LIMIT : Qc := Qc_of_Z 50000.

(** [items.map((item) => ({ product_id, quantity }))] *)
Definition stock_items (items : list CartItem) : list StockManagement.OrderItem :=
  map (fun item => {| StockManagement.product_id := Some (product_id item);
                      StockManagement.quantity := quantity item |}) items.

(** [orderError?.message || 'Unknown error'] *)
Definition insert_error (env : CreateEnv) : string :=
  if falsy (order_insert_message env) then "Unknown error"
  else default "" (order_insert_message env).

(** [POST].  The limit in the first error message is printed by
    [toLocaleString].  Whatever is thrown ends in the [catch], which
    answers 500 and undoes nothing.  [createAdminClient] builds a client
    from the environment and is taken to return one. *)
Definition POST (env : CreateEnv) (now : string) (auth : option User)
    (req : CreateRequest) (db : Schema.DB) : Outcome :=
  match auth with
  | None => fail 401 "Unauthorized. Please sign in to continue." db
  | Some user =>
    match validate req with
    | Some msg => fail 400 msg db
    | None =>
      if bool_decide (COD_LIMIT < total_amount req)%Qc
      then fail 400 "Cash on Delivery is available only for orders up to ₹50,000" db
      else
        match insert_order (order_insert_fails env) (new_order_id env)
                (new_order user req "cod" None (inserted_at env)) db with
        | None => fail 500 ("Failed to create order: " ++ insert_error env) db
        | Some db' =>
          match elements (items req) with
          | None => fail 500 "Internal server error" db'
          | Some cart =>
            let orderItems := order_item_rows (new_order_id env) cart in
            let db'' := default db' (insert_order_items (items_insert_fails env) orderItems db') in
            let stockResult :=
              StockManagement.decrementStock (stock_faults env) now (Schema.products db'')
                (stock_items cart) in
            {| response :=
                 {| status_code := 200;
                    body := CodSuccess (new_order_id env) "cod"
                              "Order placed successfully! Pay on delivery." |};
               db_after := Schema.with_products (StockManagement.stock_products stockResult) db'';
               adjuster_calls := [stock_items cart] |}
          end
        end
    end
  end.

End Cod.

(** ** Requests served one after the other *)

(** A request to one of the two routes that write an order after its
    creation, with everything that request's execution depends on. *)
Inductive Call :=
  | VerifyCall (key_secret : option string) (f : Faults) (now : string)
      (auth : option User) (req : VerifyPayment.VerifyPaymentRequest)
  | WebhookCall (webhook_secret : option string) (f : Faults) (now : string)
      (req : Webhook.WebhookRequest).

Section Serving.
Context `{Crypto} `{Webhook.Json}.

Definition serve (c : Call) (db : Schema.DB) : Outcome :=
  match c with
  | VerifyCall key_secret f now auth req => VerifyPayment.POST key_secret f now auth req db
  | WebhookCall webhook_secret f now req => Webhook.POST webhook_secret f now req db
  end.

(** The database after serving [calls] in order, and every call made to
    [decrementStock] on the way. *)
Fixpoint serve_all (calls : list Call) (db : Schema.DB)
  : Schema.DB * list (list StockManagement.OrderItem) :=
  match calls with
  | [] => (db, [])
  | c :: rest =>
      let out := serve c db in
      let '(db', adjusted) := serve_all rest (db_after out) in
      (db', (adjuster_calls out ++ adjusted)%list)
  end.

End Serving.

(** ** Views of the stock *)

(** The stock columns of a product row, without its timestamp. *)
Definition stock_level (row : Schema.Product) : option Z * option bool :=
  (Schema.stock_quantity row, Schema.in_stock row).

Definition stock_levels (ps : gmap string Schema.Product)
  : gmap string (option Z * option bool) :=
  stock_level <$> ps.

(** The quantity of product [p] an item list orders, summed over its items. *)
Fixpoint ordered_quantity (p : string) (items : list StockManagement.OrderItem) : Z :=
  match items with
  | [] => 0
  | item :: rest =>
      (if bool_decide (StockManagement.product_id item = Some p)
       then StockManagement.quantity item else 0) + ordered_quantity p rest
  end.

(** The order's items as [select_order_items] hands them to the adjuster. *)
Definition items_of (db : Schema.DB) (order_id : string) : list StockManagement.OrderItem :=
  default [] (Supabase.select_order_items false db order_id).

(** The level [decrementStock] leaves for a product it finds in the table
    when no call fails: the stock minus what the items order of it, floored
    at zero, or the row's own level when no item names the product. *)
Definition level_after (p : string) (items : list StockManagement.OrderItem)
    (row : Schema.Product) : option Z * option bool :=
  if bool_decide (Some p ∈ map StockManagement.product_id items)
  then let n := Z.max 0 (default 0 (Schema.stock_quantity row) - ordered_quantity p items) in
       (Some n, Some (n >? 0))
  else stock_level row.

(** ** Predicates of the statements *)



(** The verify request carries all four payment details. *)
Definition complete (req : VerifyPayment.VerifyPaymentRequest) : Prop :=
  VerifyPayment.razorpay_order_id req <> "" /\
  VerifyPayment.razorpay_payment_id req <> "" /\
  VerifyPayment.razorpay_signature req <> "" /\
  VerifyPayment.order_id req <> "".

(** The verify request passes the checks that precede the idempotency
    check: it is complete, and the order it names is found, belongs to
    [user] and carries the submitted gateway order id. *)
Definition passes_gates (f : Faults) (user : User)
    (req : VerifyPayment.VerifyPaymentRequest) (db : Schema.DB) (order : Schema.Order)
  : Prop :=
  complete req /\
  order_fetch_fails f = false /\
  Schema.orders db !! VerifyPayment.order_id req = Some order /\
  Schema.user_id order = Some (id user) /\
  Schema.razorpay_order_id order = Some (VerifyPayment.razorpay_order_id req).

(** The webhook's signature check lets the request through. *)
Definition webhook_accepted `{Crypto} (webhook_secret : option string)
    (req : Webhook.WebhookRequest) : Prop :=
  exists sig secret,
    Webhook.signature req = Some sig /\ sig <> "" /\
    webhook_secret = Some secret /\ secret <> "" /\
    Webhook.verifyWebhookSignature (Webhook.rawBody req) sig secret = true.

(** What either payment path leaves of [db] when it is the one that marks
    the order [order_id] paid at time [now] and no database call fails. *)
Definition settled (db : Schema.DB) (order_id : string) (order : Schema.Order)
    (now : string) (out : Schema.DB * list (list StockManagement.OrderItem)) : Prop :=
  (exists o, Schema.orders out.1 !! order_id = Some o /\
             Schema.payment_status o = Some "paid" /\
             Schema.status o = Some "processing" /\
             Schema.user_id o = Schema.user_id order /\
             Schema.razorpay_order_id o = Schema.razorpay_order_id order) /\
  Schema.products out.1 =
    StockManagement.stock_products
      (StockManagement.decrementStock StockManagement.no_item_faults now
         (Schema.products db) (items_of db order_id)) /\
  out.2 = (if decide (items_of db order_id = []) then [] else [items_of db order_id]).

(** [order_items_order_id_fkey]: every item row belongs to a stored order. *)
Definition order_fkey_ok (db : Schema.DB) : Prop :=
  Forall (fun row => is_Some (Schema.orders db !! Schema.order_id row))
    (Schema.order_items db).

(** ** A small shop, for the examples *)

Module Sample.

(** A stand-in for HMAC-SHA256: the statements hold for every [Crypto]. *)
Definition crypto : Crypto :=
  {| hmac_sha256_hex := fun key data => "mac(" ++ key ++ "," ++ data ++ ")" |}.

Definition entity : Webhook.PaymentEntity :=
  {| Webhook.id := "pay_1"; Webhook.amount := 150000; Webhook.currency := "INR";
     Webhook.status := "captured"; Webhook.order_id := "order_1";
     Webhook.method := "upi"; Webhook.bank := None; Webhook.wallet := None;
     Webhook.vpa := Some "buyer@upi"; Webhook.card_id := None;
     Webhook.error_code := Some "BAD_REQUEST_ERROR";
     Webhook.error_description := Some "Payment failed";
     Webhook.error_reason := Some "payment_failed";
     Webhook.captured := true; Webhook.contact := "+919999999999";
     Webhook.email := "buyer@example.com" |}.

Definition captured_body : string := "{event:payment.captured,order_id:order_1,id:pay_1}".
Definition failed_body : string := "{event:payment.failed,order_id:order_1,id:pay_1}".
Definition refund_body : string := "{event:refund.created,order_id:order_1,id:pay_1}".
Definition bare_body : string := "{event:payment.captured}".
Definition broken_body : string := "{event:payment.captured,".

(** The [payload] object of the three full bodies. *)
Definition object : Webhook.PayloadObject := {| Webhook.payment := Some entity |}.

(** A stand-in for [JSON.parse] that reads the first four bodies above
    (the fourth has no [payload]) and throws on everything else. *)
Definition json : Webhook.Json :=
  {| Webhook.JSON_parse := fun raw =>
       if bool_decide (raw = captured_body)
       then Some {| Webhook.event := "payment.captured"; Webhook.payload := Some object |}
       else if bool_decide (raw = failed_body)
       then Some {| Webhook.event := "payment.failed"; Webhook.payload := Some object |}
       else if bool_decide (raw = refund_body)
       then Some {| Webhook.event := "refund.created"; Webhook.payload := Some object |}
       else if bool_decide (raw = bare_body)
       then Some {| Webhook.event := "payment.captured"; Webhook.payload := None |}
       else None |}.

Definition buyer : User := {| id := "u1"; email := Some "buyer@example.com" |}.

Definition home : Schema.ShippingAddress :=
  {| Schema.fullName := "A Buyer"; Schema.phone := "9999999999";
     Schema.address := "1 Main Road"; Schema.city := "Jaipur";
     Schema.state := "Rajasthan"; Schema.pincode := "302001" |}.

Definition pending_order : Schema.Order :=
  {| Schema.user_id := Some "u1"; Schema.total_amount := Qc_of_Z 1500;
     Schema.shipping_address := home; Schema.notes := None;
     Schema.status := Some "pending"; Schema.payment_status := Some "pending";
     Schema.payment_method := Some "razorpay";
     Schema.razorpay_order_id := Some "order_1";
     Schema.razorpay_payment_id := None; Schema.razorpay_signature := None;
     Schema.payment_metadata := None;
     Schema.order_updated_at := "2025-01-07T09:00:00Z" |}.

Definition paid_order : Schema.Order :=
  {| Schema.user_id := Some "u1"; Schema.total_amount := Qc_of_Z 1500;
     Schema.shipping_address := home; Schema.notes := None;
     Schema.status := Some "processing"; Schema.payment_status := Some "paid";
     Schema.payment_method := Some "razorpay";
     Schema.razorpay_order_id := Some "order_1";
     Schema.razorpay_payment_id := Some "pay_1"; Schema.razorpay_signature := None;
     Schema.payment_metadata := Some (Schema.Verified "2025-01-07T10:00:00Z" "signature");
     Schema.order_updated_at := "2025-01-07T09:00:00Z" |}.

Definition ring (stock : Z) (available : bool) : Schema.Product :=
  {| Schema.name := "Ring"; Schema.stock_quantity := Some stock;
     Schema.in_stock := Some available; Schema.updated_at := "2025-01-01T00:00:00Z" |}.

Definition two_rings : Schema.OrderItemRow :=
  {| Schema.order_id := "o1"; Schema.product_id := Some "p1";
     Schema.product_name := "Ring"; Schema.product_image := None;
     Schema.quantity := 2; Schema.price := Qc_of_Z 750 |}.

(** One pending order of two rings; five rings in stock. *)
Definition db : Schema.DB :=
  {| Schema.orders := {[ "o1" := pending_order ]};
     Schema.order_items := [two_rings];
     Schema.products := {[ "p1" := ring 5 true ]} |}.

(** The same shop once the order is paid. *)
Definition paid_db : Schema.DB :=
  {| Schema.orders := {[ "o1" := paid_order ]};
     Schema.order_items := [two_rings];
     Schema.products := {[ "p1" := ring 3 true ]} |}.

Definition key_secret : string := "key_secret".
Definition webhook_secret : string := "webhook_secret".

Definition verify_request (signature : string) : VerifyPayment.VerifyPaymentRequest :=
  {| VerifyPayment.razorpay_order_id := "order_1";
     VerifyPayment.razorpay_payment_id := "pay_1";
     VerifyPayment.razorpay_signature := signature;
     VerifyPayment.order_id := "o1" |}.

Definition good_signature : string :=
  @hmac_sha256_hex crypto key_secret "order_1|pay_1".

(** A webhook delivery of [raw], signed with the webhook secret. *)
Definition delivery (raw : string) : Webhook.WebhookRequest :=
  {| Webhook.rawBody := raw;
     Webhook.signature := Some (@hmac_sha256_hex crypto webhook_secret raw) |}.

Definition cart : list CartItem :=
  [ {| product_id := "p1"; product_name := "Ring"; product_image := "ring.png";
       quantity := 2; price := Qc_of_Z 750 |} ].

Definition checkout (total : Z) : CreateRequest :=
  {| items := Some <$> cart; total_amount := Qc_of_Z total; shipping_address := home;
     notes := None |}.

(** A request whose [items] is [[null]]. *)
Definition null_checkout : CreateRequest :=
  {| items := [None]; total_amount := Qc_of_Z 1500; shipping_address := home;
     notes := None |}.

(** The gateway is down. *)
Definition gateway_down : CreateEnv :=
  {| gateway_order := None; new_order_id := "o2"; inserted_at := "2025-01-07T10:00:00Z";
     order_insert_fails := false; order_insert_message := None;
     items_insert_fails := false; stock_faults := StockManagement.no_item_faults |}.

(** The gateway answers, the order is stored, the items are refused. *)
Definition items_refused : CreateEnv :=
  {| gateway_order := Some "order_2"; new_order_id := "o2";
     inserted_at := "2025-01-07T10:00:00Z";
     order_insert_fails := false; order_insert_message := None;
     items_insert_fails := true; stock_faults := StockManagement.no_item_faults |}.

Definition all_well : CreateEnv :=
  {| gateway_order := Some "order_2"; new_order_id := "o2";
     inserted_at := "2025-01-07T10:00:00Z";
     order_insert_fails := false; order_insert_message := None;
     items_insert_fails := false; stock_faults := StockManagement.no_item_faults |}.

(** The order update is the one call that fails. *)
Definition update_fails : Faults :=
  {| order_fetch_fails := false; order_update_fails := true;
     items_fetch_fails := false; item_faults := StockManagement.no_item_faults |}.

Definition now : string := "2025-01-07T10:00:00Z".
Definition later : string := "2025-01-07T10:00:05Z".

End Sample.

(** ** api/orders/status/route.ts *)

(** The route that sets an order's fulfilment status and restores stock on
    cancellation.  The request body is taken as parsed: when
    [request.json()] throws, the [catch] answers 500 before anything is
    read or written.  The route checks neither the caller nor the stored
    status. *)

Module OrderStatus.

(** The JSON body; a key may be absent. *)
Record StatusRequest := mkRequest {
  orderId : option string;
  newStatus : option string;
  previousStatus : option string;
}.

Inductive StatusBody :=
  | StatusError (error : string)
  | StatusUpdated (order : Schema.Order) (message : string).

(** The answer, the database the request leaves, and the item lists it
    handed to [restoreStock]. *)
Record StatusOutcome := mkOutcome {
  code : nat;
  reply : StatusBody;
  db_left : Schema.DB;
  restore_calls : list (list StockManagement.OrderItem);
}.

(** [update({ status: newStatus, updated_at: new Date().toISOString() })] *)
Definition set_status (newStatus now : string) (o : Schema.Order) : Schema.Order :=
  {| Schema.user_id := Schema.user_id o;
     Schema.total_amount := Schema.total_amount o;
     Schema.shipping_address := Schema.shipping_address o;
     Schema.notes := Schema.notes o;
     Schema.status := Some newStatus;
     Schema.payment_status := Schema.payment_status o;
     Schema.payment_method := Schema.payment_method o;
     Schema.razorpay_order_id := Schema.razorpay_order_id o;
     Schema.razorpay_payment_id := Schema.razorpay_payment_id o;
     Schema.razorpay_signature := Schema.razorpay_signature o;
     Schema.payment_metadata := Schema.payment_metadata o;
     Schema.order_updated_at := now |}.

(** [from("orders").update(...).eq("id", orderId).select().single()]:
    the updated row, or an error when the call fails or no row has the id. *)
Definition update_status (fails : bool) (newStatus now order_id : string)
    (db : Schema.DB) : option (Schema.DB * Schema.Order) :=
  if fails then None
  else match Schema.orders db !! order_id with
       | None => None
       | Some o =>
           Some (Schema.with_orders
                   (<[order_id := set_status newStatus now o]> (Schema.orders db)) db,
                 set_status newStatus now o)
       end.

Definition refuse (c : nat) (msg : string) (db : Schema.DB)
    (calls : list (list StockManagement.OrderItem)) : StatusOutcome :=
  {| code := c; reply := StatusError msg; db_left := db; restore_calls := calls |}.

(** The status update that ends every request that got past the checks. *)
Definition finish (f : Faults) (newStatus now order_id : string) (db : Schema.DB)
    (calls : list (list StockManagement.OrderItem)) : StatusOutcome :=
  match update_status (order_update_fails f) newStatus now order_id db with
  | None => refuse 500 "Failed to update order status" db calls
  | Some (db', updatedOrder) =>
      {| code := 200;
         reply := StatusUpdated updatedOrder
                    (if bool_decide (newStatus = "cancelled")
                     then "Order cancelled and stock restored"
                     else "Order status updated");
         db_left := db'; restore_calls := calls |}
  end.

(** [POST] *)
Definition POST (f : Faults) (now : string) (req : StatusRequest) (db : Schema.DB)
  : StatusOutcome :=
  if falsy (orderId req) || falsy (newStatus req)
  then refuse 400 "Order ID and new status are required" db []
  else
    let order_id := default "" (orderId req) in
    let new_status := default "" (newStatus req) in
    if bool_decide (new_status = "cancelled")
       && negb (bool_decide (previousStatus req = Some "cancelled"))
    then
      match Supabase.select_order_items (items_fetch_fails f) db order_id with
      | None => refuse 500 "Failed to fetch order items" db []
      | Some [] => finish f new_status now order_id db []
      | Some items =>
          let stockResult :=
            StockManagement.restoreStock (item_faults f) now (Schema.products db) items in
          finish f new_status now order_id
            (Schema.with_products (StockManagement.stock_products stockResult) db) [items]
      end
    else finish f new_status now order_id db [].

End OrderStatus.

(** ** api/pincode/route.ts *)

(** The lookup of a pincode at api.postalpincode.in.  What the upstream
    service does is an input ([Upstream]); a body that parses is taken to
    have the declared type [PincodeAPIResponse[]]. *)

Module Pincode.

Record PostOffice := mkPostOffice {
  Name : string;
  District : string;
  State : string;
}.

Record PincodeAPIResponse := mkApiResponse {
  Status : string;
  Message : string;
  PostOffice_list : option (list PostOffice);   (* [PostOffice: PostOffice[] | null] *)
}.







End Pincode.

(** ** lib/validations.ts: [sanitizeHtml] *)

Module Validations.

(** [s.replace(/c/g, by)] for a single character [c].  A string is the
    sequence of its UTF-8 bytes here; the six characters replaced are ASCII,
    and an ASCII byte never occurs inside the encoding of another character,
    so replacing bytes and replacing UTF-16 code units agree. *)
Fixpoint replace_all (c : ascii) (by_ : string) (s : string) : string :=
  match s with
  | EmptyString => EmptyString
  | String x rest =>
      if Ascii.eqb x c then by_ +:+ replace_all c by_ rest
      else String x (replace_all c by_ rest)
  end.

Definition amp : ascii := "038"%char.
Definition lt : ascii := "060"%char.
Definition gt : ascii := "062"%char.
Definition dquote : ascii := "034"%char.
Definition squote : ascii := "039"%char.
Definition slash : ascii := "047"%char.

Definition sanitizeHtml (input : string) : string :=
  replace_all slash "&#x2F;"
    (replace_all squote "&#039;"
       (replace_all dquote "&quot;"
          (replace_all gt "&gt;"
             (replace_all lt "&lt;"
                (replace_all amp "&amp;" input))))).

(** The escape of one character, as the chain of replacements leaves it. *)
Definition escape (c : ascii) : string :=
  if Ascii.eqb c amp then "&amp;"
  else if Ascii.eqb c lt then "&lt;"
  else if Ascii.eqb c gt then "&gt;"
  else if Ascii.eqb c dquote then "&quot;"
  else if Ascii.eqb c squote then "&#039;"
  else if Ascii.eqb c slash then "&#x2F;"
  else String c EmptyString.

Fixpoint escape_all (s : string) : string :=
  match s with
  | EmptyString => EmptyString
  | String c rest => escape c +:+ escape_all rest
  end.

(** The character occurs in the string. *)
Fixpoint occurs (c : ascii) (s : string) : bool :=
  match s with
  | EmptyString => false
  | String x rest => Ascii.eqb x c || occurs c rest
  end.

End Validations.

(** ** contexts/CartContext.tsx: the cart's state updates *)

(** The functions the three callbacks pass to [setItems], as functions of
    the previous state, and the derived item count.  Scheduling the
    database sync and opening the drawer are left out; quantities are
    integers. *)

Module Cart.

Section Updates.

(** The [Product] row a cart line carries; the updates only read its id. *)
Variable Product : Type.
Variable id_of : Product -> string.

Record CartItem := mkItem {
  product : Product;
  quantity : Z;
}.

(** The state [addItem(product, quantity = 1)] sets. *)
Definition addItem (p : Product) (q : option Z) (prev : list CartItem) : list CartItem :=
  let quantity_ := default 1 q in
  match List.find (fun item => bool_decide (id_of (product item) = id_of p)) prev with
  | Some existingItem =>
      let newQuantity := quantity existingItem + quantity_ in
      map (fun item => if bool_decide (id_of (product item) = id_of p)
                       then {| product := product item; quantity := newQuantity |}
                       else item) prev
  | None => prev ++ [ {| product := p; quantity := quantity_ |} ]
  end.

Definition removeItem (productId : string) (prev : list CartItem) : list CartItem :=
  List.filter (fun item => negb (bool_decide (id_of (product item) = productId))) prev.

Definition updateQuantity (productId : string) (q : Z) (prev : list CartItem)
  : list CartItem :=
  if (q <=? 0)%Z then
    List.filter (fun item => negb (bool_decide (id_of (product item) = productId))) prev
  else
    map (fun item => if bool_decide (id_of (product item) = productId)
                     then {| product := product item; quantity := q |}
                     else item) prev.

(** [items.reduce((sum, item) => sum + item.quantity, 0)] *)
Definition totalItems (items : list CartItem) : Z :=
  fold_left (fun sum item => (sum + quantity item)%Z) items 0%Z.

(** The ids of the products in the cart, in order. *)
Definition ids (items : list CartItem) : list string :=
  map (fun item => id_of (product item)) items.

(** The quantity the cart holds of a product: that of its first line. *)
Definition quantity_of (productId : string) (items : list CartItem) : Z :=
  match List.find (fun item => bool_decide (id_of (product item) = productId)) items with
  | Some item => quantity item
  | None => 0
  end.

End Updates.

End Cart.

(** ** More of the shop, for the examples *)

Module Shop.

Definition no_rings : gmap string Schema.Product := {[ "p1" := Sample.ring 1 true ]}.

Definition three_rings : StockManagement.OrderItem :=
  {| StockManagement.product_id := Some "p1"; StockManagement.quantity := 3 |}.

Definition cancel (previous : option string) : OrderStatus.StatusRequest :=
  {| OrderStatus.orderId := Some "o1";
     OrderStatus.newStatus := Some "cancelled";
     OrderStatus.previousStatus := previous |}.

Definition ship : OrderStatus.StatusRequest :=
  {| OrderStatus.orderId := Some "o1";
     OrderStatus.newStatus := Some "shipped";
     OrderStatus.previousStatus := Some "processing" |}.

(** Two orders that carry the same gateway order id. *)
Definition twins : Schema.DB :=
  {| Schema.orders := {[ "o1" := Sample.pending_order; "o9" := Sample.pending_order ]};
     Schema.order_items := [Sample.two_rings];
     Schema.products := {[ "p1" := Sample.ring 5 true ]} |}.

Definition items_fetch_down : Faults :=
  {| order_fetch_fails := false; order_update_fails := false;
     items_fetch_fails := true; item_faults := StockManagement.no_item_faults |}.

Definition jaipur : Pincode.PincodeAPIResponse :=
  {| Pincode.Status := "Success"; Pincode.Message := "Number of pincode(s) found:1";
     Pincode.PostOffice_list :=
       Some [ {| Pincode.Name := "Jaipur GPO"; Pincode.District := "Jaipur";
                 Pincode.State := "Rajasthan" |} ] |}.

(** A captured payment for the gateway order of the sample shop. *)
Definition captured : Webhook.RazorpayWebhookPayload :=
  {| Webhook.event := "payment.captured"; Webhook.payload := Some Sample.object |}.

(** A cart of one ring and one chain; a product is its id here. *)
Definition basket : list (Cart.CartItem string) :=
  [ {| Cart.product := "ring"; Cart.quantity := 1 |};
    {| Cart.product := "chain"; Cart.quantity := 1 |} ].

End Shop.

(** ** Predicates of the further statements *)

Section AdjusterPredicates.
Import StockManagement.

(** A loop body accounts for its item: one entry, in one of the two lists;
    an error leaves the products as they are. *)
Definition one_entry (step : ItemFault -> OrderItem -> StockUpdateResult -> StockUpdateResult)
  : Prop :=
  forall ft item r,
    (errors (step ft item r) = errors r /\
     updatedProducts (step ft item r) = (updatedProducts r ++ [product_id item])%list) \/
    (exists e, errors (step ft item r) = (errors r ++ [e])%list /\
               updatedProducts (step ft item r) = updatedProducts r /\
               stock_products (step ft item r) = stock_products r).

(** A loop body writes at most the row its item names, and never adds or
    removes a row. *)
Definition local_step (step : ItemFault -> OrderItem -> StockUpdateResult -> StockUpdateResult)
  : Prop :=
  forall ft item r q,
    (product_id item <> Some q ->
     stock_products (step ft item r) !! q = stock_products r !! q) /\
    (is_Some (stock_products (step ft item r) !! q) <-> is_Some (stock_products r !! q)).

(** [x], reported after what [r] already holds. *)
Definition rebase (r x : StockUpdateResult) : StockUpdateResult :=
  {| stock_products := stock_products x;
     errors := (errors r ++ errors x)%list;
     updatedProducts := (updatedProducts r ++ updatedProducts x)%list |}.

(** A loop body reads the products only: what is already reported passes
    through it. *)
Definition rebases (step : ItemFault -> OrderItem -> StockUpdateResult -> StockUpdateResult)
  : Prop :=
  forall ft item r x, step ft item (rebase r x) = rebase r (step ft item x).

(** [row'] is [row], or a consistent row whose stock is not above that of
    [row]. *)
Definition not_above (row row' : Schema.Product) : Prop :=
  row' = row \/
  (stock_consistent row' /\
   default 0 (Schema.stock_quantity row') <= Z.max 0 (default 0 (Schema.stock_quantity row))).

End AdjusterPredicates.

(** The level [restoreStock] leaves for a product it finds in the table
    when no call fails: the stock plus what the items order of it, in
    stock; or the row's own level when no item names the product. *)
Definition level_restored (p : string) (items : list StockManagement.OrderItem)
    (row : Schema.Product) : option Z * option bool :=
  if bool_decide (Some p ∈ map StockManagement.product_id items)
  then (Some (default 0 (Schema.stock_quantity row) + ordered_quantity p items), Some true)
  else stock_level row.

(** Two order rows differ at most in the two columns the status route
    writes, [status] and [updated_at]. *)
Definition same_but_status (o o' : Schema.Order) : Prop :=
  Schema.user_id o' = Schema.user_id o /\
  Schema.total_amount o' = Schema.total_amount o /\
  Schema.shipping_address o' = Schema.shipping_address o /\
  Schema.notes o' = Schema.notes o /\
  Schema.payment_status o' = Schema.payment_status o /\
  Schema.payment_method o' = Schema.payment_method o /\
  Schema.razorpay_order_id o' = Schema.razorpay_order_id o /\
  Schema.razorpay_payment_id o' = Schema.razorpay_payment_id o /\
  Schema.razorpay_signature o' = Schema.razorpay_signature o /\
  Schema.payment_metadata o' = Schema.payment_metadata o.

(** The six characters [sanitizeHtml] replaces. *)
Definition special (x : ascii) : bool :=
  Ascii.eqb x Validations.amp || Ascii.eqb x Validations.lt || Ascii.eqb x Validations.gt
  || Ascii.eqb x Validations.dquote || Ascii.eqb x Validations.squote
  || Ascii.eqb x Validations.slash.

(** * Theorems *)

(** ** The Inventory Adjuster *)

Section StockFacts.
Import StockManagement.

Lemma fetch_product_Some products pid product :
  fetch_product products pid = Some product ->
  exists p, pid = Some p /\ products !! p = Some product.
Proof.
  destruct pid as [p|]; simpl; [eauto | discriminate].
Qed.









Lemma decrement_item_writes now item r p product :
  product_id item = Some p ->
  stock_products r !! p = Some product ->
  stock_products (decrement_item now NoFault item r) !! p
  = Some {| Schema.name := Schema.name product;
            Schema.stock_quantity :=
              Some (Z.max 0 (default 0 (Schema.stock_quantity product) - quantity item));
            Schema.in_stock :=
              Some (Z.max 0 (default 0 (Schema.stock_quantity product) - quantity item) >? 0);
            Schema.updated_at := now |}.
Proof.
  intros Hpid Hp. unfold decrement_item. rewrite Hpid. simpl. rewrite Hp. simpl.
  rewrite lookup_alter_eq, Hp. reflexivity.
Qed.

Lemma restore_item_writes now item r p product :
  product_id item = Some p ->
  stock_products r !! p = Some product ->
  stock_products (restore_item now NoFault item r) !! p
  = Some {| Schema.name := Schema.name product;
            Schema.stock_quantity :=
              Some (default 0 (Schema.stock_quantity product) + quantity item);
            Schema.in_stock := Some true;
            Schema.updated_at := now |}.
Proof.
  intros Hpid Hp. unfold restore_item. rewrite Hpid. simpl. rewrite Hp. simpl.
  rewrite lookup_alter_eq, Hp. reflexivity.
Qed.




End StockFacts.

(** ** What the database calls touch *)

Lemma adjust_inventory_orders f now oid db :
  Schema.orders (adjust_inventory f now oid db).1 = Schema.orders db.
Proof.
  unfold adjust_inventory.
  destruct (Supabase.select_order_items _ db oid) as [[|item rest]|]; reflexivity.
Qed.

Lemma select_order_by_razorpay_id_Some fails db roid oid order :
  Supabase.select_order_by_razorpay_id fails db roid = Some (oid, order) ->
  Schema.orders db !! oid = Some order /\ Schema.razorpay_order_id order = Some roid.
Proof.
  unfold Supabase.select_order_by_razorpay_id. destruct fails; [discriminate|].
  destruct (map_to_list _) as [|row [|row' rest]] eqn:Hl; try discriminate.
  intros [= ->].
  assert (Hin : (oid, order) ∈ map_to_list
            (filter (fun kv : string * Schema.Order => Schema.razorpay_order_id kv.2 = Some roid)
               (Schema.orders db))) by (rewrite Hl; apply list_elem_of_here).
  apply elem_of_map_to_list in Hin. apply map_lookup_filter_Some in Hin. exact Hin.
Qed.

Lemma select_order_by_razorpay_id_unique db roid row oid order :
  Supabase.select_order_by_razorpay_id false db roid = Some row ->
  Schema.orders db !! oid = Some order ->
  Schema.razorpay_order_id order = Some roid ->
  row = (oid, order).
Proof.
  unfold Supabase.select_order_by_razorpay_id.
  destruct (map_to_list _) as [|row' [|row'' rest]] eqn:Hl; try discriminate.
  intros [= ->] Hrow Hroid.
  assert (Hin : (oid, order) ∈ map_to_list
            (filter (fun kv : string * Schema.Order => Schema.razorpay_order_id kv.2 = Some roid)
               (Schema.orders db))).
  { apply elem_of_map_to_list, map_lookup_filter_Some. split; assumption. }
  rewrite Hl in Hin. apply list_elem_of_singleton in Hin. congruence.
Qed.

Lemma update_order_other fails patch oid db db' other :
  Supabase.update_order fails patch oid db = Some db' ->
  other <> oid ->
  Schema.orders db' !! other = Schema.orders db !! other.
Proof.
  unfold Supabase.update_order. destruct fails; [discriminate|]. intros [= <-] Hne.
  simpl. apply lookup_alter_ne. congruence.
Qed.

(** ** Monotonicity of the paid status *)

Section Monotone.
Context `{Crypto} `{Webhook.Json}.
Variables (db : Schema.DB) (oid : string) (o : Schema.Order).
Hypothesis Hrow : Schema.orders db !! oid = Some o.
Hypothesis Hpaid : Schema.payment_status o = Some "paid".

Lemma verify_keeps_paid key f now auth req :
  Schema.orders (db_after (VerifyPayment.POST key f now auth req db)) !! oid = Some o.
Proof.
  unfold VerifyPayment.POST.
  destruct auth as [user|]; [|exact Hrow].
  destruct (_ || _); [exact Hrow|].
  destruct (Supabase.select_order _ db _) as [order|] eqn:Hsel; [|exact Hrow].
  destruct (negb _); [exact Hrow|].
  destruct (negb _); [exact Hrow|].
  case_bool_decide as Hp; [exact Hrow|].
  assert (Hne : oid <> VerifyPayment.order_id req).
  { intros ->. unfold Supabase.select_order in Hsel.
    destruct (order_fetch_fails f); [discriminate|]. congruence. }
  destruct key as [secret|]; [|exact Hrow].
  destruct (negb _).
  - simpl. destruct (Supabase.update_order _ _ _ db) as [db'|] eqn:Hu; simpl; [|exact Hrow].
    rewrite (update_order_other _ _ _ _ _ _ Hu Hne). exact Hrow.
  - destruct (Supabase.update_order _ _ _ db) as [db'|] eqn:Hu; simpl; [|exact Hrow].
    destruct (adjust_inventory f now (VerifyPayment.order_id req) db') as [db'' calls] eqn:Ha.
    simpl. replace db'' with (adjust_inventory f now (VerifyPayment.order_id req) db').1
      by (rewrite Ha; reflexivity).
    rewrite adjust_inventory_orders, (update_order_other _ _ _ _ _ _ Hu Hne). exact Hrow.
Qed.

Lemma captured_keeps_paid f now payload r :
  Webhook.handlePaymentCaptured f now payload db = Some r ->
  Schema.orders r.1 !! oid = Some o.
Proof.
  unfold Webhook.handlePaymentCaptured.
  destruct (Webhook.payload payload) as [object|]; [|discriminate].
  destruct (Webhook.payment object) as [p|]; [|intros [= <-]; exact Hrow].
  destruct (Supabase.select_order_by_razorpay_id _ db _) as [[oid' order]|] eqn:Hsel;
    [|intros [= <-]; exact Hrow].
  apply select_order_by_razorpay_id_Some in Hsel as [Hrow' _].
  case_bool_decide as Hp; [intros [= <-]; exact Hrow|].
  assert (Hne : oid <> oid') by (intros ->; congruence).
  destruct (Supabase.update_order _ _ _ db) as [db'|] eqn:Hu; intros [= <-]; [|exact Hrow].
  rewrite adjust_inventory_orders, (update_order_other _ _ _ _ _ _ Hu Hne). exact Hrow.
Qed.

Lemma failed_keeps_paid f now payload db' :
  Webhook.handlePaymentFailed f now payload db = Some db' ->
  Schema.orders db' !! oid = Some o.
Proof.
  unfold Webhook.handlePaymentFailed.
  destruct (Webhook.payload payload) as [object|]; [|discriminate].
  destruct (Webhook.payment object) as [p|]; [|intros [= <-]; exact Hrow].
  destruct (Supabase.select_order_by_razorpay_id _ db _) as [[oid' order]|] eqn:Hsel;
    [|intros [= <-]; exact Hrow].
  apply select_order_by_razorpay_id_Some in Hsel as [Hrow' _].
  case_bool_decide as Hp; [intros [= <-]; exact Hrow|].
  assert (Hne : oid <> oid') by (intros ->; congruence).
  destruct (Supabase.update_order _ _ _ db) as [db''|] eqn:Hu; simpl; intros [= <-];
    [|exact Hrow].
  rewrite (update_order_other _ _ _ _ _ _ Hu Hne). exact Hrow.
Qed.

Lemma failed_on_paid_is_noop f now payload object p :
  Webhook.payload payload = Some object ->
  Webhook.payment object = Some p ->
  Supabase.select_order_by_razorpay_id (order_fetch_fails f) db (Webhook.order_id p)
    = Some (oid, o) ->
  Webhook.handlePaymentFailed f now payload db = Some db.
Proof.
  intros Ho Hp Hsel. unfold Webhook.handlePaymentFailed. rewrite Ho, Hp, Hsel.
  rewrite bool_decide_eq_true_2 by exact Hpaid. reflexivity.
Qed.

Lemma webhook_keeps_paid secret f now req :
  Schema.orders (db_after (Webhook.POST secret f now req db)) !! oid = Some o.
Proof.
  unfold Webhook.POST.
  destruct (Webhook.signature req) as [sig|]; [|exact Hrow].
  destruct (bool_decide (sig = "")); [exact Hrow|].
  destruct (falsy secret); [exact Hrow|].
  destruct (negb _); [exact Hrow|].
  destruct (Webhook.JSON_parse _) as [payload|]; [|exact Hrow].
  destruct (_ || _).
  - pose proof (captured_keeps_paid f now payload) as Hc.
    destruct (Webhook.handlePaymentCaptured f now payload db) as [[db' calls]|];
      [exact (Hc _ eq_refl) | exact Hrow].
  - destruct (bool_decide _); [|exact Hrow].
    pose proof (failed_keeps_paid f now payload) as Hc.
    destruct (Webhook.handlePaymentFailed f now payload db) as [db'|];
      [exact (Hc _ eq_refl) | exact Hrow].
Qed.

Lemma serve_keeps_paid c :
  Schema.orders (db_after (serve c db)) !! oid = Some o.
Proof.
  destruct c; simpl; [apply verify_keeps_paid | apply webhook_keeps_paid].
Qed.

End Monotone.

(** C1.  Once an order is paid, its row is the same after any sequence of
    verify calls and webhook deliveries, whatever they carry and whichever
    database calls fail; the two webhook handlers keep it for every
    payload (whenever they return: a handler that throws has written
    nothing), and a failed event that finds the paid order writes nothing
    at all. *)
Theorem paid_status_is_monotone `{Crypto} `{Webhook.Json} db oid o :
  Schema.orders db !! oid = Some o ->
  Schema.payment_status o = Some "paid" ->
  (forall calls, Schema.orders (serve_all calls db).1 !! oid = Some o) /\
  (forall f now payload,
     (forall r, Webhook.handlePaymentCaptured f now payload db = Some r ->
        Schema.orders r.1 !! oid = Some o) /\
     (forall db', Webhook.handlePaymentFailed f now payload db = Some db' ->
        Schema.orders db' !! oid = Some o)) /\
  (forall f now payload object p,
     Webhook.payload payload = Some object ->
     Webhook.payment object = Some p ->
     Supabase.select_order_by_razorpay_id (order_fetch_fails f) db (Webhook.order_id p)
       = Some (oid, o) ->
     Webhook.handlePaymentFailed f now payload db = Some db).
Proof.
  intros Hrow Hpaid. split; [|split].
  - intros calls. revert db Hrow.
    induction calls as [|c rest IH]; intros db Hrow; [exact Hrow|].
    cbn [serve_all].
    pose proof (serve_keeps_paid db oid o Hrow Hpaid c) as Hc.
    specialize (IH _ Hc).
    destruct (serve_all rest (db_after (serve c db))) as [db' adjusted]. exact IH.
  - intros f now payload. split.
    + intros r. apply captured_keeps_paid; assumption.
    + intros db'. apply failed_keeps_paid; assumption.
  - intros f now payload object p. apply failed_on_paid_is_noop; assumption.
Qed.

Lemma paid_status_is_monotone_witness :
  Schema.orders Sample.paid_db !! "o1" = Some Sample.paid_order /\
  Schema.orders
    (@serve_all Sample.crypto Sample.json
       [ WebhookCall (Some Sample.webhook_secret) no_faults Sample.later
           (Sample.delivery Sample.failed_body);
         VerifyCall (Some Sample.key_secret) no_faults Sample.later (Some Sample.buyer)
           (Sample.verify_request "forged");
         WebhookCall (Some Sample.webhook_secret) no_faults Sample.later
           (Sample.delivery Sample.captured_body) ]
       Sample.paid_db).1 !! "o1" = Some Sample.paid_order.
Proof.
  split; [reflexivity|].
  apply (@paid_status_is_monotone Sample.crypto Sample.json Sample.paid_db "o1"
           Sample.paid_order); reflexivity.
Defined.

(** ** The Payment Verifier *)

Section Verifier.
Context `{Crypto}.
Import VerifyPayment.

Lemma POST_after_gates key f now user req db order :
  passes_gates f user req db order ->
  POST key f now (Some user) req db =
    if bool_decide (Schema.payment_status order = Some "paid")
    then {| response := {| status_code := 200;
                           body := VerifySuccess "Payment already verified" (order_id req) |};
            db_after := db; adjuster_calls := [] |}
    else
      match key with
      | None => reject 500 "Internal server error" db
      | Some secret =>
        if negb (bool_decide
                   (hmac_sha256_hex secret
                      (razorpay_order_id req ++ "|" ++ razorpay_payment_id req)
                    = razorpay_signature req))
        then reject 400 "Payment verification failed"
               (default db (Supabase.update_order (order_update_fails f)
                              (mark_failed (razorpay_payment_id req) now) (order_id req) db))
        else
          match Supabase.update_order (order_update_fails f)
                  (mark_paid (razorpay_payment_id req) (razorpay_signature req) now)
                  (order_id req) db with
          | None => reject 500 "Failed to update order status" db
          | Some db' =>
              let '(db'', calls) := adjust_inventory f now (order_id req) db' in
              {| response := {| status_code := 200;
                                body := VerifySuccess "Payment verified successfully"
                                          (order_id req) |};
                 db_after := db''; adjuster_calls := calls |}
          end
      end.
Proof.
  intros ((H1 & H2 & H3 & H4) & Hf & Hrow & Huser & Hroid).
  unfold POST, Supabase.select_order.
  rewrite !bool_decide_eq_false_2 by assumption. simpl.
  rewrite Hf, Hrow.
  rewrite !bool_decide_eq_true_2 by assumption. simpl. reflexivity.
Qed.

(** C2.  A complete, authenticated request for an order that is found,
    owned by the caller, carries the submitted gateway order id and is not
    yet paid, whose signature is the HMAC of [order id | payment id], is
    answered with success once the update of the order goes through; the
    order then is paid and processing and stores the payment id, the
    signature and the time of verification. *)
Theorem verifier_accepts_valid_signature secret f now user req db order :
  passes_gates f user req db order ->
  Schema.payment_status order <> Some "paid" ->
  razorpay_signature req =
    hmac_sha256_hex secret (razorpay_order_id req ++ "|" ++ razorpay_payment_id req) ->
  order_update_fails f = false ->
  let out := POST (Some secret) f now (Some user) req db in
  response out = {| status_code := 200;
                    body := VerifySuccess "Payment verified successfully" (order_id req) |} /\
  exists order',
    Schema.orders (db_after out) !! order_id req = Some order' /\
    Schema.payment_status order' = Some "paid" /\
    Schema.status order' = Some "processing" /\
    Schema.razorpay_payment_id order' = Some (razorpay_payment_id req) /\
    Schema.razorpay_signature order' = Some (razorpay_signature req) /\
    Schema.payment_metadata order' = Some (Schema.Verified now "signature").
Proof.
  intros Hg Hnp Hsig Hu. pose proof Hg as (_ & _ & Hrow & _).
  cbv zeta. rewrite (POST_after_gates _ _ _ _ _ _ _ Hg).
  rewrite bool_decide_eq_false_2 by exact Hnp.
  rewrite bool_decide_eq_true_2 by (symmetry; exact Hsig). simpl.
  unfold Supabase.update_order. rewrite Hu.
  destruct (adjust_inventory f now (order_id req) _) as [db'' calls] eqn:Ha.
  simpl. split; [reflexivity|].
  replace db'' with (adjust_inventory f now (order_id req)
    (Schema.with_orders
       (alter (mark_paid (razorpay_payment_id req) (razorpay_signature req) now)
          (order_id req) (Schema.orders db)) db)).1 by (rewrite Ha; reflexivity).
  rewrite adjust_inventory_orders. simpl. rewrite lookup_alter_eq, Hrow. simpl.
  eexists. split; [reflexivity|]. simpl. repeat split; reflexivity.
Qed.

(** C3.  The same request with any other signature is answered 400 with
    the one fixed message, [decrementStock] is not called and no product
    changes; the order is written as failed, with the failure metadata,
    when the update goes through (the handler does not look at its
    result). *)
Theorem verifier_rejects_tampered_signature secret f now user req db order :
  passes_gates f user req db order ->
  Schema.payment_status order <> Some "paid" ->
  razorpay_signature req <>
    hmac_sha256_hex secret (razorpay_order_id req ++ "|" ++ razorpay_payment_id req) ->
  let out := POST (Some secret) f now (Some user) req db in
  response out = {| status_code := 400; body := ErrorBody "Payment verification failed" |} /\
  adjuster_calls out = [] /\
  Schema.products (db_after out) = Schema.products db /\
  (order_update_fails f = false ->
   exists order',
     Schema.orders (db_after out) !! order_id req = Some order' /\
     Schema.payment_status order' = Some "failed" /\
     Schema.payment_metadata order' =
       Some (Schema.VerificationFailed (razorpay_payment_id req)
               "Signature verification failed" now)).
Proof.
  intros Hg Hnp Hsig. pose proof Hg as (_ & _ & Hrow & _).
  cbv zeta. rewrite (POST_after_gates _ _ _ _ _ _ _ Hg).
  rewrite bool_decide_eq_false_2 by exact Hnp.
  rewrite bool_decide_eq_false_2 by (intros Heq; apply Hsig; symmetry; exact Heq). simpl.
  split; [reflexivity|]. split; [reflexivity|]. split.
  - unfold Supabase.update_order. destruct (order_update_fails f); reflexivity.
  - intros Hu. unfold Supabase.update_order. rewrite Hu. simpl.
    rewrite lookup_alter_eq, Hrow. simpl.
    eexists. split; [reflexivity|]. split; reflexivity.
Qed.

(** A call on an order that is already paid writes nothing and calls
    nothing, whatever else it carries. *)
Lemma verify_on_paid_is_noop key f now auth req db order :
  Schema.orders db !! order_id req = Some order ->
  Schema.payment_status order = Some "paid" ->
  db_after (POST key f now auth req db) = db /\
  adjuster_calls (POST key f now auth req db) = [].
Proof.
  intros Hrow Hpaid. unfold POST.
  destruct auth as [user|]; [|split; reflexivity].
  destruct (_ || _); [split; reflexivity|].
  unfold Supabase.select_order.
  destruct (order_fetch_fails f); [split; reflexivity|]. rewrite Hrow.
  destruct (negb _); [split; reflexivity|].
  destruct (negb _); [split; reflexivity|].
  rewrite bool_decide_eq_true_2 by exact Hpaid. split; reflexivity.
Qed.

(** A call that answers 200 leaves the order it names paid, and the order
    keeps its owner and its gateway order id. *)
Lemma verify_200_is_paid key f now auth req db :
  status_code (response (POST key f now auth req db)) = 200%nat ->
  exists user order order',
    auth = Some user /\ complete req /\
    Schema.orders db !! order_id req = Some order /\
    Schema.orders (db_after (POST key f now auth req db)) !! order_id req = Some order' /\
    Schema.payment_status order' = Some "paid" /\
    Schema.user_id order' = Some (id user) /\
    Schema.razorpay_order_id order' = Some (razorpay_order_id req).
Proof.
  unfold POST.
  destruct auth as [user|]; [|discriminate].
  destruct (bool_decide (razorpay_order_id req = "")) eqn:E1; [discriminate|].
  destruct (bool_decide (razorpay_payment_id req = "")) eqn:E2; [discriminate|].
  destruct (bool_decide (razorpay_signature req = "")) eqn:E3; [discriminate|].
  destruct (bool_decide (order_id req = "")) eqn:E4; [discriminate|]. simpl.
  apply bool_decide_eq_false in E1, E2, E3, E4.
  unfold Supabase.select_order.
  destruct (order_fetch_fails f); [discriminate|].
  destruct (Schema.orders db !! order_id req) as [order|] eqn:Hrow; [|discriminate].
  case_bool_decide as Hu; [|discriminate]. simpl.
  case_bool_decide as Hr; [|discriminate]. simpl.
  case_bool_decide as Hp.
  - intros _. exists user, order, order. repeat split; assumption.
  - destruct key as [secret|]; [|discriminate].
    destruct (negb _); [discriminate|].
    unfold Supabase.update_order. destruct (order_update_fails f); [discriminate|].
    destruct (adjust_inventory f now (order_id req) _) as [db'' calls] eqn:Ha.
    intros _. simpl.
    replace db'' with (adjust_inventory f now (order_id req)
      (Schema.with_orders
         (alter (mark_paid (razorpay_payment_id req) (razorpay_signature req) now)
            (order_id req) (Schema.orders db)) db)).1 by (rewrite Ha; reflexivity).
    rewrite adjust_inventory_orders. simpl. rewrite lookup_alter_eq, Hrow. simpl.
    exists user, order. eexists. repeat split; try eassumption; reflexivity.
Qed.

(** The decrement is only called by a request that marks its order paid. *)
Lemma verify_adjusts_only_when_paying key f now auth req db :
  adjuster_calls (POST key f now auth req db) <> [] ->
  length (adjuster_calls (POST key f now auth req db)) = 1%nat /\
  exists order',
    Schema.orders (db_after (POST key f now auth req db)) !! order_id req = Some order' /\
    Schema.payment_status order' = Some "paid".
Proof.
  unfold POST.
  destruct auth as [user|]; [|intros []; reflexivity].
  destruct (_ || _); [intros []; reflexivity|].
  unfold Supabase.select_order.
  destruct (order_fetch_fails f); [intros []; reflexivity|].
  destruct (Schema.orders db !! order_id req) as [order|] eqn:Hrow; [|intros []; reflexivity].
  destruct (negb _); [intros []; reflexivity|].
  destruct (negb _); [intros []; reflexivity|].
  destruct (bool_decide _); [intros []; reflexivity|].
  destruct key as [secret|]; [|intros []; reflexivity].
  destruct (negb _); [intros []; reflexivity|].
  unfold Supabase.update_order. destruct (order_update_fails f); [intros []; reflexivity|].
  destruct (adjust_inventory f now (order_id req) _) as [db'' calls] eqn:Ha.
  simpl. intros Hcalls. split.
  - revert Ha Hcalls. unfold adjust_inventory.
    destruct (Supabase.select_order_items _ _ _) as [[|i l]|]; intros [= <- <-]; try congruence.
    reflexivity.
  - replace db'' with (adjust_inventory f now (order_id req)
      (Schema.with_orders
         (alter (mark_paid (razorpay_payment_id req) (razorpay_signature req) now)
            (order_id req) (Schema.orders db)) db)).1 by (rewrite Ha; reflexivity).
    rewrite adjust_inventory_orders. simpl. rewrite lookup_alter_eq, Hrow. simpl.
    eexists. split; reflexivity.
Qed.

(** C4.  A request that reaches the idempotency check on a paid order is
    answered with success at once: nothing is written, [decrementStock] is
    not called, and neither the key nor the signature is looked at.  Two
    calls with the same payload never call [decrementStock] more than once
    between them, and when the first is answered 200 the order is paid
    after both, the second changes nothing and, if it finds the order, is
    answered 200 too. *)
Theorem verifier_is_idempotent :
  (forall key f now user req db order,
     passes_gates f user req db order ->
     Schema.payment_status order = Some "paid" ->
     POST key f now (Some user) req db =
       {| response := {| status_code := 200;
                         body := VerifySuccess "Payment already verified" (order_id req) |};
          db_after := db; adjuster_calls := [] |}) /\
  (forall key1 f1 now1 key2 f2 now2 auth req db,
     let first := POST key1 f1 now1 auth req db in
     let second := POST key2 f2 now2 auth req (db_after first) in
     (length (adjuster_calls first ++ adjuster_calls second) <= 1)%nat /\
     (status_code (response first) = 200%nat ->
      db_after second = db_after first /\
      adjuster_calls second = [] /\
      (exists order', Schema.orders (db_after second) !! order_id req = Some order' /\
                      Schema.payment_status order' = Some "paid") /\
      (order_fetch_fails f2 = false ->
       response second =
         {| status_code := 200;
            body := VerifySuccess "Payment already verified" (order_id req) |}))).
Proof.
  split.
  - intros key f now user req db order Hg Hpaid.
    rewrite (POST_after_gates _ _ _ _ _ _ _ Hg).
    rewrite bool_decide_eq_true_2 by exact Hpaid. reflexivity.
  - intros key1 f1 now1 key2 f2 now2 auth req db. cbv zeta.
    split.
    + destruct (decide (adjuster_calls (POST key1 f1 now1 auth req db) = [])) as [He|Hne].
      * rewrite He. simpl.
        destruct (decide (adjuster_calls (POST key2 f2 now2 auth req (db_after (POST key1 f1 now1 auth req db))) = []))
          as [He2|Hne2].
        -- rewrite He2. simpl. lia.
        -- apply verify_adjusts_only_when_paying in Hne2 as [Hlen _]. rewrite Hlen. lia.
      * apply verify_adjusts_only_when_paying in Hne as [Hlen (order' & Hrow & Hpaid)].
        destruct (verify_on_paid_is_noop key2 f2 now2 auth req _ _ Hrow Hpaid) as [_ He2].
        rewrite length_app, Hlen, He2. simpl. lia.
    + intros H200.
      apply verify_200_is_paid in H200
        as (user & order & order' & -> & Hc & _ & Hrow & Hpaid & Hu & Hr).
      destruct (verify_on_paid_is_noop key2 f2 now2 (Some user) req _ _ Hrow Hpaid)
        as [Hdb Hcalls].
      split; [exact Hdb|]. split; [exact Hcalls|]. split.
      * exists order'. rewrite Hdb. split; assumption.
      * intros Hf2.
        rewrite (POST_after_gates key2 f2 now2 user req (db_after (POST key1 f1 now1 (Some user) req db)) order').
        -- rewrite bool_decide_eq_true_2 by exact Hpaid. reflexivity.
        -- repeat split; try assumption; apply Hc.
Qed.

End Verifier.

Lemma verifier_accepts_valid_signature_witness :
  let out := @VerifyPayment.POST Sample.crypto (Some Sample.key_secret) no_faults Sample.now
               (Some Sample.buyer) (Sample.verify_request Sample.good_signature) Sample.db in
  status_code (response out) = 200%nat /\
  Schema.orders (db_after out)
    !! VerifyPayment.order_id (Sample.verify_request Sample.good_signature)
    ≫= Schema.payment_status = Some "paid" /\
  Schema.orders (db_after out)
    !! VerifyPayment.order_id (Sample.verify_request Sample.good_signature)
    ≫= Schema.status = Some "processing".
Proof.
  destruct (@verifier_accepts_valid_signature Sample.crypto Sample.key_secret no_faults
              Sample.now Sample.buyer (Sample.verify_request Sample.good_signature)
              Sample.db Sample.pending_order)
    as [Hr (order' & Ho & Hp & Hs & _)].
  - repeat split; try discriminate; reflexivity.
  - discriminate.
  - reflexivity.
  - reflexivity.
  - cbv zeta. rewrite Hr, Ho. simpl. auto.
Defined.

Lemma verifier_rejects_tampered_signature_witness :
  let out := @VerifyPayment.POST Sample.crypto (Some Sample.key_secret) no_faults Sample.now
               (Some Sample.buyer) (Sample.verify_request "forged") Sample.db in
  status_code (response out) = 400%nat /\
  adjuster_calls out = [] /\
  Schema.orders (db_after out) !! VerifyPayment.order_id (Sample.verify_request "forged")
    ≫= Schema.payment_status = Some "failed".
Proof.
  destruct (@verifier_rejects_tampered_signature Sample.crypto Sample.key_secret no_faults
              Sample.now Sample.buyer (Sample.verify_request "forged")
              Sample.db Sample.pending_order)
    as (Hr & Hc & _ & Hw).
  - repeat split; try discriminate; reflexivity.
  - discriminate.
  - discriminate.
  - destruct (Hw eq_refl) as (order' & Ho & Hp & _).
    cbv zeta. rewrite Hr, Hc, Ho. simpl. auto.
Defined.

Lemma verifier_is_idempotent_witness :
  let first := @VerifyPayment.POST Sample.crypto (Some Sample.key_secret) no_faults Sample.now
                 (Some Sample.buyer) (Sample.verify_request Sample.good_signature) Sample.db in
  let second := @VerifyPayment.POST Sample.crypto (Some Sample.key_secret) no_faults Sample.later
                  (Some Sample.buyer) (Sample.verify_request Sample.good_signature)
                  (db_after first) in
  status_code (response first) = 200%nat /\
  status_code (response second) = 200%nat /\
  adjuster_calls second = [] /\
  stock_levels (Schema.products (db_after second)) !! "p1" = Some (Some 3, Some true).
Proof.
  cbv zeta.
  destruct (@verifier_is_idempotent Sample.crypto) as [_ Htwice].
  destruct (Htwice (Some Sample.key_secret) no_faults Sample.now
              (Some Sample.key_secret) no_faults Sample.later
              (Some Sample.buyer) (Sample.verify_request Sample.good_signature) Sample.db)
    as [_ Hsecond].
  destruct (Hsecond eq_refl) as (Hdb & Hcalls & _ & Hr).
  split; [reflexivity|]. split; [rewrite (Hr eq_refl); reflexivity|].
  split; [exact Hcalls|]. rewrite Hdb. reflexivity.
Defined.

(** Where the verifier stops short of the two theorems above: a request
    with an empty payment id is turned away before its signature is
    looked at, and a failed update of the order is answered 500. *)
Example verifier_turns_away_incomplete_request :
  @VerifyPayment.POST Sample.crypto (Some Sample.key_secret) no_faults Sample.now
    (Some Sample.buyer)
    {| VerifyPayment.razorpay_order_id := "order_1";
       VerifyPayment.razorpay_payment_id := "";
       VerifyPayment.razorpay_signature :=
         @hmac_sha256_hex Sample.crypto Sample.key_secret "order_1|";
       VerifyPayment.order_id := "o1" |}
    Sample.db
  = VerifyPayment.reject 400 "Missing required payment details" Sample.db.
Proof. reflexivity. Qed.

Example verifier_answers_500_when_update_fails :
  @VerifyPayment.POST Sample.crypto (Some Sample.key_secret) Sample.update_fails Sample.now
    (Some Sample.buyer) (Sample.verify_request Sample.good_signature) Sample.db
  = VerifyPayment.reject 500 "Failed to update order status" Sample.db.
Proof. reflexivity. Qed.

(** ** Stock levels after a decrement *)

Section Levels.
Import StockManagement.

Lemma stock_levels_lookup ps1 ps2 p :
  stock_levels ps1 = stock_levels ps2 ->
  stock_level <$> ps1 !! p = stock_level <$> ps2 !! p.
Proof.
  intros Heq. unfold stock_levels in Heq.
  rewrite <- !lookup_fmap, Heq. reflexivity.
Qed.

Lemma stock_levels_update p n flag now1 now2 ps1 ps2 :
  stock_levels ps1 = stock_levels ps2 ->
  stock_levels (update_product p n flag now1 ps1)
  = stock_levels (update_product p n flag now2 ps2).
Proof.
  intros Heq. destruct p as [p|]; [|exact Heq]. simpl.
  apply map_eq. intros q. unfold stock_levels. rewrite !lookup_fmap.
  pose proof (stock_levels_lookup _ _ q Heq) as Hq.
  destruct (decide (p = q)) as [->|Hne].
  - rewrite !lookup_alter_eq.
    destruct (ps1 !! q), (ps2 !! q); simpl in *; try discriminate; reflexivity.
  - rewrite !lookup_alter_ne by exact Hne. exact Hq.
Qed.

Lemma decrement_item_levels now1 now2 ft item r1 r2 :
  stock_levels (stock_products r1) = stock_levels (stock_products r2) ->
  stock_levels (stock_products (decrement_item now1 ft item r1))
  = stock_levels (stock_products (decrement_item now2 ft item r2)).
Proof.
  intros Heq. unfold decrement_item.
  assert (Hf : stock_level <$> fetch_product (stock_products r1) (product_id item)
             = stock_level <$> fetch_product (stock_products r2) (product_id item)).
  { destruct (product_id item) as [p|]; simpl; [|reflexivity].
    apply stock_levels_lookup, Heq. }
  destruct (fetch_product (stock_products r1) _) as [row1|],
           (fetch_product (stock_products r2) _) as [row2|];
    simpl in Hf; try discriminate; destruct ft; simpl; try exact Heq.
  injection Hf as Hq _. rewrite Hq. apply stock_levels_update, Heq.
Qed.

Lemma decrementStock_levels now1 now2 fts items ps :
  stock_levels (stock_products (decrementStock fts now1 ps items))
  = stock_levels (stock_products (decrementStock fts now2 ps items)).
Proof.
  unfold decrementStock.
  assert (Hgen : forall items fts r1 r2,
    stock_levels (stock_products r1) = stock_levels (stock_products r2) ->
    stock_levels (stock_products (stock_loop (decrement_item now1) fts items r1))
    = stock_levels (stock_products (stock_loop (decrement_item now2) fts items r2))).
  { clear. intros items. induction items as [|item rest IH]; intros fts r1 r2 Heq; simpl.
    - exact Heq.
    - apply IH, decrement_item_levels, Heq. }
  apply Hgen. reflexivity.
Qed.

Lemma ordered_quantity_nonneg p items :
  Forall (fun item => 0 <= quantity item) items -> 0 <= ordered_quantity p items.
Proof.
  induction 1 as [|item rest Hq _ IH]; simpl; [lia|]. case_bool_decide; lia.
Qed.

Lemma ordered_quantity_absent p items :
  Some p ∉ map product_id items -> ordered_quantity p items = 0.
Proof.
  induction items as [|item rest IH]; simpl; [reflexivity|].
  intros Hnin. apply not_elem_of_cons in Hnin as [Hne Hnin].
  rewrite bool_decide_eq_false_2 by congruence. rewrite IH by exact Hnin. reflexivity.
Qed.

Lemma stock_loop_level now p items :
  Forall (fun item => 0 <= quantity item) items ->
  forall r row,
  stock_products r !! p = Some row ->
  stock_level <$> stock_products (stock_loop (decrement_item now) no_item_faults items r) !! p
  = Some (level_after p items row).
Proof.
  induction 1 as [|item rest Hq Hrest IH]; intros r row Hrow.
  - simpl. rewrite Hrow. reflexivity.
  - cbn [stock_loop]. change (fun n => no_item_faults (S n)) with no_item_faults.
    change (no_item_faults 0%nat) with NoFault.
    destruct (decide (product_id item = Some p)) as [Hp|Hp].
    + pose proof (decrement_item_writes now item r p row Hp Hrow) as Hw.
      rewrite (IH _ _ Hw). f_equal. unfold level_after. simpl.
      rewrite (bool_decide_eq_true_2 (Some p ∈ product_id item :: map product_id rest))
        by (rewrite Hp; apply list_elem_of_here).
      rewrite (bool_decide_eq_true_2 (product_id item = Some p)) by exact Hp.
      pose proof (ordered_quantity_nonneg p rest Hrest) as Hn.
      case_bool_decide as Hin.
      * replace (Z.max 0 (Z.max 0 (default 0 (Schema.stock_quantity row) - quantity item)
                          - ordered_quantity p rest))
          with (Z.max 0 (default 0 (Schema.stock_quantity row)
                         - (quantity item + ordered_quantity p rest))) by lia.
        reflexivity.
      * rewrite (ordered_quantity_absent p rest Hin). unfold stock_level. simpl.
        rewrite Z.add_0_r. reflexivity.
    + assert (Hkeep : stock_products (decrement_item now NoFault item r) !! p = Some row).
      { unfold decrement_item.
        destruct (fetch_product (stock_products r) (product_id item)) as [product|] eqn:Hf;
          [|exact Hrow].
        apply fetch_product_Some in Hf as (q & Hq' & _). rewrite Hq'. simpl.
        rewrite lookup_alter_ne by congruence. exact Hrow. }
      rewrite (IH _ _ Hkeep). f_equal. unfold level_after. simpl.
      rewrite (bool_decide_eq_false_2 (product_id item = Some p)) by exact Hp.
      rewrite Z.add_0_l.
      assert (Hiff : Some p ∈ product_id item :: map product_id rest
                     <-> Some p ∈ map product_id rest).
      { rewrite elem_of_cons. split; [intros [?|?]; congruence | auto]. }
      rewrite (bool_decide_ext _ _ Hiff). reflexivity.
Qed.

Lemma decrementStock_level now p items ps row :
  Forall (fun item => 0 <= quantity item) items ->
  ps !! p = Some row ->
  stock_levels (stock_products (decrementStock no_item_faults now ps items)) !! p
  = Some (level_after p items row).
Proof.
  intros Hq Hrow. unfold stock_levels. rewrite lookup_fmap.
  apply (stock_loop_level now p items Hq (start ps) row Hrow).
Qed.

End Levels.

(** ** The Webhook Reconciler *)

Lemma adjust_inventory_ok f now oid db :
  items_fetch_fails f = false ->
  Schema.products (adjust_inventory f now oid db).1
    = StockManagement.stock_products
        (StockManagement.decrementStock (item_faults f) now (Schema.products db)
           (items_of db oid)) /\
  (adjust_inventory f now oid db).2
    = if decide (items_of db oid = []) then [] else [items_of db oid].
Proof.
  intros Hf. unfold adjust_inventory, items_of, Supabase.select_order_items. rewrite Hf.
  simpl. destruct (map _ _) as [|item rest]; simpl; split; reflexivity.
Qed.

Section WebhookFacts.
Context `{Crypto} `{Webhook.Json}.

Lemma webhook_POST_accepted secret f now req db :
  webhook_accepted secret req ->
  Webhook.POST secret f now req db =
    match Webhook.JSON_parse (Webhook.rawBody req) with
    | None => Webhook.answer 200 WebhookProcessingError db []
    | Some payload =>
        if bool_decide (Webhook.event payload = "payment.captured")
           || bool_decide (Webhook.event payload = "order.paid")
        then
          match Webhook.handlePaymentCaptured f now payload db with
          | None => Webhook.answer 200 WebhookProcessingError db []
          | Some (db', calls) => Webhook.answer 200 WebhookReceived db' calls
          end
        else if bool_decide (Webhook.event payload = "payment.failed")
        then
          match Webhook.handlePaymentFailed f now payload db with
          | None => Webhook.answer 200 WebhookProcessingError db []
          | Some db' => Webhook.answer 200 WebhookReceived db' []
          end
        else Webhook.answer 200 WebhookReceived db []
    end.
Proof.
  intros (sig & s & Hsig & Hne & -> & Hs & Hv). unfold Webhook.POST.
  rewrite Hsig. rewrite bool_decide_eq_false_2 by exact Hne. simpl.
  rewrite bool_decide_eq_false_2 by exact Hs. rewrite Hv. reflexivity.
Qed.

Lemma captured_on_paid_is_noop f now payload object p db oid order :
  Webhook.payload payload = Some object ->
  Webhook.payment object = Some p ->
  Schema.orders db !! oid = Some order ->
  Schema.razorpay_order_id order = Some (Webhook.order_id p) ->
  Schema.payment_status order = Some "paid" ->
  Webhook.handlePaymentCaptured f now payload db = Some (db, []).
Proof.
  intros Ho Hp Hrow Hroid Hpaid. unfold Webhook.handlePaymentCaptured. rewrite Ho, Hp.
  destruct (Supabase.select_order_by_razorpay_id _ db _) as [row|] eqn:Hsel; [|reflexivity].
  assert (row = (oid, order)) as ->.
  { unfold Supabase.select_order_by_razorpay_id in Hsel.
    destruct (order_fetch_fails f); [discriminate|].
    eapply select_order_by_razorpay_id_unique; eassumption. }
  rewrite bool_decide_eq_true_2 by exact Hpaid. reflexivity.
Qed.

End WebhookFacts.

(** ** Out-of-order delivery *)

Section Convergence.
Context `{Crypto} `{Webhook.Json}.
Import VerifyPayment.

Variables (secret : string) (user : User) (req : VerifyPaymentRequest) (nowv : string).
Variables (ws : string) (wreq : Webhook.WebhookRequest) (noww : string).
Variables (payload : Webhook.RazorpayWebhookPayload) (object : Webhook.PayloadObject).
Variable p : Webhook.PaymentEntity.
Variables (db : Schema.DB) (order : Schema.Order).

Hypothesis Hgates : passes_gates no_faults user req db order.
Hypothesis Hpending : Schema.payment_status order = Some "pending".
Hypothesis Hsig : razorpay_signature req =
  hmac_sha256_hex secret (razorpay_order_id req ++ "|" ++ razorpay_payment_id req).
Hypothesis Haccepted : webhook_accepted (Some ws) wreq.
Hypothesis Hparse : Webhook.JSON_parse (Webhook.rawBody wreq) = Some payload.
Hypothesis Hevent : Webhook.event payload = "payment.captured" \/
                    Webhook.event payload = "order.paid".
Hypothesis Hobject : Webhook.payload payload = Some object.
Hypothesis Hpayment : Webhook.payment object = Some p.
Hypothesis Hsame : Webhook.order_id p = razorpay_order_id req.

Abbreviation items := (items_of db (order_id req)).
Abbreviation settled_at := (settled db (order_id req) order).

Lemma settle_by patch now :
  (forall o, Schema.payment_status (patch o) = Some "paid" /\
             Schema.status (patch o) = Some "processing" /\
             Schema.user_id (patch o) = Schema.user_id o /\
             Schema.razorpay_order_id (patch o) = Schema.razorpay_order_id o) ->
  settled_at now
    (adjust_inventory no_faults now (order_id req)
       (Schema.with_orders (alter patch (order_id req) (Schema.orders db)) db)).
Proof.
  intros Hpatch. destruct Hgates as (_ & _ & Hrow & _).
  set (db' := Schema.with_orders _ db).
  destruct (adjust_inventory_ok no_faults now (order_id req) db' eq_refl) as [Hps Hcalls].
  split; [|split].
  - rewrite adjust_inventory_orders. simpl. rewrite lookup_alter_eq, Hrow. simpl.
    eexists. split; [reflexivity|]. apply Hpatch.
  - exact Hps.
  - exact Hcalls.
Qed.

Lemma verify_settles :
  let out := POST (Some secret) no_faults nowv (Some user) req db in
  settled_at nowv (db_after out, adjuster_calls out).
Proof.
  cbv zeta. rewrite (POST_after_gates _ _ _ _ _ _ _ Hgates).
  rewrite bool_decide_eq_false_2 by (rewrite Hpending; discriminate).
  rewrite bool_decide_eq_true_2 by (symmetry; exact Hsig). simpl.
  pose proof (settle_by (mark_paid (razorpay_payment_id req) (razorpay_signature req) nowv)
                nowv) as Hs.
  destruct (adjust_inventory _ _ _ _) as [db'' calls]. simpl.
  apply Hs. intros o. repeat split; reflexivity.
Qed.

Lemma webhook_after_settled now out :
  settled_at now out ->
  Webhook.POST (Some ws) no_faults noww wreq out.1
  = Webhook.answer 200 WebhookReceived out.1 [].
Proof.
  intros ((o & Hrow & Hpaid & _ & _ & Hroid) & _).
  rewrite (webhook_POST_accepted _ _ _ _ _ Haccepted), Hparse.
  destruct Hgates as (_ & _ & _ & _ & Hr).
  rewrite (captured_on_paid_is_noop no_faults noww payload object p out.1 (order_id req) o);
    try assumption.
  - assert (Hb : bool_decide (Webhook.event payload = "payment.captured")
                 || bool_decide (Webhook.event payload = "order.paid") = true).
    { destruct Hevent as [-> | ->]; reflexivity. }
    rewrite Hb. reflexivity.
  - rewrite Hroid, Hr, Hsame. reflexivity.
Qed.

Lemma verify_after_settled now out :
  settled_at now out ->
  POST (Some secret) no_faults nowv (Some user) req out.1
  = {| response := {| status_code := 200;
                      body := VerifySuccess "Payment already verified" (order_id req) |};
       db_after := out.1; adjuster_calls := [] |}.
Proof.
  intros ((o & Hrow & Hpaid & _ & Hu & Hroid) & _).
  destruct Hgates as (Hc & _ & _ & Hu' & Hr).
  rewrite (POST_after_gates _ _ _ _ _ out.1 o).
  - rewrite bool_decide_eq_true_2 by exact Hpaid. reflexivity.
  - repeat split; try assumption; try apply Hc; congruence.
Qed.

(** The webhook served first either finds no single order for the gateway
    id and leaves the database alone, or settles the order. *)
Lemma webhook_first :
  let out := Webhook.POST (Some ws) no_faults noww wreq db in
  status_code (response out) = 200%nat /\
  ((db_after out = db /\ adjuster_calls out = []) \/
   settled_at noww (db_after out, adjuster_calls out)).
Proof.
  cbv zeta. rewrite (webhook_POST_accepted _ _ _ _ _ Haccepted), Hparse.
  assert (Hb : bool_decide (Webhook.event payload = "payment.captured")
               || bool_decide (Webhook.event payload = "order.paid") = true).
  { destruct Hevent as [-> | ->]; reflexivity. }
  rewrite Hb. unfold Webhook.handlePaymentCaptured. rewrite Hobject, Hpayment.
  destruct Hgates as (_ & _ & Hrow & _ & Hr).
  destruct (Supabase.select_order_by_razorpay_id _ db _) as [row|] eqn:Hsel.
  - assert (row = (order_id req, order)) as ->.
    { eapply select_order_by_razorpay_id_unique; try eassumption.
      rewrite Hr, Hsame. reflexivity. }
    rewrite bool_decide_eq_false_2 by (rewrite Hpending; discriminate). simpl.
    pose proof (settle_by (Webhook.mark_paid p noww) noww) as Hs.
    destruct (adjust_inventory _ _ _ _) as [db'' calls]. simpl.
    split; [reflexivity|]. right. apply Hs. intros o. repeat split; reflexivity.
  - simpl. split; [reflexivity|]. left. split; reflexivity.
Qed.

Lemma serve_all_two (c1 c2 : Call) (d : Schema.DB) :
  serve_all [c1; c2] d =
    (db_after (serve c2 (db_after (serve c1 d))),
     (adjuster_calls (serve c1 d) ++ adjuster_calls (serve c2 (db_after (serve c1 d))))%list).
Proof. cbn [serve_all]. rewrite app_nil_r. reflexivity. Qed.

Lemma verify_then_webhook_settles :
  settled_at nowv
    (serve_all [VerifyCall (Some secret) no_faults nowv (Some user) req;
                WebhookCall (Some ws) no_faults noww wreq] db).
Proof.
  rewrite serve_all_two. cbn [serve].
  pose proof verify_settles as Hs. cbv zeta in Hs.
  pose proof (webhook_after_settled _ _ Hs) as Hw. cbn [fst] in Hw.
  rewrite Hw. cbn [Webhook.answer db_after adjuster_calls]. rewrite app_nil_r. exact Hs.
Qed.

Lemma webhook_then_verify_settles :
  let out := serve_all [WebhookCall (Some ws) no_faults noww wreq;
                        VerifyCall (Some secret) no_faults nowv (Some user) req] db in
  settled_at nowv out \/ settled_at noww out.
Proof.
  cbv zeta. rewrite serve_all_two. cbn [serve].
  destruct webhook_first as [_ [[Hdb Hcalls] | Hs]].
  - left. rewrite Hdb, Hcalls. cbn [app]. apply verify_settles.
  - right. pose proof (verify_after_settled _ _ Hs) as Hv. cbn [fst] in Hv.
    rewrite Hv. cbn [db_after adjuster_calls]. rewrite app_nil_r. exact Hs.
Qed.

Lemma settled_levels now out :
  settled_at now out ->
  stock_levels (Schema.products out.1) =
    stock_levels (StockManagement.stock_products
                    (StockManagement.decrementStock StockManagement.no_item_faults nowv
                       (Schema.products db) items)).
Proof.
  intros (_ & -> & _). apply decrementStock_levels.
Qed.

(** C5.  For a pending order, a valid verify call and a validly signed
    captured event for the same gateway order id, served in either order
    with no database call failing: the order ends paid and processing,
    [decrementStock] has been called the same number of times (once with
    the order's items, or never when the order has none), and every
    product ends at the same stock level, the one a single run of
    [decrementStock] over the order's items leaves: for non-negative
    quantities, the stock minus the quantity ordered, floored at zero. *)
Theorem out_of_order_delivery_converges :
  let verify := VerifyCall (Some secret) no_faults nowv (Some user) req in
  let webhook := WebhookCall (Some ws) no_faults noww wreq in
  let A := serve_all [verify; webhook] db in
  let B := serve_all [webhook; verify] db in
  (exists oA oB,
     Schema.orders A.1 !! order_id req = Some oA /\
     Schema.orders B.1 !! order_id req = Some oB /\
     Schema.payment_status oA = Some "paid" /\ Schema.status oA = Some "processing" /\
     Schema.payment_status oB = Some "paid" /\ Schema.status oB = Some "processing") /\
  A.2 = B.2 /\
  A.2 = (if decide (items = []) then [] else [items]) /\
  stock_levels (Schema.products A.1) = stock_levels (Schema.products B.1) /\
  stock_levels (Schema.products A.1) =
    stock_levels (StockManagement.stock_products
                    (StockManagement.decrementStock StockManagement.no_item_faults nowv
                       (Schema.products db) items)) /\
  (Forall (fun item => 0 <= StockManagement.quantity item) items ->
   forall q row, Schema.products db !! q = Some row ->
     stock_levels (Schema.products A.1) !! q = Some (level_after q items row) /\
     stock_levels (Schema.products B.1) !! q = Some (level_after q items row)).
Proof.
  intros verify webhook A B.
  pose proof verify_then_webhook_settles as HA. fold verify webhook A in HA.
  assert (HB : exists now, settled_at now B).
  { destruct webhook_then_verify_settles as [Hs | Hs]; eauto. }
  destruct HB as [nowB HB].
  pose proof (settled_levels _ _ HA) as HlA.
  pose proof (settled_levels _ _ HB) as HlB.
  destruct HA as ((oA & HoA & HpA & HsA & _) & _ & HcA).
  destruct HB as ((oB & HoB & HpB & HsB & _) & _ & HcB).
  split; [exists oA, oB; repeat split; assumption|].
  split; [congruence|]. split; [exact HcA|].
  split; [congruence|]. split; [exact HlA|].
  intros Hq q row Hrow.
  rewrite HlA, HlB. split; apply decrementStock_level; assumption.
Qed.

End Convergence.

Lemma out_of_order_delivery_converges_witness :
  let verify := VerifyCall (Some Sample.key_secret) no_faults Sample.now (Some Sample.buyer)
                  (Sample.verify_request Sample.good_signature) in
  let webhook := WebhookCall (Some Sample.webhook_secret) no_faults Sample.later
                   (Sample.delivery Sample.captured_body) in
  let A := @serve_all Sample.crypto Sample.json [verify; webhook] Sample.db in
  let B := @serve_all Sample.crypto Sample.json [webhook; verify] Sample.db in
  A.2 = B.2 /\
  stock_levels (Schema.products A.1) !! "p1" = Some (Some 3, Some true) /\
  stock_levels (Schema.products B.1) !! "p1" = Some (Some 3, Some true).
Proof.
  cbv zeta.
  destruct (@out_of_order_delivery_converges Sample.crypto Sample.json
              Sample.key_secret Sample.buyer (Sample.verify_request Sample.good_signature)
              Sample.now Sample.webhook_secret (Sample.delivery Sample.captured_body)
              Sample.later
              {| Webhook.event := "payment.captured"; Webhook.payload := Some Sample.object |}
              Sample.object Sample.entity Sample.db Sample.pending_order)
    as (_ & Hcalls & _ & _ & _ & Hlevel).
  - repeat split; try discriminate; reflexivity.
  - reflexivity.
  - reflexivity.
  - exists (@hmac_sha256_hex Sample.crypto Sample.webhook_secret Sample.captured_body),
      Sample.webhook_secret.
    repeat split; try discriminate; reflexivity.
  - reflexivity.
  - left. reflexivity.
  - reflexivity.
  - reflexivity.
  - reflexivity.
  - split; [exact Hcalls|].
    apply (Hlevel ltac:(repeat constructor; discriminate) "p1" (Sample.ring 5 true) eq_refl).
Defined.

(** ** The webhook's answers *)

Section WebhookPolicy.
Context `{Crypto} `{Webhook.Json}.

Lemma captured_without_order f now payload object db :
  Webhook.payload payload = Some object ->
  (forall p, Webhook.payment object = Some p ->
     Supabase.select_order_by_razorpay_id (order_fetch_fails f) db (Webhook.order_id p) = None) ->
  Webhook.handlePaymentCaptured f now payload db = Some (db, []).
Proof.
  intros Ho Hnone. unfold Webhook.handlePaymentCaptured. rewrite Ho.
  destruct (Webhook.payment object) as [p|]; [|reflexivity].
  rewrite (Hnone p eq_refl). reflexivity.
Qed.

Lemma failed_without_order f now payload object db :
  Webhook.payload payload = Some object ->
  (forall p, Webhook.payment object = Some p ->
     Supabase.select_order_by_razorpay_id (order_fetch_fails f) db (Webhook.order_id p) = None) ->
  Webhook.handlePaymentFailed f now payload db = Some db.
Proof.
  intros Ho Hnone. unfold Webhook.handlePaymentFailed. rewrite Ho.
  destruct (Webhook.payment object) as [p|]; [|reflexivity].
  rewrite (Hnone p eq_refl). reflexivity.
Qed.

Lemma captured_returns f now payload db :
  is_Some (Webhook.handlePaymentCaptured f now payload db)
  <-> is_Some (Webhook.payload payload).
Proof.
  unfold Webhook.handlePaymentCaptured.
  destruct (Webhook.payload payload) as [object|]; [|split; intros [? [=]]].
  split; [eauto|intros _].
  destruct (Webhook.payment object) as [p|]; [|eauto].
  destruct (Supabase.select_order_by_razorpay_id _ db _) as [[oid order]|]; [|eauto].
  destruct (bool_decide _); [eauto|].
  destruct (Supabase.update_order _ _ _ db); eauto.
Qed.

Lemma failed_returns f now payload db :
  is_Some (Webhook.handlePaymentFailed f now payload db)
  <-> is_Some (Webhook.payload payload).
Proof.
  unfold Webhook.handlePaymentFailed.
  destruct (Webhook.payload payload) as [object|]; [|split; intros [? [=]]].
  split; [eauto|intros _].
  destruct (Webhook.payment object) as [p|]; [|eauto].
  destruct (Supabase.select_order_by_razorpay_id _ db _) as [[oid order]|]; [|eauto].
  destruct (bool_decide _); eauto.
Qed.

(** C7, as amended.  A signature failure is answered before the body is
    parsed, each kind with its own status, and nothing is written: 400
    when the signature header is missing or empty, 500 when the webhook
    secret is not configured, 400 when the signature does not match.  Once
    the signature check lets a delivery through, the answer is 200
    whatever happens next.  A malformed payload, be it a body [JSON.parse]
    throws on or a handled event whose body has no [payload] object, ends
    in the [catch], which acknowledges it with the processing-error note
    and has written nothing; an event the switch does not handle and an
    event whose order is not found are acknowledged with [received] and
    nothing is written; every other delivery is acknowledged with
    [received].  So the answer is other than 200 exactly for the signature
    failures. *)
Theorem webhook_status_policy secret f now req db :
  let out := Webhook.POST secret f now req db in
  (falsy (Webhook.signature req) = true ->
   out = Webhook.answer 400 (ErrorBody "Missing signature") db []) /\
  (falsy (Webhook.signature req) = false -> falsy secret = true ->
   out = Webhook.answer 500 (ErrorBody "Webhook not configured") db []) /\
  (forall sig s,
     Webhook.signature req = Some sig -> sig <> "" -> secret = Some s -> s <> "" ->
     Webhook.verifyWebhookSignature (Webhook.rawBody req) sig s = false ->
     out = Webhook.answer 400 (ErrorBody "Invalid signature") db []) /\
  (webhook_accepted secret req ->
   status_code (response out) = 200%nat /\
   (Webhook.JSON_parse (Webhook.rawBody req) = None ->
    out = Webhook.answer 200 WebhookProcessingError db []) /\
   (forall payload,
      Webhook.JSON_parse (Webhook.rawBody req) = Some payload ->
      (Webhook.event payload <> "payment.captured" ->
       Webhook.event payload <> "order.paid" ->
       Webhook.event payload <> "payment.failed" ->
       out = Webhook.answer 200 WebhookReceived db []) /\
      (Webhook.event payload = "payment.captured" \/
       Webhook.event payload = "order.paid" \/
       Webhook.event payload = "payment.failed" ->
       (Webhook.payload payload = None ->
        out = Webhook.answer 200 WebhookProcessingError db []) /\
       (forall object,
          Webhook.payload payload = Some object ->
          body (response out) = WebhookReceived /\
          ((forall p, Webhook.payment object = Some p ->
              Supabase.select_order_by_razorpay_id (order_fetch_fails f) db
                (Webhook.order_id p) = None) ->
           out = Webhook.answer 200 WebhookReceived db []))))) /\
  (status_code (response out) <> 200%nat <-> ~ webhook_accepted secret req).
Proof.
  cbv zeta.
  assert (Hrej : ~ webhook_accepted secret req ->
    status_code (response (Webhook.POST secret f now req db)) <> 200%nat).
  { intros Hrej. unfold Webhook.POST.
    destruct (Webhook.signature req) as [sig|] eqn:Hsig; [|discriminate].
    case_bool_decide as Hempty; [discriminate|].
    destruct secret as [s|]; [|discriminate]. cbn [falsy from_option Datatypes.id].
    case_bool_decide as Hs; [discriminate|].
    destruct (Webhook.verifyWebhookSignature (Webhook.rawBody req) sig s) eqn:Hv;
      [|discriminate].
    exfalso. apply Hrej. exists sig, s. repeat split; assumption. }
  assert (Hacc : webhook_accepted secret req ->
    status_code (response (Webhook.POST secret f now req db)) = 200%nat).
  { intros Hacc. rewrite (webhook_POST_accepted _ _ _ _ _ Hacc).
    destruct (Webhook.JSON_parse _) as [payload|]; [|reflexivity].
    destruct (_ || _).
    - destruct (Webhook.handlePaymentCaptured _ _ _ _) as [[db' calls]|]; reflexivity.
    - destruct (bool_decide _); [|reflexivity].
      destruct (Webhook.handlePaymentFailed _ _ _ _) as [db'|]; reflexivity. }
  split; [|split; [|split; [|split]]].
  - unfold Webhook.POST, falsy.
    destruct (Webhook.signature req) as [sig|]; [|reflexivity].
    intros ->. reflexivity.
  - unfold Webhook.POST. unfold falsy at 1.
    destruct (Webhook.signature req) as [sig|]; [|discriminate].
    intros -> ->. reflexivity.
  - intros sig s Hsig Hne -> Hs Hv. unfold Webhook.POST. rewrite Hsig.
    rewrite bool_decide_eq_false_2 by exact Hne. cbn [falsy from_option Datatypes.id].
    rewrite bool_decide_eq_false_2 by exact Hs. rewrite Hv. reflexivity.
  - intros Ha. split; [exact (Hacc Ha)|].
    rewrite (webhook_POST_accepted _ _ _ _ _ Ha). split; [intros ->; reflexivity|].
    intros payload ->. split.
    + intros H1 H2 H3. rewrite !bool_decide_eq_false_2 by assumption. reflexivity.
    + intros Hevent. split.
      * intros Hnone. unfold Webhook.handlePaymentCaptured, Webhook.handlePaymentFailed.
        rewrite Hnone. destruct Hevent as [-> | [-> | ->]]; reflexivity.
      * intros object Ho. split.
        -- destruct (proj2 (captured_returns f now payload db)) as [[db1 calls] ->];
             [rewrite Ho; eauto|].
           destruct (proj2 (failed_returns f now payload db)) as [db2 ->];
             [rewrite Ho; eauto|].
           destruct Hevent as [-> | [-> | ->]]; reflexivity.
        -- intros Hnone.
           rewrite (captured_without_order _ _ _ _ _ Ho Hnone),
             (failed_without_order _ _ _ _ _ Ho Hnone).
           destruct (_ || _); [reflexivity|]. destruct (bool_decide _); reflexivity.
  - split; [|exact Hrej].
    intros Hne Ha. apply Hne, Hacc, Ha.
Qed.

End WebhookPolicy.

(** C7 as it was stated fails for unparseable payloads: a correctly signed
    delivery whose body does not parse is answered 200, not 4xx or 5xx. *)
Lemma webhook_acknowledges_unparseable_body :
  @Webhook.JSON_parse Sample.json Sample.broken_body = None /\
  @Webhook.POST Sample.crypto Sample.json (Some Sample.webhook_secret) no_faults
    Sample.now (Sample.delivery Sample.broken_body) Sample.db
  = Webhook.answer 200 WebhookProcessingError Sample.db [].
Proof. split; reflexivity. Qed.

(** A correctly signed captured event whose body has no [payload] object
    is acknowledged in the same way. *)
Example webhook_acknowledges_body_without_payload :
  @Webhook.POST Sample.crypto Sample.json (Some Sample.webhook_secret) no_faults
    Sample.now (Sample.delivery Sample.bare_body) Sample.db
  = Webhook.answer 200 WebhookProcessingError Sample.db [].
Proof. reflexivity. Qed.

(** The other two acknowledged conditions on the sample shop: an event
    the switch does not handle, and a captured event for a gateway order
    id no stored order carries. *)
Example webhook_acknowledges_unhandled_event :
  @Webhook.POST Sample.crypto Sample.json (Some Sample.webhook_secret) no_faults
    Sample.now (Sample.delivery Sample.refund_body) Sample.db
  = Webhook.answer 200 WebhookReceived Sample.db [].
Proof. reflexivity. Qed.

Example webhook_acknowledges_missing_order :
  @Webhook.POST Sample.crypto Sample.json (Some Sample.webhook_secret) no_faults
    Sample.now (Sample.delivery Sample.captured_body)
    (Schema.with_orders ∅ Sample.db)
  = Webhook.answer 200 WebhookReceived (Schema.with_orders ∅ Sample.db) [].
Proof. reflexivity. Qed.

(** The three signature failures on the sample shop. *)
Example webhook_refuses_bad_signature :
  @Webhook.POST Sample.crypto Sample.json (Some Sample.webhook_secret) no_faults
    Sample.now {| Webhook.rawBody := Sample.captured_body;
                  Webhook.signature := Some "forged" |} Sample.db
  = Webhook.answer 400 (ErrorBody "Invalid signature") Sample.db [].
Proof. reflexivity. Qed.

Example webhook_refuses_missing_signature :
  @Webhook.POST Sample.crypto Sample.json (Some Sample.webhook_secret) no_faults
    Sample.now {| Webhook.rawBody := Sample.captured_body;
                  Webhook.signature := None |} Sample.db
  = Webhook.answer 400 (ErrorBody "Missing signature") Sample.db [].
Proof. reflexivity. Qed.

Example webhook_answers_500_without_secret :
  @Webhook.POST Sample.crypto Sample.json None no_faults
    Sample.now (Sample.delivery Sample.captured_body) Sample.db
  = Webhook.answer 500 (ErrorBody "Webhook not configured") Sample.db [].
Proof. reflexivity. Qed.

(** ** Order creation *)

(** C8.  When the gateway fails to create the payment intent, the
    create-order route answers with an error (500 for a request that is
    authenticated and valid) and the database is what it was: no order, no
    order items. *)
Theorem initiator_persists_nothing_on_gateway_failure env auth req db :
  gateway_order env = None ->
  let out := CreateOrder.POST env auth req db in
  db_after out = db /\
  adjuster_calls out = [] /\
  (exists msg, body (response out) = ErrorBody msg) /\
  (400 <= status_code (response out))%nat /\
  (forall user, auth = Some user -> validate req = None ->
     response out = {| status_code := 500; body := ErrorBody "Internal server error" |}).
Proof.
  intros Hg. cbv zeta. unfold CreateOrder.POST.
  destruct auth as [user|]; [destruct (validate req) as [msg|] eqn:Hv; [|rewrite Hg]|];
    simpl; (split; [reflexivity|]); (split; [reflexivity|]); (split; [eauto|]);
    (split; [lia|]); intros user' Hauth Hvalid; congruence.
Qed.

Lemma initiator_persists_nothing_on_gateway_failure_witness :
  let out := CreateOrder.POST Sample.gateway_down (Some Sample.buyer) (Sample.checkout 1500)
               Sample.db in
  validate (Sample.checkout 1500) = None /\
  status_code (response out) = 500%nat /\
  db_after out = Sample.db.
Proof.
  cbv zeta.
  destruct (initiator_persists_nothing_on_gateway_failure Sample.gateway_down
              (Some Sample.buyer) (Sample.checkout 1500) Sample.db eq_refl)
    as (Hdb & _ & _ & _ & Hr).
  split; [reflexivity|]. split; [|exact Hdb].
  rewrite (Hr Sample.buyer eq_refl eq_refl). reflexivity.
Defined.

(** C9.  An authenticated cash-on-delivery request whose total exceeds
    50,000 is answered 400 and leaves the database as it was: no order, no
    order items, no stock change, and [decrementStock] is not called. *)
Theorem cod_ceiling_rejects env now user req db :
  (Cod.COD_LIMIT < total_amount req)%Qc ->
  let out := Cod.POST env now (Some user) req db in
  status_code (response out) = 400%nat /\
  db_after out = db /\
  adjuster_calls out = [].
Proof.
  intros Hlimit. cbv zeta. unfold Cod.POST.
  destruct (validate req) as [msg|]; [repeat split|].
  rewrite bool_decide_eq_true_2 by exact Hlimit. repeat split.
Qed.

Lemma cod_ceiling_rejects_witness :
  let out := Cod.POST Sample.all_well Sample.now (Some Sample.buyer) (Sample.checkout 50001)
               Sample.db in
  validate (Sample.checkout 50001) = None /\
  status_code (response out) = 400%nat /\
  db_after out = Sample.db /\
  adjuster_calls out = [].
Proof.
  split; [reflexivity|].
  apply (cod_ceiling_rejects Sample.all_well Sample.now Sample.buyer (Sample.checkout 50001)
           Sample.db).
  reflexivity.
Defined.

Lemma insert_order_fresh fails new_id row db db1 :
  insert_order fails new_id row db = Some db1 ->
  Schema.orders db !! new_id = None /\
  Schema.orders db1 !! new_id = Some row /\
  Schema.order_items db1 = Schema.order_items db /\
  Schema.products db1 = Schema.products db.
Proof.
  unfold insert_order. destruct fails; [discriminate|].
  destruct (Schema.orders db !! new_id) eqn:Hold; [discriminate|].
  intros [= <-]. simpl. rewrite lookup_insert_eq. repeat split.
Qed.

Lemma no_items_of_fresh_order db new_id :
  order_fkey_ok db ->
  Schema.orders db !! new_id = None ->
  filter (fun row => Schema.order_id row = new_id) (Schema.order_items db) = [].
Proof.
  intros Hfk Hnone. unfold order_fkey_ok in Hfk.
  induction Hfk as [|row rows Hrow _ IH]; [reflexivity|].
  rewrite filter_cons. destruct (decide (Schema.order_id row = new_id)) as [Heq|Hne].
  - rewrite Heq, Hnone in Hrow. destruct Hrow as [? [=]].
  - exact IH.
Qed.

(** C10.  On both creation routes, when the order row is inserted and the
    insert of its items returns an error, the answer is still a success
    carrying the order id: the order is stored, no item row is added (so
    the order has none, in a database whose item rows all belong to stored
    orders), and on the cash-on-delivery route [decrementStock] has run
    over the submitted items all the same. *)
Theorem order_items_failure_is_not_fatal :
  (forall env user req cart db g db1,
     validate req = None ->
     gateway_order env = Some g ->
     insert_order (order_insert_fails env) (new_order_id env)
       (new_order user req "razorpay" (Some g) (inserted_at env)) db = Some db1 ->
     elements (items req) = Some cart ->
     insert_order_items (items_insert_fails env)
       (order_item_rows (new_order_id env) cart) db1 = None ->
     let out := CreateOrder.POST env (Some user) req db in
     response out = {| status_code := 200;
                       body := CreateSuccess (new_order_id env) g |} /\
     Schema.orders (db_after out) !! new_order_id env
       = Some (new_order user req "razorpay" (Some g) (inserted_at env)) /\
     Schema.order_items (db_after out) = Schema.order_items db /\
     (order_fkey_ok db ->
      filter (fun row => Schema.order_id row = new_order_id env)
        (Schema.order_items (db_after out)) = [])) /\
  (forall env now user req cart db db1,
     validate req = None ->
     ~ (Cod.COD_LIMIT < total_amount req)%Qc ->
     insert_order (order_insert_fails env) (new_order_id env)
       (new_order user req "cod" None (inserted_at env)) db = Some db1 ->
     elements (items req) = Some cart ->
     insert_order_items (items_insert_fails env)
       (order_item_rows (new_order_id env) cart) db1 = None ->
     let out := Cod.POST env now (Some user) req db in
     response out = {| status_code := 200;
                       body := CodSuccess (new_order_id env) "cod"
                                 "Order placed successfully! Pay on delivery." |} /\
     Schema.orders (db_after out) !! new_order_id env
       = Some (new_order user req "cod" None (inserted_at env)) /\
     Schema.order_items (db_after out) = Schema.order_items db /\
     (order_fkey_ok db ->
      filter (fun row => Schema.order_id row = new_order_id env)
        (Schema.order_items (db_after out)) = []) /\
     adjuster_calls out = [Cod.stock_items cart] /\
     Schema.products (db_after out) =
       StockManagement.stock_products
         (StockManagement.decrementStock (stock_faults env) now (Schema.products db)
            (Cod.stock_items cart))).
Proof.
  split.
  - intros env user req cart db g db1 Hv Hg Hins Hcart Hitems. cbv zeta.
    unfold CreateOrder.POST. rewrite Hv, Hg, Hins, Hcart, Hitems. simpl.
    apply insert_order_fresh in Hins as (Hnone & Hnew & Hi & _).
    split; [reflexivity|]. split; [exact Hnew|]. split; [exact Hi|].
    intros Hfk. rewrite Hi. apply no_items_of_fresh_order; assumption.
  - intros env now user req cart db db1 Hv Hlimit Hins Hcart Hitems. cbv zeta.
    unfold Cod.POST. rewrite Hv.
    rewrite bool_decide_eq_false_2 by exact Hlimit. rewrite Hins, Hcart, Hitems. simpl.
    apply insert_order_fresh in Hins as (Hnone & Hnew & Hi & Hp).
    split; [reflexivity|]. split; [exact Hnew|]. split; [exact Hi|].
    split; [|split; [reflexivity | rewrite Hp; reflexivity]].
    intros Hfk. rewrite Hi. apply no_items_of_fresh_order; assumption.
Qed.

Lemma order_items_failure_is_not_fatal_witness :
  let paid_online := CreateOrder.POST Sample.items_refused (Some Sample.buyer)
                       (Sample.checkout 1500) Sample.db in
  let on_delivery := Cod.POST Sample.items_refused Sample.now (Some Sample.buyer)
                       (Sample.checkout 1500) Sample.db in
  (status_code (response paid_online) = 200%nat /\
   is_Some (Schema.orders (db_after paid_online) !! new_order_id Sample.items_refused) /\
   filter (fun row => Schema.order_id row = new_order_id Sample.items_refused)
     (Schema.order_items (db_after paid_online)) = []) /\
  (status_code (response on_delivery) = 200%nat /\
   is_Some (Schema.orders (db_after on_delivery) !! new_order_id Sample.items_refused) /\
   filter (fun row => Schema.order_id row = new_order_id Sample.items_refused)
     (Schema.order_items (db_after on_delivery)) = [] /\
   stock_levels (Schema.products (db_after on_delivery)) !! "p1" = Some (Some 3, Some true)).
Proof.
  cbv zeta. destruct order_items_failure_is_not_fatal as [Honline Hcod].
  assert (Hfk : order_fkey_ok Sample.db)
    by (repeat constructor; eexists; reflexivity).
  split.
  - destruct (Honline Sample.items_refused Sample.buyer (Sample.checkout 1500) Sample.cart
                Sample.db "order_2" _ eq_refl eq_refl eq_refl eq_refl eq_refl)
      as (Hr & Ho & _ & Hnone).
    rewrite Hr. split; [reflexivity|]. split; [rewrite Ho; eexists; reflexivity|].
    exact (Hnone Hfk).
  - destruct (Hcod Sample.items_refused Sample.now Sample.buyer (Sample.checkout 1500)
                Sample.cart Sample.db _ eq_refl ltac:(vm_compute; discriminate) eq_refl
                eq_refl eq_refl)
      as (Hr & Ho & _ & Hnone & _ & Hp).
    rewrite Hr. split; [reflexivity|]. split; [rewrite Ho; eexists; reflexivity|].
    split; [exact (Hnone Hfk)|]. rewrite Hp. reflexivity.
Defined.

(** * Further properties *)

(** ** The adjuster: accounting, locality, composition *)

Section AdjusterAccounts.
Import StockManagement.

Lemma decrement_item_one_entry now : one_entry (decrement_item now).
Proof.
  intros ft item r. unfold decrement_item.
  destruct ft; try (right; eexists; repeat split; reflexivity);
    destruct (fetch_product (stock_products r) (product_id item));
    try (right; eexists; repeat split; reflexivity);
    left; split; reflexivity.
Qed.

Lemma restore_item_one_entry now : one_entry (restore_item now).
Proof.
  intros ft item r. unfold restore_item.
  destruct ft; try (right; eexists; repeat split; reflexivity);
    destruct (fetch_product (stock_products r) (product_id item));
    try (right; eexists; repeat split; reflexivity);
    left; split; reflexivity.
Qed.

Lemma stock_loop_accounts step :
  one_entry step ->
  forall items fts r,
    (length (errors (stock_loop step fts items r))
     + length (updatedProducts (stock_loop step fts items r))
     = length (errors r) + length (updatedProducts r) + length items)%nat /\
    (exists done, updatedProducts (stock_loop step fts items r) = (updatedProducts r ++ done)%list /\
                  done `sublist_of` map product_id items) /\
    (exists es, errors (stock_loop step fts items r) = (errors r ++ es)%list).
Proof.
  intros Hstep items. induction items as [|item rest IH]; intros fts r; cbn [stock_loop].
  - split; [simpl; lia|]. split.
    + exists []. rewrite app_nil_r. split; [reflexivity | constructor].
    + exists []. rewrite app_nil_r. reflexivity.
  - destruct (IH (fun n => fts (S n)) (step (fts 0%nat) item r))
      as (Hlen & (done & Hdone & Hsub) & (es & Hes)).
    destruct (Hstep (fts 0%nat) item r) as [[He Hu] | (e & He & Hu & _)].
    + split; [|split].
      * rewrite Hlen, He, Hu, length_app. simpl. lia.
      * exists (product_id item :: done). rewrite Hdone, Hu, <- app_assoc. split; [reflexivity|].
        simpl. constructor. exact Hsub.
      * exists es. rewrite Hes, He. reflexivity.
    + split; [|split].
      * rewrite Hlen, He, Hu, length_app. simpl. lia.
      * exists done. rewrite Hdone, Hu. split; [reflexivity|].
        simpl. apply sublist_cons. exact Hsub.
      * exists (e :: es). rewrite Hes, He, <- app_assoc. reflexivity.
Qed.

Lemma sublist_same_length {A} (l k : list A) :
  l `sublist_of` k -> length l = length k -> l = k.
Proof.
  induction 1 as [|x l k _ IH|x l k Hsub _]; intros Hlen.
  - reflexivity.
  - f_equal. apply IH. simpl in Hlen. lia.
  - apply sublist_length in Hsub. simpl in Hlen. lia.
Qed.

(** X1.  Both loops account for every item exactly once, whatever calls
    fail: the errors and the updated products together number the items,
    the updated products are the product ids of some of the items, in the
    items' order, and [success] holds exactly when every item was updated. *)
Theorem adjuster_accounts_for_every_item fts now products items :
  let d := decrementStock fts now products items in
  let r := restoreStock fts now products items in
  (length (errors d) + length (updatedProducts d) = length items)%nat /\
  updatedProducts d `sublist_of` map product_id items /\
  (success d = true <-> updatedProducts d = map product_id items) /\
  (length (errors r) + length (updatedProducts r) = length items)%nat /\
  updatedProducts r `sublist_of` map product_id items /\
  (success r = true <-> updatedProducts r = map product_id items).
Proof.
  assert (Hgen : forall step, one_entry step ->
    let x := stock_loop step fts items (start products) in
    (length (errors x) + length (updatedProducts x) = length items)%nat /\
    updatedProducts x `sublist_of` map product_id items /\
    (success x = true <-> updatedProducts x = map product_id items)).
  { intros step Hstep x.
    destruct (stock_loop_accounts step Hstep items fts (start products))
      as (Hlen & (done & Hdone & Hsub) & _).
    fold x in Hlen, Hdone. simpl in Hlen, Hdone. subst done.
    split; [exact Hlen|]. split; [exact Hsub|].
    unfold success. rewrite bool_decide_eq_true. split.
    - intros Hnone. apply sublist_same_length; [exact Hsub|].
      rewrite length_map. lia.
    - intros Heq. rewrite Heq, length_map in Hlen. lia. }
  cbv zeta. destruct (Hgen (decrement_item now) (decrement_item_one_entry now)) as (? & ? & ?).
  destruct (Hgen (restore_item now) (restore_item_one_entry now)) as (? & ? & ?).
  repeat split; tauto.
Qed.

End AdjusterAccounts.

Section AdjusterFrame.
Import StockManagement.

Lemma update_product_other pid n flag now ps q :
  pid <> Some q -> update_product pid n flag now ps !! q = ps !! q.
Proof.
  intros Hne. destruct pid as [p|]; [|reflexivity]. simpl.
  apply lookup_alter_ne. congruence.
Qed.

Lemma update_product_is_Some pid n flag now ps q :
  is_Some (update_product pid n flag now ps !! q) <-> is_Some (ps !! q).
Proof.
  destruct pid as [p|]; [|reflexivity]. simpl.
  rewrite lookup_alter. case_decide; [|reflexivity]. subst. apply fmap_is_Some.
Qed.

Lemma decrement_item_local now : local_step (decrement_item now).
Proof.
  intros ft item r q. unfold decrement_item.
  destruct ft; simpl;
    try (split; [reflexivity|reflexivity]);
    destruct (fetch_product (stock_products r) (product_id item));
    simpl; try (split; [reflexivity|reflexivity]);
    (split; [intros Hne; apply update_product_other, Hne | apply update_product_is_Some]).
Qed.

Lemma restore_item_local now : local_step (restore_item now).
Proof.
  intros ft item r q. unfold restore_item.
  destruct ft; simpl;
    try (split; [reflexivity|reflexivity]);
    destruct (fetch_product (stock_products r) (product_id item));
    simpl; try (split; [reflexivity|reflexivity]);
    (split; [intros Hne; apply update_product_other, Hne | apply update_product_is_Some]).
Qed.

Lemma stock_loop_local step :
  local_step step ->
  forall items fts r q,
    (Some q ∉ map product_id items ->
     stock_products (stock_loop step fts items r) !! q = stock_products r !! q) /\
    (is_Some (stock_products (stock_loop step fts items r) !! q)
     <-> is_Some (stock_products r !! q)).
Proof.
  intros Hstep items. induction items as [|item rest IH]; intros fts r q; cbn [stock_loop].
  - split; [reflexivity | reflexivity].
  - destruct (IH (fun n => fts (S n)) (step (fts 0%nat) item r) q) as [Hout Hdom].
    destruct (Hstep (fts 0%nat) item r q) as [Hout1 Hdom1]. split.
    + intros Hnin. simpl in Hnin. apply not_elem_of_cons in Hnin as [Hne Hnin].
      rewrite (Hout Hnin). apply Hout1. congruence.
    + rewrite Hdom. exact Hdom1.
Qed.

(** X2.  Whatever fails, [decrementStock] and [restoreStock] leave the row
    of every product that no item names as it was, and neither adds nor
    removes a product row. *)
Theorem adjuster_touches_only_named_products fts now products items q :
  let d := decrementStock fts now products items in
  let r := restoreStock fts now products items in
  (Some q ∉ map product_id items ->
   stock_products d !! q = products !! q /\ stock_products r !! q = products !! q) /\
  (is_Some (stock_products d !! q) <-> is_Some (products !! q)) /\
  (is_Some (stock_products r !! q) <-> is_Some (products !! q)).
Proof.
  cbv zeta.
  destruct (stock_loop_local _ (decrement_item_local now) items fts (start products) q)
    as [Hd Hdd].
  destruct (stock_loop_local _ (restore_item_local now) items fts (start products) q)
    as [Hr Hrd].
  split; [intros Hnin; split; [apply Hd | apply Hr]; exact Hnin|].
  split; assumption.
Qed.

Lemma decrement_item_not_above now ft item r p row :
  0 <= quantity item ->
  (exists row', stock_products r !! p = Some row' /\ not_above row row') ->
  exists row', stock_products (decrement_item now ft item r) !! p = Some row' /\
               not_above row row'.
Proof.
  intros Hq (row' & Hrow' & Hnot). unfold decrement_item.
  destruct ft; simpl; eauto;
    (destruct (fetch_product (stock_products r) (product_id item)) as [product|] eqn:Hf;
     simpl; eauto).
  all: apply fetch_product_Some in Hf as (p' & Hpid & Hp'); rewrite Hpid; simpl.
  all: destruct (decide (p' = p)) as [->|Hne];
    [|rewrite lookup_alter_ne by exact Hne; eauto].
  all: rewrite lookup_alter_eq, Hrow'; simpl; eexists; split; [reflexivity|].
  all: right; split; [eexists; simpl; split; [reflexivity|]; split; [lia|reflexivity]|].
  all: simpl; rewrite Hrow' in Hp'; injection Hp' as <-.
  all: destruct Hnot as [->| [(n & Hn & Hpos & _) Hle]]; [lia|].
  all: rewrite Hn in *; simpl in *; lia.
Qed.

(** X3.  Stock only shrinks under [decrementStock]: for non-negative
    quantities and whatever calls fail, a product's row is either untouched
    or consistent with a stock that is not above [max(0, stock before)]. *)
Theorem decrement_never_raises_stock fts now products items p row :
  Forall (fun item => 0 <= quantity item) items ->
  products !! p = Some row ->
  exists row',
    stock_products (decrementStock fts now products items) !! p = Some row' /\
    (row' = row \/
     (stock_consistent row' /\
      default 0 (Schema.stock_quantity row') <= Z.max 0 (default 0 (Schema.stock_quantity row)))).
Proof.
  intros Hq Hrow. unfold decrementStock.
  assert (Hgen : forall fts r,
    (exists row', stock_products r !! p = Some row' /\ not_above row row') ->
    exists row', stock_products (stock_loop (decrement_item now) fts items r) !! p = Some row' /\
                 not_above row row').
  { induction Hq as [|item rest Hitem _ IH]; intros fts' r Hr; cbn [stock_loop]; [exact Hr|].
    apply IH, decrement_item_not_above; assumption. }
  apply Hgen. exists row. split; [exact Hrow | left; reflexivity].
Qed.

End AdjusterFrame.

Lemma decrement_never_raises_stock_witness :
  exists row',
    StockManagement.stock_products
      (StockManagement.decrementStock StockManagement.no_item_faults Sample.now
         Shop.no_rings [Shop.three_rings]) !! "p1" = Some row' /\
    (row' = Sample.ring 1 true \/
     (StockManagement.stock_consistent row' /\
      default 0 (Schema.stock_quantity row')
      <= Z.max 0 (default 0 (Schema.stock_quantity (Sample.ring 1 true))))).
Proof.
  apply (decrement_never_raises_stock StockManagement.no_item_faults Sample.now
           Shop.no_rings [Shop.three_rings] "p1" (Sample.ring 1 true)).
  - constructor; [vm_compute; discriminate | constructor].
  - reflexivity.
Defined.

Section RestoreLevels.
Import StockManagement.

Lemma restore_loop_level now p items :
  forall r row,
  stock_products r !! p = Some row ->
  stock_level <$> stock_products (stock_loop (restore_item now) no_item_faults items r) !! p
  = Some (level_restored p items row).
Proof.
  induction items as [|item rest IH]; intros r row Hrow.
  - simpl. rewrite Hrow. reflexivity.
  - cbn [stock_loop]. change (fun n => no_item_faults (S n)) with no_item_faults.
    change (no_item_faults 0%nat) with NoFault.
    destruct (decide (product_id item = Some p)) as [Hp|Hp].
    + pose proof (restore_item_writes now item r p row Hp Hrow) as Hw.
      rewrite (IH _ _ Hw). f_equal. unfold level_restored. simpl.
      rewrite (bool_decide_eq_true_2 (Some p ∈ product_id item :: map product_id rest))
        by (rewrite Hp; apply list_elem_of_here).
      rewrite (bool_decide_eq_true_2 (product_id item = Some p)) by exact Hp.
      case_bool_decide as Hin.
      * f_equal. f_equal. lia.
      * rewrite (ordered_quantity_absent p rest Hin). unfold stock_level. simpl.
        rewrite Z.add_0_r. reflexivity.
    + assert (Hkeep : stock_products (restore_item now NoFault item r) !! p = Some row).
      { destruct (restore_item_local now NoFault item r p) as [Hout _].
        rewrite Hout by exact Hp. exact Hrow. }
      rewrite (IH _ _ Hkeep). f_equal. unfold level_restored. simpl.
      rewrite (bool_decide_eq_false_2 (product_id item = Some p)) by exact Hp.
      rewrite Z.add_0_l.
      assert (Hiff : Some p ∈ product_id item :: map product_id rest
                     <-> Some p ∈ map product_id rest).
      { rewrite elem_of_cons. split; [intros [?|?]; congruence | auto]. }
      rewrite (bool_decide_ext _ _ Hiff). reflexivity.
Qed.

Lemma restoreStock_level now p items ps row :
  ps !! p = Some row ->
  stock_levels (stock_products (restoreStock no_item_faults now ps items)) !! p
  = Some (level_restored p items row).
Proof.
  intros Hrow. unfold stock_levels. rewrite lookup_fmap.
  apply (restore_loop_level now p items (start ps) row Hrow).
Qed.

(** X4.  When no call fails, [restoreStock] leaves every product that an
    item names with its stock plus the quantities all items order of it
    (a [null] stock counts as zero) and [in_stock] true; a product no item
    names keeps its row, timestamp included. *)
Theorem restore_adds_ordered_quantity now products items p row :
  products !! p = Some row ->
  exists row',
    stock_products (restoreStock no_item_faults now products items) !! p = Some row' /\
    (Some p ∈ map product_id items ->
     Schema.stock_quantity row'
       = Some (default 0 (Schema.stock_quantity row) + ordered_quantity p items) /\
     Schema.in_stock row' = Some true) /\
    (Some p ∉ map product_id items -> row' = row).
Proof.
  intros Hrow. pose proof (restoreStock_level now p items products row Hrow) as Hl.
  unfold stock_levels in Hl. rewrite lookup_fmap in Hl.
  destruct (stock_products (restoreStock no_item_faults now products items) !! p)
    as [row'|] eqn:Hrow'; [|discriminate].
  exists row'. split; [reflexivity|]. split.
  - intros Hin. simpl in Hl. injection Hl as Hl. unfold level_restored in Hl.
    rewrite bool_decide_eq_true_2 in Hl by exact Hin.
    unfold stock_level in Hl. injection Hl as Hs Hf. split; assumption.
  - intros Hnin.
    destruct (stock_loop_local _ (restore_item_local now) items no_item_faults
                (start products) p) as [Hout _].
    unfold restoreStock in Hrow'. rewrite (Hout Hnin) in Hrow'. simpl in Hrow'.
    congruence.
Qed.

(** X5.  Decrementing and then restoring the same items is not always the
    identity: the stock ends at [max(stock, ordered quantity)], because the
    decrement is floored at zero.  It is the stock before when that covered
    the order.  No call fails, quantities are non-negative. *)
Theorem restore_after_decrement now1 now2 products items p row :
  Forall (fun item => 0 <= quantity item) items ->
  products !! p = Some row ->
  Some p ∈ map product_id items ->
  let decremented := stock_products (decrementStock no_item_faults now1 products items) in
  let restored := stock_products (restoreStock no_item_faults now2 decremented items) in
  stock_levels restored !! p
  = Some (Some (Z.max (default 0 (Schema.stock_quantity row)) (ordered_quantity p items)),
          Some true) /\
  (ordered_quantity p items <= default 0 (Schema.stock_quantity row) ->
   stock_levels restored !! p = Some (Some (default 0 (Schema.stock_quantity row)), Some true)).
Proof.
  intros Hq Hrow Hin. cbv zeta.
  pose proof (decrementStock_level now1 p items products row Hq Hrow) as Hd.
  unfold stock_levels in Hd. rewrite lookup_fmap in Hd.
  destruct (stock_products (decrementStock no_item_faults now1 products items) !! p)
    as [row_d|] eqn:Hrow_d; [|discriminate].
  simpl in Hd. injection Hd as Hd.
  rewrite (restoreStock_level now2 p items _ row_d Hrow_d).
  unfold level_restored, level_after in *.
  rewrite bool_decide_eq_true_2 in * by exact Hin.
  unfold stock_level in Hd. injection Hd as Hs _. rewrite Hs. simpl.
  split; [|intros Hle]; do 3 f_equal; lia.
Qed.

End RestoreLevels.

Lemma restore_adds_ordered_quantity_witness :
  exists row',
    StockManagement.stock_products
      (StockManagement.restoreStock StockManagement.no_item_faults Sample.now
         Shop.no_rings [Shop.three_rings]) !! "p1" = Some row' /\
    Schema.stock_quantity row' = Some 4 /\
    Schema.in_stock row' = Some true.
Proof.
  destruct (restore_adds_ordered_quantity Sample.now Shop.no_rings [Shop.three_rings] "p1"
              (Sample.ring 1 true) eq_refl) as (row' & Hrow' & Hin & _).
  exists row'. split; [exact Hrow'|]. apply Hin. apply list_elem_of_here.
Defined.

Lemma restore_after_decrement_witness :
  let decremented :=
    StockManagement.stock_products
      (StockManagement.decrementStock StockManagement.no_item_faults Sample.now
         Shop.no_rings [Shop.three_rings]) in
  let restored :=
    StockManagement.stock_products
      (StockManagement.restoreStock StockManagement.no_item_faults Sample.later
         decremented [Shop.three_rings]) in
  stock_levels decremented !! "p1" = Some (Some 0, Some false) /\
  stock_levels restored !! "p1" = Some (Some 3, Some true).
Proof.
  cbv zeta. split; [reflexivity|].
  refine (proj1 (restore_after_decrement Sample.now Sample.later Shop.no_rings
                   [Shop.three_rings] "p1" (Sample.ring 1 true) _ eq_refl _)).
  - constructor; [vm_compute; discriminate | constructor].
  - apply list_elem_of_here.
Defined.

Section AdjusterComposition.
Import StockManagement.

Lemma rebase_push_error r x e : push_error e (rebase r x) = rebase r (push_error e x).
Proof. unfold push_error, rebase. simpl. rewrite <- app_assoc. reflexivity. Qed.

Lemma rebase_push_updated r x pid ps :
  push_updated pid ps (rebase r x) = rebase r (push_updated pid ps x).
Proof. unfold push_updated, rebase. simpl. rewrite <- app_assoc. reflexivity. Qed.

Lemma decrement_item_rebases now : rebases (decrement_item now).
Proof.
  intros ft item r x. unfold decrement_item.
  change (stock_products (rebase r x)) with (stock_products x).
  destruct ft; try apply rebase_push_error;
    destruct (fetch_product (stock_products x) (product_id item));
    try apply rebase_push_error; apply rebase_push_updated.
Qed.

Lemma restore_item_rebases now : rebases (restore_item now).
Proof.
  intros ft item r x. unfold restore_item.
  change (stock_products (rebase r x)) with (stock_products x).
  destruct ft; try apply rebase_push_error;
    destruct (fetch_product (stock_products x) (product_id item));
    try apply rebase_push_error; apply rebase_push_updated.
Qed.

Lemma stock_loop_rebase step :
  rebases step ->
  forall items fts r x,
    stock_loop step fts items (rebase r x) = rebase r (stock_loop step fts items x).
Proof.
  intros Hstep items. induction items as [|item rest IH]; intros fts r x; cbn [stock_loop].
  - reflexivity.
  - rewrite Hstep. apply IH.
Qed.

Lemma stock_loop_app step l1 l2 :
  forall fts r,
    stock_loop step fts (l1 ++ l2) r
    = stock_loop step (fun n => fts (length l1 + n)%nat) l2 (stock_loop step fts l1 r).
Proof.
  induction l1 as [|item rest IH]; intros fts r; cbn [stock_loop app length].
  - reflexivity.
  - rewrite IH. reflexivity.
Qed.

Lemma rebase_start r : rebase r (start (stock_products r)) = r.
Proof. destruct r. unfold rebase, start. simpl. rewrite !app_nil_r. reflexivity. Qed.

(** X6.  A run over [l1 ++ l2] is the run over [l1] followed by the run
    over [l2] on the products the first one left, the reports appended;
    whatever calls fail (the second run meets the failures that come after
    the first [length l1] items). *)
Theorem adjuster_runs_compose fts now products l1 l2 :
  let later := fun n => fts (length l1 + n)%nat in
  let d1 := decrementStock fts now products l1 in
  let r1 := restoreStock fts now products l1 in
  decrementStock fts now products (l1 ++ l2)
    = rebase d1 (decrementStock later now (stock_products d1) l2) /\
  restoreStock fts now products (l1 ++ l2)
    = rebase r1 (restoreStock later now (stock_products r1) l2).
Proof.
  cbv zeta. unfold decrementStock, restoreStock. split.
  - rewrite stock_loop_app.
    rewrite <- (stock_loop_rebase _ (decrement_item_rebases now)), rebase_start. reflexivity.
  - rewrite stock_loop_app.
    rewrite <- (stock_loop_rebase _ (restore_item_rebases now)), rebase_start. reflexivity.
Qed.

End AdjusterComposition.

(** ** What the payment routes can write *)

Lemma adjust_inventory_order_items f now oid db :
  Schema.order_items (adjust_inventory f now oid db).1 = Schema.order_items db.
Proof.
  unfold adjust_inventory.
  destruct (Supabase.select_order_items _ db oid) as [[|item rest]|]; reflexivity.
Qed.

Lemma adjust_inventory_quiet f now oid db :
  (adjust_inventory f now oid db).2 = [] -> (adjust_inventory f now oid db).1 = db.
Proof.
  unfold adjust_inventory.
  destruct (Supabase.select_order_items _ db oid) as [[|item rest]|]; simpl;
    [reflexivity | discriminate | reflexivity].
Qed.

Lemma update_order_frame fails patch oid db db' :
  Supabase.update_order fails patch oid db = Some db' ->
  Schema.products db' = Schema.products db /\
  Schema.order_items db' = Schema.order_items db /\
  Schema.orders db' !! oid = patch <$> Schema.orders db !! oid /\
  (forall other, other <> oid -> Schema.orders db' !! other = Schema.orders db !! other).
Proof.
  unfold Supabase.update_order. destruct fails; [discriminate|]. intros [= <-]. simpl.
  split; [reflexivity|]. split; [reflexivity|]. split; [apply lookup_alter_eq|].
  intros other Hne. apply lookup_alter_ne. congruence.
Qed.

Section VerifierBounds.
Context `{Crypto}.
Import VerifyPayment.

(** X7.  The verify route marks an unpaid order paid only for a request
    that names it, comes from its owner, carries its gateway order id, and
    whose signature is the HMAC, under the configured key secret, of
    [razorpay_order_id|razorpay_payment_id]; the row it stores is then
    [mark_paid] of the row it found. *)
Theorem verifier_marks_paid_only_on_valid_signature key f now auth req db oid o o' :
  Schema.orders db !! oid = Some o ->
  Schema.payment_status o <> Some "paid" ->
  Schema.orders (db_after (POST key f now auth req db)) !! oid = Some o' ->
  Schema.payment_status o' = Some "paid" ->
  oid = order_id req /\
  exists user secret,
    auth = Some user /\ key = Some secret /\
    Schema.user_id o = Some (id user) /\
    Schema.razorpay_order_id o = Some (razorpay_order_id req) /\
    razorpay_signature req =
      hmac_sha256_hex secret (razorpay_order_id req ++ "|" ++ razorpay_payment_id req) /\
    o' = mark_paid (razorpay_payment_id req) (razorpay_signature req) now o.
Proof.
  intros Hrow Hnp. unfold POST.
  assert (Hsame : Schema.orders db !! oid = Some o' ->
                  Schema.payment_status o' = Some "paid" -> False)
    by (intros Ho Hp; congruence).
  destruct auth as [user|]; [|intros ? ?; exfalso; eauto].
  destruct (_ || _); [intros ? ?; exfalso; eauto|].
  unfold Supabase.select_order.
  destruct (order_fetch_fails f); [intros ? ?; exfalso; eauto|].
  destruct (Schema.orders db !! order_id req) as [order|] eqn:Horder;
    [|intros ? ?; exfalso; eauto].
  case_bool_decide as Hu; [|intros ? ?; exfalso; eauto]. cbn [negb].
  case_bool_decide as Hr; [|intros ? ?; exfalso; eauto]. cbn [negb].
  case_bool_decide as Hpaid; [intros ? ?; exfalso; eauto|].
  destruct key as [secret|]; [|intros ? ?; exfalso; eauto].
  case_bool_decide as Hsig; cbn [negb].
  - destruct (Supabase.update_order _ _ _ db) as [db'|] eqn:Hupd;
      [|intros ? ?; exfalso; eauto].
    apply update_order_frame in Hupd as (_ & _ & Hat & Hother).
    destruct (adjust_inventory f now (order_id req) db') as [db'' calls] eqn:Ha.
    cbn beta iota zeta delta [db_after].
    replace db'' with (adjust_inventory f now (order_id req) db').1 by (rewrite Ha; reflexivity).
    rewrite adjust_inventory_orders.
    destruct (decide (oid = order_id req)) as [->|Hne].
    + intros Ho' _. pose proof (eq_trans (eq_sym Hat) Ho') as Hx.
      rewrite Horder in Hx. simpl in Hx. injection Hx as <-.
      rewrite Horder in Hrow. injection Hrow as ->.
      split; [reflexivity|]. exists user, secret. repeat split; auto.
    + intros Ho' Hp'. pose proof (eq_trans (eq_sym (Hother _ Hne)) Ho'). exfalso; eauto.
  - destruct (Supabase.update_order _ _ _ db) as [db'|] eqn:Hupd; cbn [default reject db_after];
      [|intros ? ?; exfalso; eauto].
    apply update_order_frame in Hupd as (_ & _ & Hat & Hother).
    destruct (decide (oid = order_id req)) as [->|Hne].
    + intros Ho' Hp'. pose proof (eq_trans (eq_sym Hat) Ho') as Hx.
      rewrite Horder in Hx. simpl in Hx. injection Hx as <-. discriminate.
    + intros Ho' Hp'. pose proof (eq_trans (eq_sym (Hother _ Hne)) Ho'). exfalso; eauto.
Qed.

(** X8.  What one verify request can touch: no item row, no order but the
    one it names, no order is added or removed, the products only through
    [decrementStock]; and unless it answers "Payment verification failed"
    or "Payment verified successfully" it writes nothing at all. *)
Theorem verifier_writes_one_order key f now auth req db :
  let out := POST key f now auth req db in
  Schema.order_items (db_after out) = Schema.order_items db /\
  (forall other, other <> order_id req ->
     Schema.orders (db_after out) !! other = Schema.orders db !! other) /\
  (forall oid, is_Some (Schema.orders (db_after out) !! oid)
               <-> is_Some (Schema.orders db !! oid)) /\
  (adjuster_calls out = [] -> Schema.products (db_after out) = Schema.products db) /\
  (body (response out) <> ErrorBody "Payment verification failed" ->
   body (response out) <> VerifySuccess "Payment verified successfully" (order_id req) ->
   db_after out = db /\ adjuster_calls out = []).
Proof.
  cbv zeta. unfold POST.
  assert (Hid : Schema.order_items db = Schema.order_items db /\
    (forall other, other <> order_id req ->
       Schema.orders db !! other = Schema.orders db !! other) /\
    (forall oid, is_Some (Schema.orders db !! oid) <-> is_Some (Schema.orders db !! oid)) /\
    (@nil (list StockManagement.OrderItem) = [] -> Schema.products db = Schema.products db))
    by (repeat split; auto).
  destruct Hid as (I1 & I2 & I3 & I4).
  destruct auth as [user|]; [|simpl; repeat split; auto].
  destruct (_ || _); [simpl; repeat split; auto|].
  destruct (Supabase.select_order _ db _) as [order|]; [|simpl; repeat split; auto].
  destruct (negb _); [simpl; repeat split; auto|].
  destruct (negb _); [simpl; repeat split; auto|].
  destruct (bool_decide _); [simpl; repeat split; auto|].
  destruct key as [secret|]; [|simpl; repeat split; auto].
  destruct (negb _).
  - destruct (Supabase.update_order _ _ _ db) as [db'|] eqn:Hupd; simpl.
    + apply update_order_frame in Hupd as (Hp & Hi & Hat & Hother).
      split; [exact Hi|]. split; [exact Hother|]. split.
      * intros oid. destruct (decide (oid = order_id req)) as [->|Hne].
        -- rewrite Hat. apply fmap_is_Some.
        -- rewrite (Hother _ Hne). reflexivity.
      * split; [intros _; exact Hp|]. intros Hb. contradiction.
    + repeat split; auto. all: intros Hb; contradiction.
  - destruct (Supabase.update_order _ _ _ db) as [db'|] eqn:Hupd; [|simpl; repeat split; auto].
    apply update_order_frame in Hupd as (Hp & Hi & Hat & Hother).
    pose proof (adjust_inventory_orders f now (order_id req) db') as Ho.
    pose proof (adjust_inventory_order_items f now (order_id req) db') as Hit.
    pose proof (adjust_inventory_quiet f now (order_id req) db') as Hq.
    destruct (adjust_inventory f now (order_id req) db') as [db'' calls]. simpl in *.
    split; [congruence|]. split; [intros other Hne; rewrite Ho; auto|]. split.
    + intros oid. rewrite Ho. destruct (decide (oid = order_id req)) as [->|Hne].
      * rewrite Hat. apply fmap_is_Some.
      * rewrite (Hother _ Hne). reflexivity.
    + split; [intros Hc; rewrite (Hq Hc); exact Hp|]. intros _ Hb. contradiction.
Qed.

End VerifierBounds.

Lemma verifier_marks_paid_only_on_valid_signature_witness :
  VerifyPayment.razorpay_signature (Sample.verify_request Sample.good_signature)
  = @hmac_sha256_hex Sample.crypto Sample.key_secret "order_1|pay_1".
Proof.
  destruct (@verifier_marks_paid_only_on_valid_signature Sample.crypto
              (Some Sample.key_secret) no_faults Sample.now (Some Sample.buyer)
              (Sample.verify_request Sample.good_signature) Sample.db "o1"
              Sample.pending_order
              (VerifyPayment.mark_paid "pay_1" Sample.good_signature Sample.now
                 Sample.pending_order)
              eq_refl ltac:(discriminate) eq_refl eq_refl)
    as (_ & user & secret & _ & Hkey & _ & _ & Hsig & _).
  injection Hkey as <-. exact Hsig.
Defined.

Lemma select_order_by_razorpay_id_twins fails db roid i j oi oj :
  i <> j ->
  Schema.orders db !! i = Some oi -> Schema.razorpay_order_id oi = Some roid ->
  Schema.orders db !! j = Some oj -> Schema.razorpay_order_id oj = Some roid ->
  Supabase.select_order_by_razorpay_id fails db roid = None.
Proof.
  intros Hne Hi Hri Hj Hrj. unfold Supabase.select_order_by_razorpay_id.
  destruct fails; [reflexivity|].
  destruct (map_to_list _) as [|row [|row' rest]] eqn:Hl; try reflexivity.
  assert (Hin : forall k o, Schema.orders db !! k = Some o ->
                  Schema.razorpay_order_id o = Some roid -> (k, o) = row).
  { intros k o Hk Hr.
    assert (Hm : (k, o) ∈ map_to_list
              (filter (fun kv : string * Schema.Order => Schema.razorpay_order_id kv.2 = Some roid)
                 (Schema.orders db))).
    { apply elem_of_map_to_list, map_lookup_filter_Some. split; assumption. }
    rewrite Hl in Hm. apply list_elem_of_singleton in Hm. exact Hm. }
  pose proof (Hin i oi Hi Hri) as H1. pose proof (Hin j oj Hj Hrj) as H2.
  exfalso. apply Hne. congruence.
Qed.

Section WebhookBounds.
Context `{Crypto} `{Webhook.Json}.

Lemma verifyWebhookSignature_eq payload signature secret :
  Webhook.verifyWebhookSignature payload signature secret = true ->
  signature = hmac_sha256_hex secret payload.
Proof.
  unfold Webhook.verifyWebhookSignature.
  case_bool_decide as Hlen; [|discriminate].
  intros Heq. apply bool_decide_eq_true in Heq. congruence.
Qed.

(** X9.  The webhook route writes to the database or adjusts stock only
    when the webhook secret is configured and the signature header equals
    the HMAC of the raw body under it: the length check and the
    timing-safe comparison together amount to equality. *)
Theorem webhook_writes_only_when_signed secret f now req db :
  let out := Webhook.POST secret f now req db in
  db_after out <> db \/ adjuster_calls out <> [] ->
  exists s, secret = Some s /\ s <> "" /\
            Webhook.signature req = Some (hmac_sha256_hex s (Webhook.rawBody req)).
Proof.
  cbv zeta. unfold Webhook.POST.
  destruct (Webhook.signature req) as [sig|] eqn:Hsig; [|intros [Hx|Hx]; exfalso; apply Hx; reflexivity].
  case_bool_decide as Hempty; [intros [Hx|Hx]; exfalso; apply Hx; reflexivity|].
  destruct secret as [s|]; [|intros [Hx|Hx]; exfalso; apply Hx; reflexivity]. cbn [falsy from_option Datatypes.id].
  case_bool_decide as Hs; [intros [Hx|Hx]; exfalso; apply Hx; reflexivity|].
  destruct (Webhook.verifyWebhookSignature (Webhook.rawBody req) sig s) eqn:Hv; cbn [negb];
    [|intros [Hx|Hx]; exfalso; apply Hx; reflexivity].
  intros _. exists s. split; [reflexivity|]. split; [exact Hs|].
  f_equal. apply verifyWebhookSignature_eq. exact Hv.
Qed.

(** X10.  When two stored orders carry the gateway order id of an event,
    the [.single()] lookup returns an error and both handlers leave the
    database as it is. *)
Theorem webhook_ignores_ambiguous_gateway_id f now payload object p db i j oi oj :
  Webhook.payload payload = Some object ->
  Webhook.payment object = Some p ->
  i <> j ->
  Schema.orders db !! i = Some oi ->
  Schema.razorpay_order_id oi = Some (Webhook.order_id p) ->
  Schema.orders db !! j = Some oj ->
  Schema.razorpay_order_id oj = Some (Webhook.order_id p) ->
  Webhook.handlePaymentCaptured f now payload db = Some (db, []) /\
  Webhook.handlePaymentFailed f now payload db = Some db.
Proof.
  intros Ho Hp Hne Hi Hri Hj Hrj.
  pose proof (select_order_by_razorpay_id_twins (order_fetch_fails f) db _ i j oi oj
                Hne Hi Hri Hj Hrj) as Hnone.
  unfold Webhook.handlePaymentCaptured, Webhook.handlePaymentFailed.
  rewrite Ho, Hp, Hnone. split; reflexivity.
Qed.

(** What a captured event comes to: the handler throws, returns without
    writing, or gets as far as the update. *)
Lemma captured_cases f now payload db :
  (Webhook.payload payload = None /\
   Webhook.handlePaymentCaptured f now payload db = None) \/
  Webhook.handlePaymentCaptured f now payload db = Some (db, []) \/
  exists object p oid order db',
    Webhook.payload payload = Some object /\
    Webhook.payment object = Some p /\
    Supabase.select_order_by_razorpay_id (order_fetch_fails f) db (Webhook.order_id p)
      = Some (oid, order) /\
    Schema.payment_status order <> Some "paid" /\
    Supabase.update_order (order_update_fails f) (Webhook.mark_paid p now) oid db = Some db' /\
    Webhook.handlePaymentCaptured f now payload db = Some (adjust_inventory f now oid db').
Proof.
  unfold Webhook.handlePaymentCaptured.
  destruct (Webhook.payload payload) as [object|]; [|left; split; reflexivity].
  right.
  destruct (Webhook.payment object) as [p|] eqn:Hp; [|left; reflexivity].
  destruct (Supabase.select_order_by_razorpay_id _ db _) as [[oid order]|] eqn:Hsel;
    [|left; reflexivity].
  case_bool_decide as Hpaid; [left; reflexivity|].
  destruct (Supabase.update_order _ _ _ db) as [db'|] eqn:Hupd; [|left; reflexivity].
  right. exists object, p, oid, order, db'. repeat split; assumption.
Qed.

Lemma failed_cases f now payload db :
  (Webhook.payload payload = None /\
   Webhook.handlePaymentFailed f now payload db = None) \/
  Webhook.handlePaymentFailed f now payload db = Some db \/
  exists object p oid order db',
    Webhook.payload payload = Some object /\
    Webhook.payment object = Some p /\
    Supabase.select_order_by_razorpay_id (order_fetch_fails f) db (Webhook.order_id p)
      = Some (oid, order) /\
    Schema.payment_status order <> Some "paid" /\
    Supabase.update_order (order_update_fails f) (Webhook.mark_failed p now) oid db
      = Some db' /\
    Webhook.handlePaymentFailed f now payload db = Some db'.
Proof.
  unfold Webhook.handlePaymentFailed.
  destruct (Webhook.payload payload) as [object|]; [|left; split; reflexivity].
  right.
  destruct (Webhook.payment object) as [p|] eqn:Hp; [|left; reflexivity].
  destruct (Supabase.select_order_by_razorpay_id _ db _) as [[oid order]|] eqn:Hsel;
    [|left; reflexivity].
  case_bool_decide as Hpaid; [left; reflexivity|].
  destruct (Supabase.update_order _ _ _ db) as [db'|] eqn:Hupd; [|left; reflexivity].
  right. exists object, p, oid, order, db'. repeat split; assumption.
Qed.

(** X11.  [handlePaymentFailed] throws exactly on a body without [payload],
    before it writes.  When it returns it has left products and item rows
    alone, has added no order and removed none, and in an order it changed
    (one that was not paid) it has set the payment status to failed and
    written the failure metadata only: every other column is as it was. *)
Theorem failed_event_touches_payment_columns_only f now payload db :
  (Webhook.handlePaymentFailed f now payload db = None <-> Webhook.payload payload = None) /\
  (forall db', Webhook.handlePaymentFailed f now payload db = Some db' ->
     Schema.products db' = Schema.products db /\
     Schema.order_items db' = Schema.order_items db /\
     (forall oid, is_Some (Schema.orders db' !! oid) <-> is_Some (Schema.orders db !! oid)) /\
     (forall oid o', Schema.orders db' !! oid = Some o' ->
        exists o, Schema.orders db !! oid = Some o /\
          Schema.user_id o' = Schema.user_id o /\
          Schema.total_amount o' = Schema.total_amount o /\
          Schema.shipping_address o' = Schema.shipping_address o /\
          Schema.notes o' = Schema.notes o /\
          Schema.status o' = Schema.status o /\
          Schema.payment_method o' = Schema.payment_method o /\
          Schema.razorpay_order_id o' = Schema.razorpay_order_id o /\
          Schema.razorpay_payment_id o' = Schema.razorpay_payment_id o /\
          Schema.razorpay_signature o' = Schema.razorpay_signature o /\
          Schema.order_updated_at o' = Schema.order_updated_at o /\
          (o' = o \/
           (Schema.payment_status o <> Some "paid" /\
            Schema.payment_status o' = Some "failed" /\
            exists p, Webhook.payment <$> Webhook.payload payload = Some (Some p) /\
                      o' = Webhook.mark_failed p now o)))).
Proof.
  split.
  - destruct (failed_cases f now payload db)
      as [[Hnone Hthrow] | [Hret | (object & ? & ? & ? & db' & Ho & _ & _ & _ & _ & Hret)]].
    + split; auto.
    + rewrite Hret. split; [discriminate|].
      intros Hnone. pose proof (proj1 (failed_returns f now payload db)) as Hsome.
      rewrite Hret, Hnone in Hsome. destruct Hsome as [? [=]]. eauto.
    + rewrite Hret, Ho. split; discriminate.
  - intros db' Hdb'.
    assert (Hid : forall oid o', Schema.orders db !! oid = Some o' ->
      exists o, Schema.orders db !! oid = Some o /\
        Schema.user_id o' = Schema.user_id o /\
        Schema.total_amount o' = Schema.total_amount o /\
        Schema.shipping_address o' = Schema.shipping_address o /\
        Schema.notes o' = Schema.notes o /\
        Schema.status o' = Schema.status o /\
        Schema.payment_method o' = Schema.payment_method o /\
        Schema.razorpay_order_id o' = Schema.razorpay_order_id o /\
        Schema.razorpay_payment_id o' = Schema.razorpay_payment_id o /\
        Schema.razorpay_signature o' = Schema.razorpay_signature o /\
        Schema.order_updated_at o' = Schema.order_updated_at o /\
        (o' = o \/
         (Schema.payment_status o <> Some "paid" /\
          Schema.payment_status o' = Some "failed" /\
          exists p, Webhook.payment <$> Webhook.payload payload = Some (Some p) /\
                    o' = Webhook.mark_failed p now o))).
    { intros oid o' Ho. exists o'. split; [exact Ho|]. repeat split. left. reflexivity. }
    destruct (failed_cases f now payload db)
      as [[_ Hthrow] | [Hret | (object & p & k & order & db1 & Ho & Hp & Hsel & Hnp & Hupd & Hret)]].
    + congruence.
    + rewrite Hret in Hdb'. injection Hdb' as <-.
      split; [reflexivity|]. split; [reflexivity|]. split; [reflexivity | exact Hid].
    + rewrite Hret in Hdb'. injection Hdb' as <-.
      apply update_order_frame in Hupd as (Hprod & Hi & Hat & Hother).
      apply select_order_by_razorpay_id_Some in Hsel as [Hk _].
      split; [exact Hprod|]. split; [exact Hi|]. split.
      * intros oid. destruct (decide (oid = k)) as [->|Hne].
        -- rewrite Hat. apply fmap_is_Some.
        -- rewrite (Hother _ Hne). reflexivity.
      * intros oid o' Ho'. destruct (decide (oid = k)) as [->|Hne].
        -- pose proof (eq_trans (eq_sym Hat) Ho') as Hx. rewrite Hk in Hx. simpl in Hx.
           injection Hx as <-. exists order. split; [exact Hk|]. repeat split.
           right. split; [exact Hnp|]. split; [reflexivity|].
           exists p. split; [rewrite Ho; simpl; rewrite Hp; reflexivity | reflexivity].
        -- pose proof (eq_trans (eq_sym (Hother _ Hne)) Ho') as Hx. apply Hid. exact Hx.
Qed.

(** X12.  The webhook route marks an unpaid order paid only for an
    accepted delivery that parses to a [payment.captured] or [order.paid]
    event whose payment carries the order's gateway order id; the row it
    stores is then [mark_paid] of the row it found. *)
Theorem webhook_marks_paid_only_on_captured_event secret f now req db oid o o' :
  Schema.orders db !! oid = Some o ->
  Schema.payment_status o <> Some "paid" ->
  Schema.orders (db_after (Webhook.POST secret f now req db)) !! oid = Some o' ->
  Schema.payment_status o' = Some "paid" ->
  webhook_accepted secret req /\
  exists payload object p,
    Webhook.JSON_parse (Webhook.rawBody req) = Some payload /\
    (Webhook.event payload = "payment.captured" \/ Webhook.event payload = "order.paid") /\
    Webhook.payload payload = Some object /\
    Webhook.payment object = Some p /\
    Schema.razorpay_order_id o = Some (Webhook.order_id p) /\
    o' = Webhook.mark_paid p now o.
Proof.
  intros Hrow Hnp.
  assert (Hsame : Schema.orders db !! oid = Some o' ->
                  Schema.payment_status o' = Some "paid" -> False)
    by (intros Ho Hp; congruence).
  unfold Webhook.POST.
  destruct (Webhook.signature req) as [sig|] eqn:Hsig; [|intros ? ?; exfalso; eauto].
  case_bool_decide as Hempty; [intros ? ?; exfalso; eauto|].
  destruct secret as [s|]; [|intros ? ?; exfalso; eauto]. cbn [falsy default].
  case_bool_decide as Hs; [intros ? ?; exfalso; eauto|].
  destruct (Webhook.verifyWebhookSignature _ _ _) eqn:Hv; cbn [negb];
    [|intros ? ?; exfalso; eauto].
  change (default "" (Some s)) with s in Hv.
  assert (Hacc : webhook_accepted (Some s) req)
    by (exists sig, s; repeat split; assumption).
  destruct (Webhook.JSON_parse _) as [payload|] eqn:Hparse; [|intros ? ?; exfalso; eauto].
  destruct (bool_decide (Webhook.event payload = "payment.captured")
            || bool_decide (Webhook.event payload = "order.paid")) eqn:Hev.
  - destruct (captured_cases f now payload db)
      as [[_ Hthrow] | [Hnoop
          | (object & p & k & order & db' & Hobj & Hp & Hsel & _ & Hupd & Hrun)]].
    + rewrite Hthrow. intros ? ?; exfalso; eauto.
    + rewrite Hnoop. intros ? ?; exfalso; eauto.
    + rewrite Hrun.
      pose proof (adjust_inventory_orders f now k db') as Ho.
      destruct (adjust_inventory f now k db') as [db'' calls]. simpl in *.
      rewrite Ho. apply update_order_frame in Hupd as (_ & _ & Hat & Hother).
      apply select_order_by_razorpay_id_Some in Hsel as [Hk Hroid].
      intros Ho' Hp'. destruct (decide (oid = k)) as [->|Hne].
      * pose proof (eq_trans (eq_sym Hat) Ho') as Hx. rewrite Hk in Hx. simpl in Hx.
        injection Hx as <-. rewrite Hk in Hrow. injection Hrow as ->.
        split; [exact Hacc|]. exists payload, object, p. repeat split; auto.
        apply orb_true_iff in Hev as [Hev|Hev]; apply bool_decide_eq_true in Hev; auto.
      * pose proof (eq_trans (eq_sym (Hother _ Hne)) Ho'). exfalso; eauto.
  - destruct (bool_decide (Webhook.event payload = "payment.failed"));
      [|intros ? ?; exfalso; eauto].
    destruct (failed_cases f now payload db)
      as [[_ Hthrow] | [Hnoop | (object & p & k & order & db' & _ & _ & _ & _ & Hupd & Hrun)]].
    + rewrite Hthrow. intros ? ?; exfalso; eauto.
    + rewrite Hnoop. intros ? ?; exfalso; eauto.
    + rewrite Hrun. cbn [Webhook.answer db_after]. intros Ho' Hp'.
      apply update_order_frame in Hupd as (_ & _ & Hat & Hother).
      destruct (decide (oid = k)) as [->|Hne].
      * pose proof (eq_trans (eq_sym Hat) Ho') as Hx. rewrite Hrow in Hx. simpl in Hx.
        injection Hx as <-. discriminate.
      * pose proof (eq_trans (eq_sym (Hother _ Hne)) Ho'). exfalso; eauto.
Qed.

(** X13.  The same delivery served twice calls [decrementStock] at most
    once in total, whatever calls fail either time; if the first delivery
    called it, the second one changes nothing. *)
Theorem duplicate_deliveries_adjust_once secret f1 now1 f2 now2 req db :
  let first := Webhook.POST secret f1 now1 req db in
  let second := Webhook.POST secret f2 now2 req (db_after first) in
  (length (adjuster_calls first ++ adjuster_calls second) <= 1)%nat /\
  (adjuster_calls first <> [] ->
   db_after second = db_after first /\ adjuster_calls second = []).
Proof.
  cbv zeta.
  assert (Hone : forall f now d, (length (adjuster_calls (Webhook.POST secret f now req d)) <= 1)%nat).
  { intros f now d. unfold Webhook.POST.
    destruct (Webhook.signature req) as [sig|]; [|simpl; lia].
    destruct (bool_decide _); [simpl; lia|]. destruct (falsy secret); [simpl; lia|].
    destruct (negb _); [simpl; lia|].
    destruct (Webhook.JSON_parse _) as [payload|]; [|simpl; lia].
    destruct (_ || _);
      [|destruct (bool_decide _); [destruct (Webhook.handlePaymentFailed _ _ _ _)|];
        simpl; lia].
    destruct (captured_cases f now payload d)
      as [[_ ->] | [-> | (object & p & k & order & db' & _ & _ & _ & _ & _ & ->)]];
      [simpl; lia | simpl; lia |].
    unfold adjust_inventory.
    destruct (Supabase.select_order_items _ db' k) as [[|item rest]|]; simpl; lia. }
  assert (Hsecond : adjuster_calls (Webhook.POST secret f1 now1 req db) <> [] ->
    db_after (Webhook.POST secret f2 now2 req (db_after (Webhook.POST secret f1 now1 req db)))
      = db_after (Webhook.POST secret f1 now1 req db) /\
    adjuster_calls
      (Webhook.POST secret f2 now2 req (db_after (Webhook.POST secret f1 now1 req db))) = []).
  { unfold Webhook.POST.
    destruct (Webhook.signature req) as [sig|]; [|intros []; reflexivity].
    destruct (bool_decide _); [intros []; reflexivity|].
    destruct (falsy secret); [intros []; reflexivity|].
    destruct (negb _); [intros []; reflexivity|].
    destruct (Webhook.JSON_parse _) as [payload|]; [|intros []; reflexivity].
    destruct (_ || _);
      [|destruct (bool_decide _);
        [destruct (Webhook.handlePaymentFailed f1 now1 payload db)|];
        intros []; reflexivity].
    destruct (captured_cases f1 now1 payload db)
      as [[_ ->] | [-> | (object & p & k & order & db' & Hobj & Hp & Hsel & _ & Hupd & ->)]];
      [intros []; reflexivity | intros []; reflexivity |].
    intros _.
    pose proof (adjust_inventory_orders f1 now1 k db') as Ho.
    destruct (adjust_inventory f1 now1 k db') as [db'' calls]. simpl in *.
    apply update_order_frame in Hupd as (_ & _ & Hat & _).
    apply select_order_by_razorpay_id_Some in Hsel as [Hk Hroid].
    rewrite (captured_on_paid_is_noop f2 now2 payload object p db'' k
               (Webhook.mark_paid p now1 order) Hobj Hp).
    - split; reflexivity.
    - rewrite Ho. etrans; [exact Hat|]. rewrite Hk. reflexivity.
    - exact Hroid.
    - reflexivity. }
  split.
  - destruct (decide (adjuster_calls (Webhook.POST secret f1 now1 req db) = [])) as [He|Hne].
    + rewrite He. simpl. apply Hone.
    + destruct (Hsecond Hne) as [_ ->]. rewrite app_nil_r. apply Hone.
  - exact Hsecond.
Qed.

End WebhookBounds.

Lemma webhook_writes_only_when_signed_witness :
  exists s, Some Sample.webhook_secret = Some s /\ s <> "" /\
    Webhook.signature (Sample.delivery Sample.captured_body)
    = Some (@hmac_sha256_hex Sample.crypto s
              (Webhook.rawBody (Sample.delivery Sample.captured_body))).
Proof.
  apply (@webhook_writes_only_when_signed Sample.crypto Sample.json
           (Some Sample.webhook_secret) no_faults Sample.now
           (Sample.delivery Sample.captured_body) Sample.db).
  right. vm_compute. discriminate.
Defined.

Lemma webhook_ignores_ambiguous_gateway_id_witness :
  Webhook.handlePaymentCaptured no_faults Sample.now Shop.captured Shop.twins
  = Some (Shop.twins, []) /\
  Webhook.handlePaymentFailed no_faults Sample.now Shop.captured Shop.twins
  = Some Shop.twins.
Proof.
  apply (webhook_ignores_ambiguous_gateway_id no_faults Sample.now Shop.captured
           Sample.object Sample.entity Shop.twins "o1" "o9" Sample.pending_order
           Sample.pending_order);
    [reflexivity | reflexivity | discriminate | reflexivity | reflexivity | reflexivity
    | reflexivity].
Defined.

Lemma webhook_marks_paid_only_on_captured_event_witness :
  @webhook_accepted Sample.crypto (Some Sample.webhook_secret)
    (Sample.delivery Sample.captured_body).
Proof.
  refine (proj1 (@webhook_marks_paid_only_on_captured_event Sample.crypto Sample.json
                   (Some Sample.webhook_secret) no_faults Sample.now
                   (Sample.delivery Sample.captured_body) Sample.db "o1"
                   Sample.pending_order
                   (Webhook.mark_paid Sample.entity Sample.now Sample.pending_order)
                   eq_refl _ eq_refl eq_refl)).
  discriminate.
Defined.

(** ** The order status route *)

Section StatusRoute.
Import OrderStatus.

Lemma finish_frame f ns now oid db calls :
  let out := finish f ns now oid db calls in
  Schema.products (db_left out) = Schema.products db /\
  Schema.order_items (db_left out) = Schema.order_items db /\
  restore_calls out = calls /\
  (forall k o', Schema.orders (db_left out) !! k = Some o' ->
     exists o, Schema.orders db !! k = Some o /\ same_but_status o o' /\
               (o' = o \/ (code out = 200%nat /\ k = oid /\ o' = set_status ns now o))) /\
  (forall k, is_Some (Schema.orders (db_left out) !! k) <-> is_Some (Schema.orders db !! k)) /\
  (code out = 200%nat \/ (code out = 500%nat /\ db_left out = db)) /\
  (code out = 200%nat <-> order_update_fails f = false /\ is_Some (Schema.orders db !! oid)).
Proof.
  cbv zeta. unfold finish, update_status.
  destruct (order_update_fails f).
  { simpl. split; [reflexivity|]. split; [reflexivity|]. split; [reflexivity|].
    split; [intros k o' Ho; exists o'; split; [exact Ho|]; split; [repeat split|left; reflexivity]|].
    split; [reflexivity|]. split; [right; auto|]. split; [discriminate | intros [[=] _]]. }
  destruct (Schema.orders db !! oid) as [o|] eqn:Ho.
  - simpl. split; [reflexivity|]. split; [reflexivity|]. split; [reflexivity|]. split; [|split].
    + intros k o' Hk. destruct (decide (k = oid)) as [->|Hne].
      * rewrite lookup_insert_eq in Hk. injection Hk as <-. exists o.
        split; [exact Ho|]. split; [repeat split|]. right. repeat split.
      * rewrite lookup_insert_ne in Hk by congruence. exists o'.
        split; [exact Hk|]. split; [repeat split|]. left; reflexivity.
    + intros k. destruct (decide (k = oid)) as [->|Hne].
      * rewrite lookup_insert_eq, Ho. split; eauto.
      * rewrite lookup_insert_ne by congruence. reflexivity.
    + split; [left; reflexivity|]. split; [intros _; split; [reflexivity|eauto]|reflexivity].
  - simpl. split; [reflexivity|]. split; [reflexivity|]. split; [reflexivity|].
    split; [intros k o' Hk; exists o'; split; [exact Hk|]; split; [repeat split|left; reflexivity]|].
    split; [reflexivity|]. split; [right; auto|]. split; [discriminate | intros [_ [? [=]]]].
Qed.

(** X14.  The status route never touches item rows and never adds or
    removes an order.  The one row it can change is the order the request
    names, and only when it answers 200: that row is then the row before
    with [status] set to the requested status and [updated_at] to the time
    of the request, every other column as it was.  Whatever calls fail. *)
Theorem status_route_writes_status_only f now req db :
  let out := POST f now req db in
  Schema.order_items (db_left out) = Schema.order_items db /\
  (forall k, is_Some (Schema.orders (db_left out) !! k) <-> is_Some (Schema.orders db !! k)) /\
  (forall k o', Schema.orders (db_left out) !! k = Some o' ->
     exists o, Schema.orders db !! k = Some o /\
       same_but_status o o' /\
       (o' = o \/
        (code out = 200%nat /\ orderId req = Some k /\
         exists ns, newStatus req = Some ns /\
                    Schema.status o' = Some ns /\
                    Schema.order_updated_at o' = now /\
                    o' = set_status ns now o))).
Proof.
  cbv zeta. unfold POST.
  assert (Hid : forall k o', Schema.orders db !! k = Some o' ->
     exists o, Schema.orders db !! k = Some o /\ same_but_status o o' /\
       (o' = o \/
        (code (refuse 400 "Order ID and new status are required" db []) = 200%nat /\
         orderId req = Some k /\
         exists ns, newStatus req = Some ns /\ Schema.status o' = Some ns /\
                    Schema.order_updated_at o' = now /\ o' = set_status ns now o))).
  { intros k o' Hk. exists o'. split; [exact Hk|]. split; [repeat split|left; reflexivity]. }
  destruct (orderId req) as [oid|];
    [|simpl; split; [reflexivity|]; split; [reflexivity | exact Hid]].
  destruct (newStatus req) as [ns|];
    [|simpl; rewrite orb_true_r; simpl; split; [reflexivity|]; split;
      [reflexivity | exact Hid]].
  cbn [falsy from_option Datatypes.id].
  destruct (_ || _); [simpl; split; [reflexivity|]; split; [reflexivity | exact Hid]|].
  clear Hid.
  assert (Hfin : forall db0 calls,
    Schema.orders db0 = Schema.orders db -> Schema.order_items db0 = Schema.order_items db ->
    let out := finish f ns now oid db0 calls in
    Schema.order_items (db_left out) = Schema.order_items db /\
    (forall k, is_Some (Schema.orders (db_left out) !! k) <-> is_Some (Schema.orders db !! k)) /\
    (forall k o', Schema.orders (db_left out) !! k = Some o' ->
       exists o, Schema.orders db !! k = Some o /\ same_but_status o o' /\
         (o' = o \/
          (code out = 200%nat /\ Some oid = Some k /\
           exists ns', Some ns = Some ns' /\ Schema.status o' = Some ns' /\
                       Schema.order_updated_at o' = now /\ o' = set_status ns' now o)))).
  { intros db0 calls Ho Hi. cbv zeta.
    destruct (finish_frame f ns now oid db0 calls) as (_ & Hi' & _ & Hcols & Hkeep & _).
    rewrite Ho in Hcols, Hkeep. split; [congruence|]. split; [exact Hkeep|].
    intros k o' Hk. destruct (Hcols k o' Hk) as (o & Hko & Hsame & Hcase).
    exists o. split; [exact Hko|]. split; [exact Hsame|].
    destruct Hcase as [Heq | (Hc & -> & ->)]; [left; exact Heq|].
    right. split; [exact Hc|]. split; [reflexivity|]. exists ns. repeat split. }
  case_bool_decide as Hns; cbn [andb]; [|apply Hfin; reflexivity].
  case_bool_decide as Hprev; cbn [negb]; [apply Hfin; reflexivity|].
  destruct (Supabase.select_order_items _ db oid) as [[|item rest]|].
  - apply Hfin; reflexivity.
  - apply Hfin; reflexivity.
  - simpl. split; [reflexivity|]. split; [reflexivity|].
    intros k o' Hk. exists o'. split; [exact Hk|]. split; [repeat split|left; reflexivity].
Qed.

(** X15.  The status route calls [restoreStock] at most once, and only
    for a request whose new status is [cancelled] and whose
    [previousStatus] is not; when it does not call it, the products are
    untouched. *)
Theorem status_route_restores_only_on_cancel f now req db :
  let out := POST f now req db in
  (restore_calls out = [] -> Schema.products (db_left out) = Schema.products db) /\
  (newStatus req <> Some "cancelled" \/ previousStatus req = Some "cancelled" ->
   restore_calls out = []) /\
  (length (restore_calls out) <= 1)%nat.
Proof.
  cbv zeta. unfold POST.
  destruct (orderId req) as [oid|]; [|simpl; repeat split; auto].
  destruct (newStatus req) as [ns|]; [|simpl; rewrite orb_true_r; simpl; repeat split; auto].
  cbn [falsy from_option Datatypes.id].
  destruct (_ || _); [simpl; repeat split; auto|].
  assert (Hfin : forall db0 calls,
    Schema.products (db_left (finish f ns now oid db0 calls)) = Schema.products db0 /\
    restore_calls (finish f ns now oid db0 calls) = calls).
  { intros db0 calls. destruct (finish_frame f ns now oid db0 calls) as (Hp & _ & Hc & _).
    split; assumption. }
  case_bool_decide as Hns; cbn [andb].
  - case_bool_decide as Hprev; cbn [negb].
    + destruct (Hfin db []) as [Hp Hc]. rewrite Hp, Hc. repeat split; auto.
    + destruct (Supabase.select_order_items _ db oid) as [[|item rest]|].
      * destruct (Hfin db []) as [Hp Hc]. rewrite Hp, Hc. repeat split; auto.
      * match goal with |- context [finish f ns now oid ?d ?c] =>
          destruct (Hfin d c) as [Hp Hc] end.
        rewrite Hp, Hc. split; [discriminate|]. split; [|simpl; lia].
        intros [Hn | Hq]; [subst ns; contradiction | contradiction].
      * simpl. repeat split; auto.
  - destruct (Hfin db []) as [Hp Hc]. rewrite Hp, Hc. repeat split; auto.
Qed.

(** X16.  A cancellation whose item fetch fails is answered 500 and
    changes nothing.  One whose items are fetched and whose status update
    then fails (or finds no such order) is answered 500 as well, with the
    orders unchanged, but the stock has been restored by then. *)
Theorem cancel_failure_modes f now oid previous db :
  previous <> Some "cancelled" -> oid <> "" ->
  let req := {| orderId := Some oid; newStatus := Some "cancelled";
                previousStatus := previous |} in
  let out := POST f now req db in
  (items_fetch_fails f = true ->
   code out = 500%nat /\ db_left out = db /\ restore_calls out = []) /\
  (items_fetch_fails f = false ->
   order_update_fails f = true \/ Schema.orders db !! oid = None ->
   code out = 500%nat /\
   Schema.orders (db_left out) = Schema.orders db /\
   Schema.products (db_left out)
   = StockManagement.stock_products
       (StockManagement.restoreStock (item_faults f) now (Schema.products db)
          (items_of db oid))).
Proof.
  intros Hprev Hoid. cbv zeta. unfold POST. cbn [orderId newStatus previousStatus falsy from_option Datatypes.id].
  rewrite (bool_decide_eq_false_2 (oid = "")) by exact Hoid.
  rewrite (bool_decide_eq_false_2 (previous = Some "cancelled")) by exact Hprev.
  cbn [orb andb negb bool_decide]. simpl bool_decide. cbn [orb andb negb].
  split.
  - intros Hf. unfold Supabase.select_order_items. rewrite Hf. simpl. auto.
  - intros Hf Hfail. unfold items_of, Supabase.select_order_items. rewrite Hf.
    cbn [from_option Datatypes.id].
    assert (Hfin : forall db0 calls, Schema.orders db0 = Schema.orders db ->
      code (finish f "cancelled" now oid db0 calls) = 500%nat /\
      db_left (finish f "cancelled" now oid db0 calls) = db0).
    { intros db0 calls Ho. unfold finish, update_status.
      destruct Hfail as [-> | Hnone]; [simpl; auto|].
      destruct (order_update_fails f); [simpl; auto|]. rewrite Ho, Hnone. simpl. auto. }
    destruct (map _ _) as [|item rest] eqn:Hitems; cbv beta iota.
    + destruct (Hfin db [] eq_refl) as [Hc Hd]. rewrite Hc, Hd. repeat split.
    + match goal with |- context [finish f _ now oid ?d ?c] =>
        destruct (Hfin d c eq_refl) as [Hc Hd] end.
      rewrite Hc, Hd. repeat split.
Qed.

End StatusRoute.

Lemma cancel_failure_modes_witness :
  let out := OrderStatus.POST Shop.items_fetch_down Sample.now
               (Shop.cancel (Some "processing")) Sample.paid_db in
  OrderStatus.code out = 500%nat /\
  OrderStatus.db_left out = Sample.paid_db /\
  OrderStatus.restore_calls out = [].
Proof.
  refine (proj1 (cancel_failure_modes Shop.items_fetch_down Sample.now "o1"
                   (Some "processing") Sample.paid_db _ _) eq_refl); discriminate.
Defined.

Lemma items_of_order_items db db' oid :
  Schema.order_items db' = Schema.order_items db -> items_of db' oid = items_of db oid.
Proof. intros Hi. unfold items_of, Supabase.select_order_items. rewrite Hi. reflexivity. Qed.

Section CancelRuns.
Import OrderStatus.

(** A cancellation that gets as far as restoring. *)
Lemma cancel_restores now oid previous db :
  oid <> "" -> previous <> Some "cancelled" -> items_of db oid <> [] ->
  POST no_faults now {| orderId := Some oid; newStatus := Some "cancelled";
                        previousStatus := previous |} db
  = finish no_faults "cancelled" now oid
      (Schema.with_products
         (StockManagement.stock_products
            (StockManagement.restoreStock StockManagement.no_item_faults now
               (Schema.products db) (items_of db oid))) db)
      [items_of db oid].
Proof.
  intros Hoid Hprev Hitems. unfold POST.
  cbn [orderId newStatus previousStatus falsy from_option Datatypes.id].
  rewrite (bool_decide_eq_false_2 (oid = "")) by exact Hoid.
  rewrite (bool_decide_eq_false_2 (previous = Some "cancelled")) by exact Hprev.
  cbn [orb andb negb bool_decide]. simpl bool_decide. cbn [orb andb negb].
  unfold items_of in *. cbn [items_fetch_fails item_faults no_faults] in *.
  unfold Supabase.select_order_items in *. cbn [from_option Datatypes.id] in *.
  destruct (map _ _) as [|item rest]; [contradiction|]. reflexivity.
Qed.

(** X17.  The guard against restoring twice is the request's
    [previousStatus], not the stored status: a second cancellation request
    that does not say the order was cancelled restores the same items
    again, although the first one stored [cancelled].  No call fails. *)
Theorem repeated_cancel_restores_again now1 now2 oid previous1 previous2 db o p row :
  oid <> "" ->
  previous1 <> Some "cancelled" -> previous2 <> Some "cancelled" ->
  Schema.orders db !! oid = Some o ->
  Schema.products db !! p = Some row ->
  Some p ∈ map StockManagement.product_id (items_of db oid) ->
  let cancel previous := {| orderId := Some oid; newStatus := Some "cancelled";
                            previousStatus := previous |} in
  let first := POST no_faults now1 (cancel previous1) db in
  let second := POST no_faults now2 (cancel previous2) (db_left first) in
  Schema.status <$> Schema.orders (db_left first) !! oid = Some (Some "cancelled") /\
  restore_calls first = [items_of db oid] /\
  restore_calls second = [items_of db oid] /\
  stock_levels (Schema.products (db_left second)) !! p
  = Some (Some (default 0 (Schema.stock_quantity row)
                + 2 * ordered_quantity p (items_of db oid)), Some true).
Proof.
  intros Hoid Hp1 Hp2 Ho Hrow Hin. cbv beta zeta.
  assert (Hitems : items_of db oid <> []).
  { intros He. rewrite He in Hin. simpl in Hin. apply elem_of_nil in Hin. exact Hin. }
  rewrite (cancel_restores now1 oid previous1 db Hoid Hp1 Hitems).
  set (db1 := Schema.with_products _ db).
  destruct (finish_frame no_faults "cancelled" now1 oid db1 [items_of db oid])
    as (Hprod1 & Hitems1 & Hcalls1 & _ & _ & _ & _).
  set (left1 := db_left (finish no_faults "cancelled" now1 oid db1 [items_of db oid])) in *.
  assert (Hsame : items_of left1 oid = items_of db oid)
    by (apply items_of_order_items; rewrite Hitems1; reflexivity).
  assert (Hitems' : items_of left1 oid <> []) by (rewrite Hsame; exact Hitems).
  rewrite (cancel_restores now2 oid previous2 left1 Hoid Hp2 Hitems').
  set (db2 := Schema.with_products _ left1).
  destruct (finish_frame no_faults "cancelled" now2 oid db2 [items_of left1 oid])
    as (Hprod2 & _ & Hcalls2 & _ & _ & _ & _).
  split; [|split; [exact Hcalls1|split; [rewrite Hcalls2, Hsame; reflexivity|]]].
  - subst left1. unfold finish, update_status. simpl.
    change (Schema.orders db1) with (Schema.orders db). rewrite Ho. simpl.
    rewrite lookup_insert_eq. reflexivity.
  - rewrite Hprod2. subst db2. cbn [Schema.products Schema.with_products].
    rewrite Hprod1, Hsame. subst db1. cbn [Schema.products Schema.with_products].
    pose proof (restoreStock_level now1 p (items_of db oid) (Schema.products db) row Hrow) as H1.
    unfold stock_levels in H1. rewrite lookup_fmap in H1.
    destruct (StockManagement.stock_products
                (StockManagement.restoreStock StockManagement.no_item_faults now1
                   (Schema.products db) (items_of db oid)) !! p) as [row1|] eqn:Hrow1;
      [|discriminate].
    simpl in H1. injection H1 as H1.
    rewrite (restoreStock_level now2 p (items_of db oid) _ row1 Hrow1).
    unfold level_restored in *. rewrite bool_decide_eq_true_2 in * by exact Hin.
    unfold stock_level in H1. injection H1 as Hs _. rewrite Hs. simpl.
    do 3 f_equal. lia.
Qed.

End CancelRuns.

Lemma repeated_cancel_restores_again_witness :
  let first := OrderStatus.POST no_faults Sample.now (Shop.cancel (Some "processing"))
                 Sample.paid_db in
  let second := OrderStatus.POST no_faults Sample.later (Shop.cancel (Some "processing"))
                  (OrderStatus.db_left first) in
  stock_levels (Schema.products Sample.paid_db) !! "p1" = Some (Some 3, Some true) /\
  stock_levels (Schema.products (OrderStatus.db_left second)) !! "p1"
  = Some (Some 7, Some true).
Proof.
  cbv zeta. split; [reflexivity|].
  refine (proj2 (proj2 (proj2
    (repeated_cancel_restores_again Sample.now Sample.later "o1" (Some "processing")
       (Some "processing") Sample.paid_db Sample.paid_order "p1" (Sample.ring 3 true)
       _ _ _ eq_refl eq_refl _)))); try discriminate.
  apply list_elem_of_here.
Defined.

(** ** The two creation routes *)

Lemma insert_order_Some fails new_id row db db1 :
  insert_order fails new_id row db = Some db1 ->
  fails = false /\
  Schema.orders db !! new_id = None /\
  db1 = Schema.with_orders (<[new_id := row]> (Schema.orders db)) db.
Proof.
  unfold insert_order. destruct fails; [discriminate|].
  destruct (Schema.orders db !! new_id); [discriminate|].
  intros [= <-]. repeat split.
Qed.

Lemma insert_order_items_frame fails rows db :
  let db' := default db (insert_order_items fails rows db) in
  Schema.orders db' = Schema.orders db /\
  Schema.products db' = Schema.products db /\
  (Schema.order_items db' = Schema.order_items db \/
   (fails = false /\ Schema.order_items db' = (Schema.order_items db ++ rows)%list)).
Proof.
  cbv zeta. unfold insert_order_items.
  destruct fails; cbn [orb]; [simpl; auto|].
  destruct (negb _); simpl; auto.
Qed.

(** X18.  The create-order route never touches products and never calls
    the adjuster.  When it answers 200 the request was authenticated and
    valid, the gateway answered, every element of [items] was an object,
    and the database gained exactly one order, the pending razorpay row
    under a fresh id, and either all of the cart's item rows or none.
    When it answers anything else the database is unchanged, with one
    exception: if [items.map] throws on a [null] element, the order row has
    been stored by then and stays, and the answer is 500.  So for a
    request whose items are all objects, an answer other than 200 means
    nothing was written. *)
Theorem create_order_writes_order_before_items env auth req db :
  let out := CreateOrder.POST env auth req db in
  let stored user g :=
    <[new_order_id env := new_order user req "razorpay" (Some g) (inserted_at env)]>
      (Schema.orders db) in
  adjuster_calls out = [] /\
  Schema.products (db_after out) = Schema.products db /\
  (status_code (response out) = 200%nat ->
   exists user g cart,
     auth = Some user /\ validate req = None /\ gateway_order env = Some g /\
     elements (items req) = Some cart /\
     Schema.orders db !! new_order_id env = None /\
     Schema.orders (db_after out) = stored user g /\
     (Schema.order_items (db_after out) = Schema.order_items db \/
      Schema.order_items (db_after out)
        = (Schema.order_items db ++ order_item_rows (new_order_id env) cart)%list)) /\
  (status_code (response out) <> 200%nat ->
   db_after out = db \/
   exists user g,
     auth = Some user /\ validate req = None /\ gateway_order env = Some g /\
     elements (items req) = None /\
     Schema.orders db !! new_order_id env = None /\
     response out = {| status_code := 500; body := ErrorBody "Internal server error" |} /\
     db_after out = Schema.with_orders (stored user g) db) /\
  (forall user g,
     auth = Some user -> validate req = None -> gateway_order env = Some g ->
     order_insert_fails env = false -> Schema.orders db !! new_order_id env = None ->
     elements (items req) = None ->
     response out = {| status_code := 500; body := ErrorBody "Internal server error" |} /\
     db_after out = Schema.with_orders (stored user g) db) /\
  (is_Some (elements (items req)) ->
   status_code (response out) <> 200%nat -> db_after out = db).
Proof.
  cbv zeta. unfold CreateOrder.POST.
  destruct auth as [user|];
    [|simpl; repeat split; auto; try discriminate; intros; contradiction].
  destruct (validate req) as [msg|] eqn:Hv;
    [simpl; repeat split; auto; try discriminate; intros; contradiction|].
  destruct (gateway_order env) as [g|] eqn:Hg;
    [|simpl; repeat split; auto; try discriminate; intros; contradiction].
  unfold insert_order.
  destruct (order_insert_fails env);
    [simpl; repeat split; auto; try discriminate; intros; contradiction|].
  destruct (Schema.orders db !! new_order_id env) eqn:Hfresh;
    [simpl; repeat split; auto; try discriminate; intros; contradiction|].
  destruct (elements (items req)) as [cart|] eqn:Hcart.
  - destruct (insert_order_items_frame (items_insert_fails env)
                (order_item_rows (new_order_id env) cart)
                (Schema.with_orders
                   (<[new_order_id env
                      := new_order user req "razorpay" (Some g) (inserted_at env)]>
                      (Schema.orders db)) db)) as (Ho & Hp & Hi).
    cbn [db_after adjuster_calls response status_code].
    split; [reflexivity|]. split; [exact Hp|]. split.
    + intros _. exists user, g, cart. split; [reflexivity|]. split; [reflexivity|].
      split; [reflexivity|]. split; [reflexivity|]. split; [reflexivity|].
      split; [exact Ho|]. destruct Hi as [Hi | [_ Hi]]; [left | right]; exact Hi.
    + split; [intros Hne; contradiction|]. split; [intros; discriminate|].
      intros _ Hne. contradiction.
  - simpl. split; [reflexivity|]. split; [reflexivity|]. split; [discriminate|].
    split; [intros _; right; exists user, g; repeat split|].
    split; [intros user' g' [= <-] _ [= <-] _ _ _; split; reflexivity|].
    intros [? [=]].
Qed.

(** X19.  When the cash-on-delivery route answers 200 the request was
    authenticated, valid and within the limit, every element of [items]
    was an object, the database gained exactly one order (the pending cod
    row under a fresh id) and all of the cart's item rows or none, and
    [decrementStock] ran once over the cart, in stock or not.  When it
    answers anything else the adjuster is not called and the products are
    untouched, and the database is unchanged, with one exception: if
    [items.map] throws on a [null] element, the order row has been stored
    by then and stays, and the answer is 500. *)
Theorem cod_order_writes_order_before_items env now auth req db :
  let out := Cod.POST env now auth req db in
  let stored user :=
    <[new_order_id env := new_order user req "cod" None (inserted_at env)]>
      (Schema.orders db) in
  (status_code (response out) = 200%nat ->
   exists user cart,
     auth = Some user /\ validate req = None /\ (total_amount req <= Cod.COD_LIMIT)%Qc /\
     elements (items req) = Some cart /\
     Schema.orders db !! new_order_id env = None /\
     Schema.orders (db_after out) = stored user /\
     (Schema.order_items (db_after out) = Schema.order_items db \/
      Schema.order_items (db_after out)
        = (Schema.order_items db ++ order_item_rows (new_order_id env) cart)%list) /\
     adjuster_calls out = [Cod.stock_items cart] /\
     Schema.products (db_after out)
       = StockManagement.stock_products
           (StockManagement.decrementStock (stock_faults env) now (Schema.products db)
              (Cod.stock_items cart))) /\
  (status_code (response out) <> 200%nat ->
   adjuster_calls out = [] /\
   Schema.products (db_after out) = Schema.products db /\
   Schema.order_items (db_after out) = Schema.order_items db /\
   (db_after out = db \/
    exists user,
      auth = Some user /\ validate req = None /\ (total_amount req <= Cod.COD_LIMIT)%Qc /\
      elements (items req) = None /\
      Schema.orders db !! new_order_id env = None /\
      response out = {| status_code := 500; body := ErrorBody "Internal server error" |} /\
      db_after out = Schema.with_orders (stored user) db)) /\
  (forall user,
     auth = Some user -> validate req = None -> (total_amount req <= Cod.COD_LIMIT)%Qc ->
     order_insert_fails env = false -> Schema.orders db !! new_order_id env = None ->
     elements (items req) = None ->
     response out = {| status_code := 500; body := ErrorBody "Internal server error" |} /\
     db_after out = Schema.with_orders (stored user) db) /\
  (is_Some (elements (items req)) ->
   status_code (response out) <> 200%nat -> db_after out = db).
Proof.
  cbv zeta. unfold Cod.POST.
  destruct auth as [user|];
    [|simpl; repeat split; auto; try discriminate; intros; contradiction].
  destruct (validate req) as [msg|] eqn:Hv;
    [simpl; repeat split; auto; try discriminate; intros; contradiction|].
  case_bool_decide as Hlimit.
  { simpl. split; [discriminate|]. split; [auto|].
    split; [|auto]. intros user' _ _ Hle. exfalso. exact (Qcle_not_lt _ _ Hle Hlimit). }
  unfold insert_order.
  destruct (order_insert_fails env);
    [simpl; repeat split; auto; try discriminate; intros; contradiction|].
  destruct (Schema.orders db !! new_order_id env) eqn:Hfresh;
    [simpl; repeat split; auto; try discriminate; intros; contradiction|].
  destruct (elements (items req)) as [cart|] eqn:Hcart.
  - destruct (insert_order_items_frame (items_insert_fails env)
                (order_item_rows (new_order_id env) cart)
                (Schema.with_orders
                   (<[new_order_id env := new_order user req "cod" None (inserted_at env)]>
                      (Schema.orders db)) db)) as (Ho & Hp & Hi).
    cbn [db_after adjuster_calls response status_code]. split.
    + intros _. exists user, cart. split; [reflexivity|]. split; [reflexivity|].
      split; [apply Qcnot_lt_le; exact Hlimit|]. split; [reflexivity|].
      split; [reflexivity|]. split; [exact Ho|].
      split; [destruct Hi as [Hi | [_ Hi]]; [left | right]; exact Hi|].
      split; [reflexivity|].
      cbn [Schema.products Schema.with_products]. rewrite Hp. reflexivity.
    + split; [intros Hne; contradiction|]. split; [intros; discriminate|].
      intros _ Hne. contradiction.
  - simpl. split; [discriminate|]. split.
    + intros _. split; [reflexivity|]. split; [reflexivity|]. split; [reflexivity|].
      right. exists user. split; [reflexivity|]. split; [reflexivity|].
      split; [apply Qcnot_lt_le; exact Hlimit|]. repeat split.
    + split; [intros user' [= <-] _ _ _ _ _; split; reflexivity|].
      intros [? [=]].
Qed.

(** The exception on the sample shop: a request whose [items] is [[null]]
    is answered 500 by both routes and leaves the order behind. *)
Example create_order_keeps_order_when_map_throws :
  let out := CreateOrder.POST Sample.all_well (Some Sample.buyer) Sample.null_checkout
               Sample.db in
  validate Sample.null_checkout = None /\
  response out = {| status_code := 500; body := ErrorBody "Internal server error" |} /\
  is_Some (Schema.orders (db_after out) !! "o2") /\
  Schema.orders Sample.db !! "o2" = None.
Proof. cbv zeta. repeat split. eexists. reflexivity. Qed.

Example cod_keeps_order_when_map_throws :
  let out := Cod.POST Sample.all_well Sample.now (Some Sample.buyer) Sample.null_checkout
               Sample.db in
  validate Sample.null_checkout = None /\
  response out = {| status_code := 500; body := ErrorBody "Internal server error" |} /\
  is_Some (Schema.orders (db_after out) !! "o2") /\
  Schema.orders Sample.db !! "o2" = None /\
  adjuster_calls out = [].
Proof. cbv zeta. repeat split. eexists. reflexivity. Qed.

(** ** A cash-on-delivery order, cancelled *)

Lemma items_of_new_rows new_id items :
  map (fun row => {| StockManagement.product_id := Schema.product_id row;
                     StockManagement.quantity := Schema.quantity row |})
    (filter (fun row => Schema.order_id row = new_id) (order_item_rows new_id items))
  = Cod.stock_items items.
Proof.
  induction items as [|item rest IH]; [reflexivity|].
  unfold order_item_rows in *. cbn [map]. rewrite filter_cons.
  cbn [Schema.order_id]. destruct (decide (new_id = new_id)) as [_|Hne]; [|contradiction].
  cbn [map]. rewrite IH. reflexivity.
Qed.

Lemma product_fkey_all db new_id items :
  Forall (fun item => is_Some (Schema.products db !! product_id item)) items ->
  forallb (product_fkey_ok db) (order_item_rows new_id items) = true.
Proof.
  induction 1 as [|item rest Hitem _ IH]; [reflexivity|].
  unfold order_item_rows in *. cbn [map forallb]. rewrite IH, andb_true_r.
  unfold product_fkey_ok. cbn [Schema.product_id]. apply bool_decide_eq_true_2. exact Hitem.
Qed.

Lemma stock_items_quantities items :
  Forall (fun item => 0 <= quantity item) items ->
  Forall (fun item => 0 <= StockManagement.quantity item) (Cod.stock_items items).
Proof. induction 1; constructor; assumption. Qed.

Lemma elements_nil items : elements items = Some [] -> items = [].
Proof.
  destruct items as [|[item|] rest]; [reflexivity | | discriminate].
  simpl. destruct (elements rest); discriminate.
Qed.

(** X20.  Placing a cash-on-delivery order and cancelling it, with no
    failing call: both requests are answered 200, the items the status
    route reads back for the new order are the cart the order was placed
    with, and the order ends [cancelled].  Every product is left by the
    order at its stock minus the ordered quantity, floored at zero; the
    cancellation then leaves an ordered product at the larger of its stock
    before and the ordered quantity, marked in stock, which is its stock
    before when that covered the order; a product the cart does not name
    keeps its row throughout. *)
Theorem cod_order_then_cancel_restores_stock env now1 now2 user req cart previous db :
  validate req = None ->
  (total_amount req <= Cod.COD_LIMIT)%Qc ->
  elements (items req) = Some cart ->
  order_insert_fails env = false ->
  items_insert_fails env = false ->
  stock_faults env = StockManagement.no_item_faults ->
  new_order_id env <> "" ->
  Schema.orders db !! new_order_id env = None ->
  order_fkey_ok db ->
  Forall (fun item => is_Some (Schema.products db !! product_id item)) cart ->
  Forall (fun item => 0 <= quantity item) cart ->
  previous <> Some "cancelled" ->
  let placed := Cod.POST env now1 (Some user) req db in
  let cancelled :=
    OrderStatus.POST no_faults now2
      {| OrderStatus.orderId := Some (new_order_id env);
         OrderStatus.newStatus := Some "cancelled";
         OrderStatus.previousStatus := previous |} (db_after placed) in
  let ordered p := ordered_quantity p (Cod.stock_items cart) in
  status_code (response placed) = 200%nat /\
  adjuster_calls placed = [Cod.stock_items cart] /\
  OrderStatus.code cancelled = 200%nat /\
  OrderStatus.restore_calls cancelled = [Cod.stock_items cart] /\
  Schema.status <$> Schema.orders (OrderStatus.db_left cancelled) !! new_order_id env
  = Some (Some "cancelled") /\
  (forall p row, Schema.products db !! p = Some row ->
     stock_levels (Schema.products (db_after placed)) !! p
     = Some (level_after p (Cod.stock_items cart) row) /\
     (Some p ∈ map StockManagement.product_id (Cod.stock_items cart) ->
      stock_levels (Schema.products (db_after placed)) !! p
      = Some (Some (Z.max 0 (default 0 (Schema.stock_quantity row) - ordered p)),
              Some (Z.max 0 (default 0 (Schema.stock_quantity row) - ordered p) >? 0)) /\
      stock_levels (Schema.products (OrderStatus.db_left cancelled)) !! p
      = Some (Some (Z.max (default 0 (Schema.stock_quantity row)) (ordered p)), Some true) /\
      (ordered p <= default 0 (Schema.stock_quantity row) ->
       stock_levels (Schema.products (OrderStatus.db_left cancelled)) !! p
       = Some (Some (default 0 (Schema.stock_quantity row)), Some true))) /\
     (Some p ∉ map StockManagement.product_id (Cod.stock_items cart) ->
      Schema.products (db_after placed) !! p = Some row /\
      Schema.products (OrderStatus.db_left cancelled) !! p = Some row)).
Proof.
  intros Hv Hlimit Hcart Hoi Hii Hsf Hid Hfresh Hfk Hprods Hq Hprev. cbv zeta.
  set (items' := Cod.stock_items cart) in *.
  set (new_id := new_order_id env) in *.
  set (row_new := new_order user req "cod" None (inserted_at env)).
  set (db1 := Schema.with_orders (<[new_id := row_new]> (Schema.orders db)) db).
  set (db2 := Schema.with_order_items
                (Schema.order_items db ++ order_item_rows new_id cart) db1).
  set (d := StockManagement.decrementStock StockManagement.no_item_faults now1
              (Schema.products db) items').
  assert (Hplaced : Cod.POST env now1 (Some user) req db
    = {| response := {| status_code := 200;
                        body := CodSuccess new_id "cod"
                                  "Order placed successfully! Pay on delivery." |};
         db_after := Schema.with_products (StockManagement.stock_products d) db2;
         adjuster_calls := [items'] |}).
  { unfold Cod.POST. rewrite Hv.
    rewrite bool_decide_eq_false_2 by (apply Qcle_not_lt; exact Hlimit).
    unfold insert_order. rewrite Hoi. fold new_id. rewrite Hfresh, Hcart.
    unfold insert_order_items. rewrite Hii. cbn [orb].
    rewrite (product_fkey_all _ new_id cart)
      by (cbn [Schema.products Schema.with_orders]; exact Hprods).
    cbn [negb from_option Datatypes.id]. rewrite Hsf. reflexivity. }
  rewrite Hplaced. cbn [response status_code db_after adjuster_calls].
  set (placed := Schema.with_products (StockManagement.stock_products d) db2).
  assert (Hitems : items_of placed new_id = items').
  { unfold items_of, Supabase.select_order_items. cbn [from_option Datatypes.id].
    subst placed db2 db1. cbn [Schema.order_items Schema.with_products Schema.with_order_items
                                Schema.with_orders].
    rewrite list.filter_app, (no_items_of_fresh_order db new_id Hfk Hfresh), app_nil_l.
    apply items_of_new_rows. }
  assert (Hne : items_of placed new_id <> []).
  { rewrite Hitems. subst items'. intros He.
    assert (cart = []) as -> by (destruct cart; [reflexivity | discriminate]).
    apply elements_nil in Hcart. unfold validate in Hv.
    rewrite bool_decide_eq_true_2 in Hv by exact Hcart. discriminate. }
  rewrite (cancel_restores now2 new_id previous placed Hid Hprev Hne). rewrite Hitems.
  set (db3 := Schema.with_products _ placed).
  destruct (finish_frame no_faults "cancelled" now2 new_id db3 [items'])
    as (Hprod & _ & Hcalls & _ & _ & _ & Hcode).
  assert (Hstored : Schema.orders db3 !! new_id = Some row_new).
  { subst db3 placed db2 db1. cbn [Schema.orders Schema.with_products Schema.with_order_items
                                    Schema.with_orders].
    apply lookup_insert_eq. }
  split; [reflexivity|]. split; [reflexivity|].
  split; [apply Hcode; split; [reflexivity | rewrite Hstored; eauto]|].
  split; [exact Hcalls|]. split.
  { unfold OrderStatus.finish, OrderStatus.update_status.
    cbn [order_update_fails no_faults]. rewrite Hstored.
    cbn [OrderStatus.db_left Schema.orders Schema.with_orders].
    rewrite lookup_insert_eq. reflexivity. }
  intros p row Hrow.
  pose proof (decrementStock_level now1 p items' (Schema.products db) row
                (stock_items_quantities _ Hq) Hrow) as Hd.
  fold d in Hd. rewrite Hprod. subst db3 placed.
  cbn [Schema.products Schema.with_products item_faults no_faults].
  split; [exact Hd|]. split.
  - intros Hin.
    unfold stock_levels in Hd. rewrite lookup_fmap in Hd.
    destruct (StockManagement.stock_products d !! p) as [row_d|] eqn:Hrow_d; [|discriminate].
    simpl in Hd. injection Hd as Hd.
    rewrite (restoreStock_level now2 p items' _ row_d Hrow_d).
    unfold stock_levels. rewrite lookup_fmap, Hrow_d. simpl. rewrite Hd.
    unfold level_restored, level_after in *.
    rewrite bool_decide_eq_true_2 in * by exact Hin.
    unfold stock_level in Hd. injection Hd as Hs _. rewrite Hs. simpl.
    split; [reflexivity|]. split; [|intros Hle]; do 3 f_equal; lia.
  - intros Hnin.
    destruct (stock_loop_local _ (decrement_item_local now1) items'
                StockManagement.no_item_faults (StockManagement.start (Schema.products db)) p)
      as [Hout1 _].
    assert (Hrow_d : StockManagement.stock_products d !! p = Some row).
    { subst d. unfold StockManagement.decrementStock. rewrite (Hout1 Hnin). exact Hrow. }
    split; [exact Hrow_d|].
    destruct (stock_loop_local _ (restore_item_local now2) items'
                StockManagement.no_item_faults
                (StockManagement.start (StockManagement.stock_products d)) p)
      as [Hout2 _].
    unfold StockManagement.restoreStock. rewrite (Hout2 Hnin). exact Hrow_d.
Qed.

Lemma cod_order_then_cancel_restores_stock_witness :
  let placed := Cod.POST Sample.all_well Sample.now (Some Sample.buyer)
                  (Sample.checkout 1500) Sample.db in
  let cancelled :=
    OrderStatus.POST no_faults Sample.later
      {| OrderStatus.orderId := Some (new_order_id Sample.all_well);
         OrderStatus.newStatus := Some "cancelled";
         OrderStatus.previousStatus := Some "pending" |} (db_after placed) in
  status_code (response placed) = 200%nat /\
  OrderStatus.code cancelled = 200%nat /\
  stock_levels (Schema.products (db_after placed)) !! "p1" = Some (Some 3, Some true) /\
  stock_levels (Schema.products (OrderStatus.db_left cancelled)) !! "p1"
  = Some (Some 5, Some true).
Proof.
  cbv zeta.
  destruct (cod_order_then_cancel_restores_stock Sample.all_well Sample.now Sample.later
              Sample.buyer (Sample.checkout 1500) Sample.cart (Some "pending") Sample.db)
    as (Hplaced & _ & Hcode & _ & _ & Hstock).
  - reflexivity.
  - vm_compute. discriminate.
  - reflexivity.
  - reflexivity.
  - reflexivity.
  - reflexivity.
  - discriminate.
  - reflexivity.
  - constructor; [eexists; reflexivity | constructor].
  - constructor; [eexists; reflexivity | constructor].
  - constructor; [vm_compute; discriminate | constructor].
  - discriminate.
  - destruct (Hstock "p1" (Sample.ring 5 true) eq_refl) as (Hafter & Hin & _).
    destruct (Hin ltac:(apply list_elem_of_here)) as (_ & _ & Hback).
    split; [exact Hplaced|]. split; [exact Hcode|]. split; [exact Hafter|].
    apply Hback. vm_compute. discriminate.
Defined.

(** ** [sanitizeHtml] *)

Section Sanitize.
Import Validations.

Lemma append_nil (b : string) : EmptyString +:+ b = b.
Proof. reflexivity. Qed.

Lemma append_cons x (a b : string) : String x a +:+ b = String x (a +:+ b).
Proof. reflexivity. Qed.

Ltac push_append := rewrite ?append_cons, ?append_nil.

Lemma append_assoc (a b c : string) : (a +:+ b) +:+ c = a +:+ (b +:+ c).
Proof.
  induction a as [|x a IH]; push_append; [reflexivity | rewrite IH; reflexivity].
Qed.

Lemma length_append (a b : string) :
  String.length (a +:+ b) = (String.length a + String.length b)%nat.
Proof.
  induction a as [|x a IH]; push_append; simpl; [reflexivity | rewrite IH; reflexivity].
Qed.

Lemma replace_all_append c by_ a b :
  replace_all c by_ (a +:+ b) = replace_all c by_ a +:+ replace_all c by_ b.
Proof.
  induction a as [|x a IH]; push_append; cbn [replace_all]; [reflexivity|].
  destruct (Ascii.eqb x c); push_append; rewrite IH; [rewrite append_assoc|]; reflexivity.
Qed.

Lemma sanitizeHtml_append a b : sanitizeHtml (a +:+ b) = sanitizeHtml a +:+ sanitizeHtml b.
Proof. unfold sanitizeHtml. rewrite !replace_all_append. reflexivity. Qed.

Lemma sanitizeHtml_one x : sanitizeHtml (String x EmptyString) = escape x.
Proof. destruct x as [[] [] [] [] [] [] [] []]; reflexivity. Qed.

Lemma sanitizeHtml_escape_all s : sanitizeHtml s = escape_all s.
Proof.
  induction s as [|x s IH]; [reflexivity|].
  change (String x s) with (String x EmptyString +:+ s).
  rewrite sanitizeHtml_append, sanitizeHtml_one, IH. reflexivity.
Qed.

(** X21.  The chain of six global replacements escapes each character on
    its own: no replacement rewrites the output of an earlier one (the
    ampersand is replaced first), so [sanitizeHtml] is the concatenation of
    the characters' escapes, distributes over concatenation, and never
    shortens its input. *)
Theorem sanitizeHtml_escapes_each_character :
  (forall s, sanitizeHtml s = escape_all s) /\
  (forall a b, sanitizeHtml (a +:+ b) = sanitizeHtml a +:+ sanitizeHtml b) /\
  (forall s, (String.length s <= String.length (sanitizeHtml s))%nat).
Proof.
  split; [exact sanitizeHtml_escape_all|]. split; [exact sanitizeHtml_append|].
  intros s. rewrite sanitizeHtml_escape_all.
  induction s as [|x s IH]; [reflexivity|]. cbn [escape_all]. rewrite length_append.
  assert (1 <= String.length (escape x))%nat
    by (destruct x as [[] [] [] [] [] [] [] []]; simpl; lia).
  simpl. lia.
Qed.

Lemma occurs_append c a b : occurs c (a +:+ b) = occurs c a || occurs c b.
Proof.
  induction a as [|x a IH]; push_append; cbn [occurs]; [reflexivity|].
  rewrite IH, orb_assoc. reflexivity.
Qed.

Lemma escape_no_markup c x :
  c = lt \/ c = gt \/ c = dquote \/ c = squote \/ c = slash -> occurs c (escape x) = false.
Proof.
  intros [->|[->|[->|[->| ->]]]]; destruct x as [[] [] [] [] [] [] [] []]; reflexivity.
Qed.

Lemma escape_all_no_markup c s :
  c = lt \/ c = gt \/ c = dquote \/ c = squote \/ c = slash ->
  occurs c (escape_all s) = false.
Proof.
  intros Hc. induction s as [|x s IH]; [reflexivity|].
  cbn [escape_all]. rewrite occurs_append, IH, (escape_no_markup c x Hc). reflexivity.
Qed.

(** X22.  The output of [sanitizeHtml] contains none of the characters
    [<], [>], double quote, single quote and [/]. *)
Theorem sanitizeHtml_leaves_no_markup s :
  occurs lt (sanitizeHtml s) = false /\
  occurs gt (sanitizeHtml s) = false /\
  occurs dquote (sanitizeHtml s) = false /\
  occurs squote (sanitizeHtml s) = false /\
  occurs slash (sanitizeHtml s) = false.
Proof.
  rewrite sanitizeHtml_escape_all.
  repeat split; apply escape_all_no_markup; tauto.
Qed.

Lemma escape_plain x : special x = false -> escape x = String x EmptyString.
Proof.
  unfold special, escape. intros Hs.
  repeat (apply orb_false_iff in Hs as [Hs ?]).
  repeat match goal with H : Ascii.eqb _ _ = false |- _ => rewrite H; clear H end.
  reflexivity.
Qed.

Lemma escape_special x :
  special x = true ->
  exists c rest, escape x = String amp (String c rest) /\
    ((x = amp /\ escape x = "&amp;") \/ (x = lt /\ escape x = "&lt;") \/
     (x = gt /\ escape x = "&gt;") \/ (x = dquote /\ escape x = "&quot;") \/
     (x = squote /\ escape x = "&#039;") \/ (x = slash /\ escape x = "&#x2F;")).
Proof.
  unfold special, escape. intros Hs.
  destruct (Ascii.eqb x amp) eqn:E1;
    [apply Ascii.eqb_eq in E1; eexists _, _; split; [reflexivity|]; tauto|].
  destruct (Ascii.eqb x lt) eqn:E2;
    [apply Ascii.eqb_eq in E2; eexists _, _; split; [reflexivity|]; tauto|].
  destruct (Ascii.eqb x gt) eqn:E3;
    [apply Ascii.eqb_eq in E3; eexists _, _; split; [reflexivity|]; tauto|].
  destruct (Ascii.eqb x dquote) eqn:E4;
    [apply Ascii.eqb_eq in E4; eexists _, _; split; [reflexivity|]; tauto|].
  destruct (Ascii.eqb x squote) eqn:E5;
    [apply Ascii.eqb_eq in E5; eexists _, _; split; [reflexivity|]; tauto|].
  destruct (Ascii.eqb x slash) eqn:E6;
    [apply Ascii.eqb_eq in E6; eexists _, _; split; [reflexivity|]; tauto|].
  discriminate.
Qed.

Lemma special_amp x : special x = false -> x <> amp.
Proof. intros Hs ->. discriminate. Qed.

(** The escapes form a prefix code. *)
Lemma escape_prefix_free x y t u :
  escape x +:+ t = escape y +:+ u -> x = y /\ t = u.
Proof.
  destruct (special x) eqn:Hx; destruct (special y) eqn:Hy.
  - destruct (escape_special x Hx) as (_ & _ & _ & Hcx).
    destruct (escape_special y Hy) as (_ & _ & _ & Hcy).
    destruct Hcx as [[-> ->]|[[-> ->]|[[-> ->]|[[-> ->]|[[-> ->]|[-> ->]]]]]];
    destruct Hcy as [[-> ->]|[[-> ->]|[[-> ->]|[[-> ->]|[[-> ->]|[-> ->]]]]]];
    push_append; intros Heq; try discriminate; injection Heq as ->; split; reflexivity.
  - destruct (escape_special x Hx) as (c & rest & -> & _).
    rewrite (escape_plain y Hy). push_append. intros [= <- _].
    exfalso. exact (special_amp _ Hy eq_refl).
  - destruct (escape_special y Hy) as (c & rest & -> & _).
    rewrite (escape_plain x Hx). push_append. intros [= -> _].
    exfalso. exact (special_amp _ Hx eq_refl).
  - rewrite (escape_plain x Hx), (escape_plain y Hy). push_append. intros [= -> ->].
    split; reflexivity.
Qed.

Lemma escape_nonempty x t : escape x +:+ t <> EmptyString.
Proof.
  destruct (special x) eqn:Hx.
  - destruct (escape_special x Hx) as (c & rest & -> & _). push_append. discriminate.
  - rewrite (escape_plain x Hx). push_append. discriminate.
Qed.

Lemma escape_all_injective a b : escape_all a = escape_all b -> a = b.
Proof.
  revert b. induction a as [|x a IH]; intros [|y b]; cbn [escape_all]; intros Heq.
  - reflexivity.
  - exfalso. exact (escape_nonempty y _ (eq_sym Heq)).
  - exfalso. exact (escape_nonempty x _ Heq).
  - apply escape_prefix_free in Heq as [-> Heq]. f_equal. apply IH. exact Heq.
Qed.

(** X23.  [sanitizeHtml] loses nothing: the escapes form a prefix code,
    so two inputs have the same output only if they are equal. *)
Theorem sanitizeHtml_injective a b : sanitizeHtml a = sanitizeHtml b <-> a = b.
Proof.
  split; [|intros ->; reflexivity].
  rewrite !sanitizeHtml_escape_all. apply escape_all_injective.
Qed.

(** X24.  [sanitizeHtml] returns its input unchanged exactly when the
    input contains none of the six characters it replaces. *)
Theorem sanitizeHtml_fixes_plain_text s :
  sanitizeHtml s = s <-> forallb (fun x => negb (special x)) (String.list_ascii_of_string s) = true.
Proof.
  rewrite sanitizeHtml_escape_all. split.
  - intros Heq.
    assert (Hlen : String.length (escape_all s) = String.length s) by (rewrite Heq; reflexivity).
    clear Heq. induction s as [|x s IH]; [reflexivity|].
    cbn [escape_all String.list_ascii_of_string forallb] in *.
    rewrite length_append in Hlen.
    assert (Hge : (String.length s <= String.length (escape_all s))%nat).
    { clear. induction s as [|y s IH]; [reflexivity|]. cbn [escape_all].
      rewrite length_append.
      assert (1 <= String.length (escape y))%nat
        by (destruct y as [[] [] [] [] [] [] [] []]; simpl; lia).
      simpl. lia. }
    destruct (special x) eqn:Hx.
    + destruct (escape_special x Hx) as (c & rest & Hesc & _). rewrite Hesc in Hlen.
      simpl in Hlen. lia.
    + rewrite (escape_plain x Hx) in Hlen. simpl in Hlen. simpl. apply IH. lia.
  - induction s as [|x s IH]; [reflexivity|].
    cbn [escape_all String.list_ascii_of_string forallb].
    intros Hall. apply andb_true_iff in Hall as [Hx Hrest].
    apply negb_true_iff in Hx. rewrite (escape_plain x Hx), (IH Hrest). reflexivity.
Qed.

End Sanitize.

(** ** The cart *)

Section CartFacts.
Variable Product : Type.
Variable id_of : Product -> string.

Abbreviation CartItem := (Cart.CartItem Product).
Abbreviation addItem := (Cart.addItem Product id_of).
Abbreviation removeItem := (Cart.removeItem Product id_of).
Abbreviation updateQuantity := (Cart.updateQuantity Product id_of).
Abbreviation totalItems := (Cart.totalItems Product).
Abbreviation ids := (Cart.ids Product id_of).
Abbreviation quantity_of := (Cart.quantity_of Product id_of).
Abbreviation line_id := (fun item : CartItem => id_of (Cart.product Product item)).
Abbreviation quantity := (Cart.quantity Product).

(** The line of product [k] with its quantity set to [z]; other lines as
    they are: the function both [map]s of the updates apply. *)
Abbreviation set_quantity k z :=
  (fun item : CartItem =>
     if bool_decide (line_id item = k)
     then {| Cart.product := Cart.product Product item; Cart.quantity := z |}
     else item).

Lemma ids_set_quantity k z (l : list CartItem) : ids (map (set_quantity k z) l) = ids l.
Proof.
  unfold Cart.ids. induction l as [|x l IH]; [reflexivity|].
  cbn [map]. rewrite IH. case_bool_decide; reflexivity.
Qed.

Lemma find_line_None k (l : list CartItem) :
  List.find (fun item => bool_decide (line_id item = k)) l = None <-> ~ In k (ids l).
Proof.
  unfold Cart.ids. induction l as [|x l IH]; cbn [List.find map In]; [tauto|].
  case_bool_decide as Hx; [split; [discriminate | intros Hn; exfalso; auto]|].
  rewrite IH. tauto.
Qed.

Lemma find_line_Some k (l : list CartItem) item :
  List.find (fun item => bool_decide (line_id item = k)) l = Some item ->
  line_id item = k /\ In k (ids l).
Proof.
  unfold Cart.ids. induction l as [|x l IH]; cbn [List.find map In]; [discriminate|].
  case_bool_decide as Hx.
  - intros [= <-]. auto.
  - intros Hf. destruct (IH Hf) as [? ?]. auto.
Qed.

Lemma ids_filter_sublist k (l : list CartItem) :
  ids (List.filter (fun item => negb (bool_decide (line_id item = k))) l) `sublist_of` ids l.
Proof.
  unfold Cart.ids. induction l as [|x l IH]; cbn [List.filter map]; [constructor|].
  case_bool_decide; cbn [negb map]; [apply sublist_cons | apply sublist_skip]; exact IH.
Qed.

Lemma ids_filter_out k (l : list CartItem) :
  ~ In k (ids (List.filter (fun item => negb (bool_decide (line_id item = k))) l)).
Proof.
  unfold Cart.ids. rewrite in_map_iff. intros (item & Hid & Hin).
  apply List.filter_In in Hin as [_ Hkeep]. rewrite bool_decide_eq_true_2 in Hkeep by exact Hid.
  discriminate.
Qed.

Lemma filter_out_absent k (l : list CartItem) :
  ~ In k (ids l) ->
  List.filter (fun item => negb (bool_decide (line_id item = k))) l = l.
Proof.
  unfold Cart.ids. induction l as [|x l IH]; cbn [List.filter map In]; [reflexivity|].
  intros Hn. rewrite bool_decide_eq_false_2 by (intros He; apply Hn; left; exact He).
  cbn [negb]. rewrite IH by (intros Hi; apply Hn; right; exact Hi). reflexivity.
Qed.

(** X25.  A cart with one line per product keeps one line per product
    under [addItem], [removeItem] and [updateQuantity]. *)
Theorem cart_lines_stay_distinct p q k z (prev : list CartItem) :
  NoDup (ids prev) ->
  NoDup (ids (addItem p q prev)) /\
  NoDup (ids (removeItem k prev)) /\
  NoDup (ids (updateQuantity k z prev)).
Proof.
  intros Hnd. split; [|split].
  - unfold Cart.addItem.
    destruct (List.find _ prev) as [existing|] eqn:Hf.
    + rewrite ids_set_quantity. exact Hnd.
    + apply find_line_None in Hf. unfold Cart.ids in *. rewrite map_app. cbn [map].
      apply list.NoDup_app. split; [exact Hnd|]. split; [|apply NoDup_singleton].
      intros x Hx Hx'. apply list_elem_of_singleton in Hx'. subst x.
      apply Hf. apply list_elem_of_In. exact Hx.
  - unfold Cart.removeItem. eapply sublist_NoDup; [exact Hnd | apply ids_filter_sublist].
  - unfold Cart.updateQuantity. destruct (z <=? 0)%Z.
    + eapply sublist_NoDup; [exact Hnd | apply ids_filter_sublist].
    + rewrite ids_set_quantity. exact Hnd.
Qed.

Lemma quantity_of_set_same k z (l : list CartItem) :
  In k (ids l) -> quantity_of k (map (set_quantity k z) l) = z.
Proof.
  unfold Cart.quantity_of, Cart.ids.
  induction l as [|x l IH]; cbn [map In List.find]; [tauto|].
  intros Hin. destruct (decide (line_id x = k)) as [Hx|Hx]; cbv beta in Hx.
  - rewrite (bool_decide_eq_true_2 _ Hx). cbn [Cart.product].
    rewrite (bool_decide_eq_true_2 _ Hx). reflexivity.
  - rewrite (bool_decide_eq_false_2 _ Hx). rewrite (bool_decide_eq_false_2 _ Hx).
    apply IH. destruct Hin as [Hin|Hin]; [contradiction | exact Hin].
Qed.

Lemma quantity_of_set_other k k' z (l : list CartItem) :
  k' <> k -> quantity_of k' (map (set_quantity k z) l) = quantity_of k' l.
Proof.
  intros Hne. unfold Cart.quantity_of.
  induction l as [|x l IH]; cbn [map List.find]; [reflexivity|].
  destruct (decide (line_id x = k)) as [Hx|Hx]; cbv beta in Hx.
  - rewrite (bool_decide_eq_true_2 _ Hx). cbn [Cart.product].
    rewrite !bool_decide_eq_false_2 by congruence. exact IH.
  - rewrite (bool_decide_eq_false_2 _ Hx).
    case_bool_decide; [reflexivity | exact IH].
Qed.

Lemma quantity_of_app_new k (l : list CartItem) item :
  quantity_of k (l ++ [item])
  = if bool_decide (k ∈ ids l) then quantity_of k l
    else if bool_decide (line_id item = k) then quantity item else 0.
Proof.
  unfold Cart.quantity_of, Cart.ids.
  induction l as [|x l IH]; cbn [app map List.find].
  - rewrite (bool_decide_eq_false_2 (k ∈ [])) by apply not_elem_of_nil.
    case_bool_decide; reflexivity.
  - destruct (decide (line_id x = k)) as [Hx|Hx]; cbv beta in Hx.
    + rewrite (bool_decide_eq_true_2 _ Hx).
      rewrite (bool_decide_eq_true_2 (k ∈ _ :: _)) by (rewrite Hx; apply list_elem_of_here).
      reflexivity.
    + rewrite (bool_decide_eq_false_2 _ Hx). rewrite IH.
      assert (Hiff : k ∈ map line_id l <-> k ∈ line_id x :: map line_id l).
      { rewrite elem_of_cons. split; [auto | intros [?|?]; [congruence | assumption]]. }
      rewrite (bool_decide_ext _ _ Hiff). reflexivity.
Qed.

Lemma totalItems_from (l : list CartItem) a :
  fold_left (fun sum item => sum + quantity item) l a
  = a + fold_left (fun sum item => sum + quantity item) l 0.
Proof.
  revert a. induction l as [|x l IH]; intros a; cbn [fold_left]; [lia|].
  rewrite (IH (a + quantity x)), (IH (0 + quantity x)). lia.
Qed.

Lemma totalItems_cons x (l : list CartItem) :
  totalItems (x :: l) = quantity x + totalItems l.
Proof. unfold Cart.totalItems. cbn [fold_left]. rewrite totalItems_from. lia. Qed.

Lemma totalItems_app (l1 l2 : list CartItem) :
  totalItems (l1 ++ l2) = totalItems l1 + totalItems l2.
Proof.
  induction l1 as [|x l1 IH]; [unfold Cart.totalItems at 2; simpl; lia|].
  cbn [app]. rewrite !totalItems_cons, IH. lia.
Qed.

Lemma set_quantity_absent k z (l : list CartItem) :
  ~ In k (ids l) -> map (set_quantity k z) l = l.
Proof.
  unfold Cart.ids. induction l as [|x l IH]; cbn [map In]; [reflexivity|].
  intros Hn. rewrite bool_decide_eq_false_2 by (intros He; apply Hn; left; exact He).
  rewrite IH by (intros Hi; apply Hn; right; exact Hi). reflexivity.
Qed.

Lemma totalItems_set_quantity k z (l : list CartItem) :
  NoDup (ids l) -> In k (ids l) ->
  totalItems (map (set_quantity k z) l) = totalItems l - quantity_of k l + z.
Proof.
  unfold Cart.ids. induction l as [|x l IH]; cbn [map In]; [tauto|].
  intros Hnd Hin. apply list.NoDup_cons in Hnd as [Hx Hnd].
  rewrite !totalItems_cons. unfold Cart.quantity_of. cbn [List.find].
  destruct (decide (line_id x = k)) as [Hk|Hk]; cbv beta in Hk.
  - rewrite !(bool_decide_eq_true_2 _ Hk). cbn [Cart.quantity].
    rewrite set_quantity_absent; [lia|].
    intros Hi. apply Hx. rewrite Hk. apply list_elem_of_In. exact Hi.
  - rewrite !(bool_decide_eq_false_2 _ Hk).
    destruct Hin as [Hin|Hin]; [contradiction|].
    rewrite (IH Hnd Hin). unfold Cart.quantity_of. lia.
Qed.

(** X26.  [addItem] raises the quantity the cart holds of the product by
    the given quantity (one by default), leaves the other products'
    quantities as they were, and in a cart with one line per product raises
    the item count by the same amount. *)
Theorem addItem_adds_quantity p q (prev : list CartItem) :
  quantity_of (id_of p) (addItem p q prev) = quantity_of (id_of p) prev + default 1 q /\
  (forall k, k <> id_of p -> quantity_of k (addItem p q prev) = quantity_of k prev) /\
  (NoDup (ids prev) -> totalItems (addItem p q prev) = totalItems prev + default 1 q).
Proof.
  unfold Cart.addItem.
  destruct (List.find _ prev) as [existing|] eqn:Hf.
  - pose proof (find_line_Some _ _ _ Hf) as [Hid Hin].
    assert (Hq : quantity_of (id_of p) prev = quantity existing)
      by (unfold Cart.quantity_of; rewrite Hf; reflexivity).
    split; [|split].
    + rewrite quantity_of_set_same by exact Hin. rewrite Hq. reflexivity.
    + intros k Hk. apply quantity_of_set_other. exact Hk.
    + intros Hnd. rewrite totalItems_set_quantity by assumption. rewrite Hq. lia.
  - pose proof (proj1 (find_line_None _ _) Hf) as Hnin.
    assert (Hq : quantity_of (id_of p) prev = 0)
      by (unfold Cart.quantity_of; rewrite Hf; reflexivity).
    split; [|split].
    + rewrite quantity_of_app_new.
      rewrite bool_decide_eq_false_2 by (rewrite list_elem_of_In; exact Hnin).
      cbn [Cart.product Cart.quantity]. rewrite bool_decide_eq_true_2 by reflexivity.
      rewrite Hq. lia.
    + intros k Hk. rewrite quantity_of_app_new. cbn [Cart.product].
      rewrite (bool_decide_eq_false_2 (id_of p = k)) by congruence.
      case_bool_decide as Hin; [reflexivity|]. rewrite list_elem_of_In in Hin.
      unfold Cart.quantity_of.
      rewrite (proj2 (find_line_None k prev) Hin). reflexivity.
    + intros _. rewrite totalItems_app. unfold Cart.totalItems at 2. simpl. lia.
Qed.

(** X27.  After [removeItem] the product is not in the cart; removing a
    product just added gives what removing it before would have given, and
    the cart as it was when the product was not in it. *)
Theorem removeItem_undoes_addItem p q k (prev : list CartItem) :
  (k ∉ ids (removeItem k prev)) /\
  removeItem (id_of p) (addItem p q prev) = removeItem (id_of p) prev /\
  (id_of p ∉ ids prev -> removeItem (id_of p) (addItem p q prev) = prev).
Proof.
  split; [rewrite list_elem_of_In; apply ids_filter_out|].
  assert (Hrm : removeItem (id_of p) (addItem p q prev) = removeItem (id_of p) prev).
  { unfold Cart.removeItem, Cart.addItem.
    destruct (List.find _ prev) as [existing|] eqn:Hf.
    - clear Hf. induction prev as [|x l IH]; [reflexivity|]. cbn [map List.filter].
      destruct (decide (line_id x = id_of p)) as [Hx|Hx]; cbv beta in Hx.
      + rewrite !(bool_decide_eq_true_2 _ Hx). cbn [negb]. exact IH.
      + rewrite !(bool_decide_eq_false_2 _ Hx). cbn [negb]. rewrite IH. reflexivity.
    - rewrite List.filter_app. cbn [List.filter Cart.product].
      rewrite bool_decide_eq_true_2 by reflexivity. cbn [negb]. apply app_nil_r. }
  split; [exact Hrm|].
  intros Hnin. rewrite Hrm. apply filter_out_absent.
  rewrite <- list_elem_of_In. exact Hnin.
Qed.

(** X28.  [updateQuantity] with a quantity that is not positive removes
    the product; with a positive one it keeps the lines and their order,
    sets the quantity of the product when the cart holds it, and leaves the
    other products' quantities as they were. *)
Theorem updateQuantity_sets_quantity k z (prev : list CartItem) :
  (z <= 0 -> updateQuantity k z prev = removeItem k prev) /\
  (0 < z ->
   ids (updateQuantity k z prev) = ids prev /\
   (k ∈ ids prev -> quantity_of k (updateQuantity k z prev) = z) /\
   (forall k', k' <> k -> quantity_of k' (updateQuantity k z prev) = quantity_of k' prev)).
Proof.
  unfold Cart.updateQuantity, Cart.removeItem. split.
  - intros Hz. rewrite (proj2 (Z.leb_le z 0) Hz). reflexivity.
  - intros Hz. rewrite (proj2 (Z.leb_gt z 0) Hz).
    split; [apply ids_set_quantity|]. split.
    + intros Hin. apply quantity_of_set_same, list_elem_of_In, Hin.
    + intros k' Hk. apply quantity_of_set_other. exact Hk.
Qed.

End CartFacts.

Lemma cart_lines_stay_distinct_witness :
  NoDup (Cart.ids string (fun p => p) (Cart.addItem string (fun p => p) "ring" None Shop.basket)) /\
  NoDup (Cart.ids string (fun p => p) (Cart.removeItem string (fun p => p) "ring" Shop.basket)) /\
  NoDup (Cart.ids string (fun p => p)
           (Cart.updateQuantity string (fun p => p) "ring" 3 Shop.basket)).
Proof.
  apply (cart_lines_stay_distinct string (fun p => p) "ring" None "ring" 3 Shop.basket).
  apply NoDup_cons_2; [|apply NoDup_singleton].
  intros Hin. apply list_elem_of_singleton in Hin. discriminate.
Defined.

(** ** The pincode lookup *)

Section PincodeFacts.
Import Pincode.


End PincodeFacts.
